(** * iptv_superA: channel merge engine and catch-up capability detection

    A shallow embedding of the Python sources

      - [src/core/merger.py]            (class [ChannelMerger])
      - [src/generator.py]              (class [IPTVGenerator])
      - [src/detector.py]               (class [StreamDetector])
      - [src/generators/m3u_generator.py] (class [M3UGenerator])
      - [main.py]

    Conventions of the embedding.

      - A Python [str] is a [string]: a sequence of code points below 256.
        [len] is [String.length]; whitespace, line boundaries and case folding
        are those of Python restricted to that range.
      - A raised exception is the [Raise] branch of [result]; [try/except] is
        a match on it.
      - A [dict] is an association list in insertion order ([PyDict]).
      - Library calls whose value is never inspected by the code
        ([urllib.parse], [strftime]) are Section variables; [Urllib] holds
        a model of the four functions of [urllib.parse], for the examples.
      - The network and the clock are functions of the number of requests
        already issued, so that a server may answer the same request
        differently over time; every request is recorded in a trace. *)

From Stdlib Require Import String Ascii List ZArith Lia Bool Arith DecimalString.
Import ListNotations.

Local Open Scope string_scope.
Local Open Scope list_scope.

(* ================================================================== *)
(** ** Exceptions *)

Inductive exn : Type :=
| AttributeError (what : string)
| TypeError (what : string)
| ValueError (what : string)
| KeyError (key : string)
| NameError (name : string)
| OverflowError (what : string).

Inductive result (A : Type) : Type :=
| Ok (a : A)
| Raise (e : exn).

Arguments Ok {A} a.
Arguments Raise {A} e.

Definition rbind {A B : Type} (m : result A) (k : A -> result B) : result B :=
  match m with
  | Ok a => k a
  | Raise e => Raise e
  end.

Declare Scope result_scope.
Delimit Scope result_scope with result.
Notation "x <- m ;; k" := (rbind m (fun x => k))
  (at level 61, m at next level, right associativity) : result_scope.

(* ================================================================== *)
(** ** Python string operations *)

Module Py.

Definition code (c : ascii) : N := N_of_ascii c.

(** The one-character strings for a line feed and a double quote. *)
Definition LF : string := String "010"%char EmptyString.
Definition DQ : string := String "034"%char EmptyString.

(** [str.isspace] on one code point below 256. *)
Definition isspace (c : ascii) : bool :=
  let n := code c in
  ((9 <=? n) && (n <=? 13))%N || ((28 <=? n) && (n <=? 32))%N
  || (n =? 133)%N || (n =? 160)%N.

(** Line boundaries of [str.splitlines], CR LF apart. *)
Definition islinebreak (c : ascii) : bool :=
  let n := code c in
  ((10 <=? n) && (n <=? 13))%N || ((28 <=? n) && (n <=? 30))%N || (n =? 133)%N.

Definition lower_char (c : ascii) : ascii :=
  let n := code c in
  if ((65 <=? n) && (n <=? 90))%N
     || (((192 <=? n) && (n <=? 222))%N && negb (n =? 215)%N)
  then ascii_of_N (n + 32) else c.

Fixpoint lower (s : string) : string :=
  match s with
  | EmptyString => EmptyString
  | String c r => String (lower_char c) (lower r)
  end.

Fixpoint lstrip (s : string) : string :=
  match s with
  | EmptyString => EmptyString
  | String c r => if isspace c then lstrip r else s
  end.

Fixpoint rstrip (s : string) : string :=
  match s with
  | EmptyString => EmptyString
  | String c r =>
      let r' := rstrip r in
      if isspace c && (r' =? "") then "" else String c r'
  end.

Definition strip (s : string) : string := rstrip (lstrip s).

Fixpoint startswith (p s : string) : bool :=
  match p, s with
  | EmptyString, _ => true
  | String a p', String b s' => Ascii.eqb a b && startswith p' s'
  | String _ _, EmptyString => false
  end.

(** [s.endswith(suf)]: some suffix of [s] is [suf]. *)
Fixpoint endswith (suf s : string) : bool :=
  (s =? suf) ||
  match s with
  | EmptyString => false
  | String _ r => endswith suf r
  end.

(** [sub in s]. *)
Fixpoint contains (sub s : string) : bool :=
  startswith sub s ||
  match s with
  | EmptyString => false
  | String _ r => contains sub r
  end.

(** [s.split(sep)] for a non-empty separator: [skip] counts the characters
    of a separator just matched that are still to be passed over. *)
Fixpoint split_aux (sep s : string) (skip : nat) (cur : string) : list string :=
  match s with
  | EmptyString => [cur]
  | String c r =>
      match skip with
      | S k => split_aux sep r k cur
      | O =>
          if startswith sep s
          then cur :: split_aux sep r (String.length sep - 1) ""
          else split_aux sep r 0 (cur ++ String c "")
      end
  end.

Definition split (sep s : string) : list string := split_aux sep s 0 "".

(** [s.split(sep, 1)]: at most one cut, at the first occurrence. *)
Fixpoint split1_aux (sep s : string) (cur : string) : list string :=
  match s with
  | EmptyString => [cur]
  | String c r =>
      if startswith sep s
      then [cur; substring (String.length sep) (String.length s) s]
      else split1_aux sep r (cur ++ String c "")
  end.

Definition split1 (sep s : string) : list string := split1_aux sep s "".

(** [s.splitlines()]. *)
Fixpoint splitlines_aux (s : string) (cur : string) : list string :=
  match s with
  | EmptyString => if cur =? "" then [] else [cur]
  | String c r =>
      if islinebreak c then
        match c, r with
        | "013"%char, String "010"%char r' => cur :: splitlines_aux r' ""
        | _, _ => cur :: splitlines_aux r ""
        end
      else splitlines_aux r (cur ++ String c "")
  end.

Definition splitlines (s : string) : list string := splitlines_aux s "".

(** [str.encode('utf-8')] for code points below 256. *)
Fixpoint encode_utf8 (s : string) : list Z :=
  match s with
  | EmptyString => []
  | String c r =>
      let n := Z.of_N (code c) in
      if (n <? 128)%Z then n :: encode_utf8 r
      else (192 + n / 64)%Z :: (128 + n mod 64)%Z :: encode_utf8 r
  end.

Definition isdigit (c : ascii) : bool :=
  let n := code c in ((48 <=? n) && (n <=? 57))%N.

(** Digits of an [int] literal after the sign: decimal digits, single
    underscores allowed between digits. [acc] is the value so far,
    [prev] tells whether the previous character was a digit. *)
Fixpoint int_digits (s : string) (acc : Z) (prev : bool) : option Z :=
  match s with
  | EmptyString => if prev then Some acc else None
  | String c r =>
      if isdigit c
      then int_digits r (10 * acc + (Z.of_N (code c) - 48))%Z true
      else if Ascii.eqb c "_"%char && prev
           then match r with
                | EmptyString => None
                | String d _ => if isdigit d then int_digits r acc false else None
                end
           else None
  end.

(** The characters [int] skips around the literal: ASCII white space, and
    the two code points above 127 that are white space. The separators
    0x1c-0x1f, which [str.strip] removes, are not among them. *)
Definition int_space (c : ascii) : bool :=
  let n := code c in
  ((9 <=? n) && (n <=? 13))%N || (n =? 32)%N || (n =? 133)%N || (n =? 160)%N.

Fixpoint int_lstrip (s : string) : string :=
  match s with
  | EmptyString => EmptyString
  | String c r => if int_space c then int_lstrip r else s
  end.

Fixpoint int_rstrip (s : string) : string :=
  match s with
  | EmptyString => EmptyString
  | String c r =>
      let r' := int_rstrip r in
      if int_space c && (r' =? "") then "" else String c r'
  end.

Fixpoint count_digits (s : string) : nat :=
  match s with
  | EmptyString => 0
  | String c r => if isdigit c then S (count_digits r) else count_digits r
  end.

(** [int(s)] for a [str] argument, with the default limit of 4300 digits
    on the conversion. *)
Definition int (s : string) : result Z :=
  let t := int_rstrip (int_lstrip s) in
  let bad := Raise (ValueError "invalid literal for int() with base 10") in
  let digits := match t with
                | String "-"%char r => r
                | String "+"%char r => r
                | _ => t
                end in
  match int_digits digits 0 false with
  | None => bad
  | Some v =>
      if (4300 <? count_digits digits)%nat
      then Raise (ValueError
                    "Exceeds the limit (4300 digits) for integer string conversion")
      else match t with
           | String "-"%char _ => Ok (- v)%Z
           | _ => Ok v
           end
  end.

End Py.

(* ================================================================== *)
(** ** [hashlib.md5(...).hexdigest()] (RFC 1321) *)

Module MD5.

Local Open Scope Z_scope.

Definition mask32 (x : Z) : Z := Z.land x 4294967295.
Definition add32 (x y : Z) : Z := mask32 (x + y).
Definition not32 (x : Z) : Z := Z.lxor x 4294967295.
Definition rotl32 (x c : Z) : Z :=
  mask32 (Z.lor (Z.shiftl x c) (Z.shiftr x (32 - c))).

Definition K : list Z :=
  [ 3614090360; 3905402710; 606105819; 3250441966;
    4118548399; 1200080426; 2821735955; 4249261313;
    1770035416; 2336552879; 4294925233; 2304563134;
    1804603682; 4254626195; 2792965006; 1236535329;
    4129170786; 3225465664; 643717713; 3921069994;
    3593408605; 38016083; 3634488961; 3889429448;
    568446438; 3275163606; 4107603335; 1163531501;
    2850285829; 4243563512; 1735328473; 2368359562;
    4294588738; 2272392833; 1839030562; 4259657740;
    2763975236; 1272893353; 4139469664; 3200236656;
    681279174; 3936430074; 3572445317; 76029189;
    3654602809; 3873151461; 530742520; 3299628645;
    4096336452; 1126891415; 2878612391; 4237533241;
    1700485571; 2399980690; 4293915773; 2240044497;
    1873313359; 4264355552; 2734768916; 1309151649;
    4149444226; 3174756917; 718787259; 3951481745 ].

Definition shifts : list Z :=
  [ 7; 12; 17; 22; 7; 12; 17; 22; 7; 12; 17; 22; 7; 12; 17; 22;
    5; 9; 14; 20; 5; 9; 14; 20; 5; 9; 14; 20; 5; 9; 14; 20;
    4; 11; 16; 23; 4; 11; 16; 23; 4; 11; 16; 23; 4; 11; 16; 23;
    6; 10; 15; 21; 6; 10; 15; 21; 6; 10; 15; 21; 6; 10; 15; 21 ].

(** Little-endian bytes of [x], [n] of them. *)
Fixpoint le_bytes (n : nat) (x : Z) : list Z :=
  match n with
  | O => []
  | S k => Z.land x 255 :: le_bytes k (Z.shiftr x 8)
  end.

Fixpoint le_word (bs : list Z) : Z :=
  match bs with
  | [] => 0
  | b :: r => b + 256 * le_word r
  end.

Definition pad (msg : list Z) : list Z :=
  let len := Z.of_nat (List.length msg) in
  let zeros := Z.to_nat ((55 - len) mod 64) in
  msg ++ [128] ++ repeat 0 zeros ++ le_bytes 8 (8 * len).

Fixpoint words (n : nat) (bs : list Z) : list Z :=
  match n with
  | O => []
  | S k => le_word (firstn 4 bs) :: words k (skipn 4 bs)
  end.

Definition state : Type := Z * Z * Z * Z.

Definition step (M : list Z) (st : state) (i : nat) : state :=
  let '(a, b, c, d) := st in
  let iz := Z.of_nat i in
  let '(f, g) :=
    match (i / 16)%nat with
    | 0%nat => (Z.lor (Z.land b c) (Z.land (not32 b) d), iz)
    | 1%nat => (Z.lor (Z.land d b) (Z.land (not32 d) c), (5 * iz + 1) mod 16)
    | 2%nat => (Z.lxor b (Z.lxor c d), (3 * iz + 5) mod 16)
    | _ => (Z.lxor c (Z.lor b (not32 d)), (7 * iz) mod 16)
    end in
  let f' := add32 (add32 (add32 f a) (nth i K 0)) (nth (Z.to_nat g) M 0) in
  (d, add32 b (rotl32 f' (nth i shifts 0)), b, c).

Definition block (st : state) (bs : list Z) : state :=
  let M := words 16 bs in
  let '(a, b, c, d) := fold_left (step M) (seq 0 64) st in
  let '(a0, b0, c0, d0) := st in
  (add32 a0 a, add32 b0 b, add32 c0 c, add32 d0 d).

Fixpoint blocks (n : nat) (st : state) (bs : list Z) : state :=
  match n with
  | O => st
  | S k => blocks k (block st (firstn 64 bs)) (skipn 64 bs)
  end.

Definition init : state := (1732584193, 4023233417, 2562383102, 271733878).

Definition digest (msg : list Z) : list Z :=
  let p := pad msg in
  let '(a, b, c, d) := blocks (List.length p / 64) init p in
  le_bytes 4 a ++ le_bytes 4 b ++ le_bytes 4 c ++ le_bytes 4 d.

Definition hexdigit (n : Z) : ascii :=
  if n <? 10 then ascii_of_N (Z.to_N (48 + n)) else ascii_of_N (Z.to_N (87 + n)).

Fixpoint hex (bs : list Z) : string :=
  match bs with
  | [] => EmptyString
  | b :: r => String (hexdigit (b / 16)) (String (hexdigit (b mod 16)) (hex r))
  end.

Definition hexdigest (msg : list Z) : string := hex (digest msg).

End MD5.

(* ================================================================== *)
(** ** Insertion-ordered dictionaries with [str] keys *)

Module PyDict.

Section Dict.
Context {V : Type}.

Definition t : Type := list (string * V).

Definition empty : t := [].

(** [d.get(k)] *)
Fixpoint get (k : string) (d : t) : option V :=
  match d with
  | [] => None
  | (k', v) :: r => if k' =? k then Some v else get k r
  end.

(** [d[k] = v]: an existing key keeps its position, a new one goes last. *)
Fixpoint set (k : string) (v : V) (d : t) : t :=
  match d with
  | [] => [(k, v)]
  | (k', v') :: r => if k' =? k then (k', v) :: r else (k', v') :: set k v r
  end.

Definition keys (d : t) : list string := map fst d.
Definition values (d : t) : list V := map snd d.
End Dict.

Arguments t V : clear implicits.

End PyDict.

(* ================================================================== *)
(** ** [re.findall] for the attribute pattern: a non-empty run of key
    characters, an equals sign, and a double-quoted value without quotes
    inside; two groups, the key and the value *)

Module Re.

Fixpoint span (p : ascii -> bool) (s : string) : string * string :=
  match s with
  | EmptyString => (EmptyString, EmptyString)
  | String c r =>
      if p c then let '(a, b) := span p r in (String c a, b)
      else (EmptyString, s)
  end.

Definition quote : ascii := "034"%char.

(** A match of the pattern anchored at the start of [s]: the two groups
    and the length of the match. Both repetitions are greedy and what
    follows each of them is outside its character class, so there is
    nothing to backtrack into. *)
Definition match_attr (iskey : ascii -> bool) (s : string)
  : option (string * string * nat) :=
  let '(k, r) := span iskey s in
  if k =? "" then None
  else match r with
       | String "="%char (String q r2) =>
           if Ascii.eqb q quote then
             let '(v, r3) := span (fun c => negb (Ascii.eqb c quote)) r2 in
             match r3 with
             | String _ _ =>
                 Some (k, v, (String.length k + 2 + String.length v + 1)%nat)
             | EmptyString => None
             end
           else None
       | _ => None
       end.

(** Leftmost non-overlapping matches; [skip] counts the characters of the
    last match still to be passed over. *)
Fixpoint findall_attr (iskey : ascii -> bool) (s : string) (skip : nat)
  : list (string * string) :=
  match s with
  | EmptyString => []
  | String _ r =>
      match skip with
      | S k => findall_attr iskey r k
      | O =>
          match match_attr iskey s with
          | Some (k, v, n) => (k, v) :: findall_attr iskey r (n - 1)
          | None => findall_attr iskey r 0
          end
      end
  end.

Definition in_range (lo hi : N) (c : ascii) : bool :=
  ((lo <=? Py.code c) && (Py.code c <=? hi))%N.

(** [[a-zA-Z0-9-]] *)
Definition alnum_dash (c : ascii) : bool :=
  in_range 97 122 c || in_range 65 90 c || in_range 48 57 c
  || Ascii.eqb c "-"%char.

(** [[a-z-]] *)
Definition lower_dash (c : ascii) : bool :=
  in_range 97 122 c || Ascii.eqb c "-"%char.

End Re.

(** Attribute access [.strip] on a [list] object. *)
Definition list_strip (l : list string) : result string :=
  Raise (AttributeError "'list' object has no attribute 'strip'").

(* ================================================================== *)
(** ** Configuration ([config/sources.json], as the code reads it) *)

Record filters_config : Type := {
  min_duration : Z;
  allowed_extensions : list string
}.

Record catchup_config : Type := {
  enable : bool;
  days : Z;
  template : string
}.

Record tvbox_config : Type := {
  catchup : catchup_config;
  epg : string
}.

Record config : Type := {
  filters : filters_config;
  tvbox : tvbox_config
}.

(* ================================================================== *)
(** ** [src/core/merger.py]: class [ChannelMerger] *)

Module ChannelMerger.

Local Open Scope result_scope.

(** The channel dict built by [_parse_extinf]; the key ['source'] is added
    by [parse_m3u]. *)
Record channel : Type := {
  name : string;
  group : string;
  tvg_id : string;
  logo : string;
  duration : Z;
  url : string;
  source : option string
}.

Definition set_name (v : string) (c : channel) : channel :=
  {| name := v; group := group c; tvg_id := tvg_id c; logo := logo c;
     duration := duration c; url := url c; source := source c |}.
Definition set_group (v : string) (c : channel) : channel :=
  {| name := name c; group := v; tvg_id := tvg_id c; logo := logo c;
     duration := duration c; url := url c; source := source c |}.
Definition set_tvg_id (v : string) (c : channel) : channel :=
  {| name := name c; group := group c; tvg_id := v; logo := logo c;
     duration := duration c; url := url c; source := source c |}.
Definition set_logo (v : string) (c : channel) : channel :=
  {| name := name c; group := group c; tvg_id := tvg_id c; logo := v;
     duration := duration c; url := url c; source := source c |}.
Definition set_duration (v : Z) (c : channel) : channel :=
  {| name := name c; group := group c; tvg_id := tvg_id c; logo := logo c;
     duration := v; url := url c; source := source c |}.
Definition set_url (v : string) (c : channel) : channel :=
  {| name := name c; group := group c; tvg_id := tvg_id c; logo := logo c;
     duration := duration c; url := v; source := source c |}.
Definition set_source (v : string) (c : channel) : channel :=
  {| name := name c; group := group c; tvg_id := tvg_id c; logo := logo c;
     duration := duration c; url := url c; source := Some v |}.

(** [_generate_channel_id]: md5 of ["{name}|{group}"]. *)
Definition _generate_channel_id (c : channel) : string :=
  let key := (name c ++ "|" ++ group c)%string in
  MD5.hexdigest (Py.encode_utf8 key).

Definition new_channel : channel :=
  {| name := ""; group := "Other"; tvg_id := ""; logo := "";
     duration := (-1)%Z; url := ""; source := None |}.

(** The [for attr, value in attrs] loop of [_parse_extinf]. *)
Fixpoint apply_attrs (attrs : list (string * string)) (c : channel)
  : result channel :=
  match attrs with
  | [] => Ok c
  | (attr, value) :: rest =>
      if attr =? "group-title" then apply_attrs rest (set_group value c)
      else if attr =? "tvg-id" then apply_attrs rest (set_tvg_id value c)
      else if attr =? "tvg-logo" then apply_attrs rest (set_logo value c)
      else if attr =? "duration" then
        d <- Py.int value ;; apply_attrs rest (set_duration d c)
      else apply_attrs rest c
  end.

Definition _parse_extinf (line : string) : result channel :=
  c <- (if Py.contains ", " line
        then v <- list_strip (Py.split ", " line) ;; Ok (set_name v new_channel)
        else Ok new_channel) ;;
  apply_attrs (Re.findall_attr Re.alnum_dash line 0) c.

(** The line loop of [parse_m3u]: [current] is [current_channel]
    ([None] as in the source), [channels] the list built so far. *)
Fixpoint parse_lines (source_url : string) (lines : list string)
    (current : option channel) (channels : list channel)
  : result (list channel) :=
  match lines with
  | [] => Ok channels
  | raw :: rest =>
      let line := Py.strip raw in
      if line =? "" then parse_lines source_url rest current channels
      else if Py.startswith "#EXTINF" line then
        c <- _parse_extinf line ;;
        parse_lines source_url rest (Some c) channels
      else
        match current with
        | Some c =>
            if negb (Py.startswith "#" line)
            then parse_lines source_url rest None
                   (channels ++ [set_source source_url (set_url line c)])
            else parse_lines source_url rest current channels
        | None => parse_lines source_url rest current channels
        end
  end.

Definition parse_m3u (content source_url : string) : result (list channel) :=
  parse_lines source_url (Py.split Py.LF content) None [].

(** [_apply_filters]: [filtered] is the list built so far. *)
Fixpoint apply_filters_loop (f : filters_config) (channels filtered : list channel)
  : list channel :=
  match channels with
  | [] => filtered
  | c :: rest =>
      if ((0 <? min_duration f) && ((0 <? duration c)
           && (duration c <? min_duration f)))%Z
      then apply_filters_loop f rest filtered
      else
        let u := Py.lower (url c) in
        if negb (existsb (fun ext => Py.endswith ext u) (allowed_extensions f))
        then apply_filters_loop f rest filtered
        else apply_filters_loop f rest (filtered ++ [c])
  end.

Definition _apply_filters (cfg : config) (channels : list channel) : list channel :=
  apply_filters_loop (filters cfg) channels [].

(** First loop of [merge]: a source whose parse raises is logged and skipped. *)
Fixpoint parse_all (sources_data : list (string * string)) (all_channels : list channel)
  : list channel :=
  match sources_data with
  | [] => all_channels
  | (u, content) :: rest =>
      match parse_m3u content u with
      | Ok channels => parse_all rest (all_channels ++ channels)
      | Raise _ => parse_all rest all_channels
      end
  end.

(** Body of the de-duplication loop of [merge]. *)
Definition dedup_step (unique_channels : PyDict.t channel) (c : channel)
  : PyDict.t channel :=
  let channel_id := _generate_channel_id c in
  match PyDict.get channel_id unique_channels with
  | None => PyDict.set channel_id c unique_channels
  | Some old =>
      if (String.length (url old) <? String.length (url c))%nat
      then PyDict.set channel_id c unique_channels
      else unique_channels
  end.

Definition dedup (all_channels : list channel) : PyDict.t channel :=
  fold_left dedup_step all_channels PyDict.empty.

Definition merge (cfg : config) (sources_data : list (string * string))
  : list channel :=
  let all_channels := parse_all sources_data [] in
  _apply_filters cfg (PyDict.values (dedup all_channels)).

End ChannelMerger.

(* ================================================================== *)
(** ** [urllib.parse], as far as the code depends on it *)

(** The named tuple returned by [urlparse]. *)
Record ParseResult : Type := {
  scheme : string;
  netloc : string;
  path : string;
  params : string;
  query : string;
  fragment : string
}.

(** [parsed._replace(query=q)] *)
Definition replace_query (p : ParseResult) (q : string) : ParseResult :=
  {| scheme := scheme p; netloc := netloc p; path := path p;
     params := params p; query := q; fragment := fragment p |}.

(** The library functions themselves are not modelled: the code only passes
    their values along. [urlparse] may raise [ValueError]; [parse_qs]
    returns a dict from names to lists of values; [urlencode] stands for
    [urlencode(..., doseq=True)]. *)
Record urllib : Type := {
  urlparse : string -> result ParseResult;
  parse_qs : string -> PyDict.t (list string);
  urlencode : PyDict.t (list string) -> string;
  urlunparse : ParseResult -> string
}.

(* ================================================================== *)
(** ** [src/generator.py]: class [IPTVGenerator] *)

Module IPTVGenerator.

Local Open Scope result_scope.

(** [self.config], the keys the code reads; [None] is an absent key. *)
Record catchup_config : Type := {
  enable : option bool;
  days : option Z;
  format : option string
}.

Record config : Type := {
  catchup : option catchup_config
}.

(** A channel dict. Its keys come and go ([current_meta = {}],
    [current_meta.clear()]), so every key is optional. *)
Record channel : Type := {
  name : option string;
  group : option string;
  tvg_id : option string;
  logo : option string;
  priority : option Z;
  url : option string
}.

Definition empty_dict : channel :=
  {| name := None; group := None; tvg_id := None; logo := None;
     priority := None; url := None |}.

(** Truth value of a dict: false exactly when it has no key. *)
Definition truthy (c : channel) : bool :=
  match name c, group c, tvg_id c, logo c, priority c, url c with
  | None, None, None, None, None, None => false
  | _, _, _, _, _, _ => true
  end.

Definition set_name (v : string) (c : channel) : channel :=
  {| name := Some v; group := group c; tvg_id := tvg_id c; logo := logo c;
     priority := priority c; url := url c |}.
Definition set_group (v : string) (c : channel) : channel :=
  {| name := name c; group := Some v; tvg_id := tvg_id c; logo := logo c;
     priority := priority c; url := url c |}.
Definition set_tvg_id (v : string) (c : channel) : channel :=
  {| name := name c; group := group c; tvg_id := Some v; logo := logo c;
     priority := priority c; url := url c |}.
Definition set_logo (v : string) (c : channel) : channel :=
  {| name := name c; group := group c; tvg_id := tvg_id c; logo := Some v;
     priority := priority c; url := url c |}.
Definition set_priority (v : Z) (c : channel) : channel :=
  {| name := name c; group := group c; tvg_id := tvg_id c; logo := logo c;
     priority := Some v; url := url c |}.
Definition set_url (v : string) (c : channel) : channel :=
  {| name := name c; group := group c; tvg_id := tvg_id c; logo := logo c;
     priority := priority c; url := Some v |}.

(** [d[k]] *)
Definition item {A : Type} (k : string) (v : option A) : result A :=
  match v with
  | Some a => Ok a
  | None => Raise (KeyError k)
  end.

(** [re.findall(pattern, params_part)] where [params_part] is a [list]. *)
Definition re_findall_list (l : list string) : result (list (string * string)) :=
  Raise (TypeError "expected string or bytes-like object, got 'list'").

(** The [for key, value in params] loop of [_parse_extinf]. *)
Fixpoint apply_params (ps : list (string * string)) (meta : channel) : channel :=
  match ps with
  | [] => meta
  | (key, value) :: rest =>
      if key =? "tvg-id" then apply_params rest (set_tvg_id value meta)
      else if key =? "tvg-logo" then apply_params rest (set_logo value meta)
      else if key =? "group-title" then apply_params rest (set_group value meta)
      else apply_params rest meta
  end.

Definition _parse_extinf (line : string) : result channel :=
  let meta := {| name := Some ""; group := Some "Default"; tvg_id := Some "";
                 logo := Some ""; priority := None; url := None |} in
  let name_part := Py.split1 "," line in
  meta <- (if (1 <? List.length name_part)%nat
           then v <- list_strip name_part ;; Ok (set_name v meta)
           else Ok meta) ;;
  let params_part := name_part in
  ps <- re_findall_list params_part ;;
  Ok (apply_params ps meta).

Section WithConfig.
Variable lib : urllib.
Variable cfg : config.

Definition catchup_enabled : bool :=
  match catchup cfg with
  | Some c => match enable c with Some b => b | None => false end
  | None => false
  end.

Definition _process_url (u : string) : result string :=
  if negb catchup_enabled then Ok u
  else
    c <- item "catchup" (catchup cfg) ;;
    let d := match days c with Some d => d | None => 3%Z end in
    if (d <=? 0)%Z then Ok u
    else
      parsed <- urlparse lib u ;;
      let q := parse_qs lib (query parsed) in
      let catchup_format :=
        match format c with Some f => f | None => "playseek={utc}-{utcend}" end in
      let q := PyDict.set "playseek" [catchup_format] q in
      let new_query := urlencode lib q in
      Ok (urlunparse lib (replace_query parsed new_query)).

(** The line loop of [_parse_m3u]. *)
Fixpoint parse_m3u_lines (prio : Z) (lines : list string)
    (current_meta : channel) (channels : list channel)
  : result (list channel) :=
  match lines with
  | [] => Ok channels
  | raw :: rest =>
      let line := Py.strip raw in
      if line =? "" then parse_m3u_lines prio rest current_meta channels
      else if Py.startswith "#EXTINF" line then
        m <- _parse_extinf line ;;
        parse_m3u_lines prio rest (set_priority prio m) channels
      else if negb (line =? "") && negb (Py.startswith "#" line) then
        u <- _process_url line ;;
        parse_m3u_lines prio rest empty_dict
          (channels ++ [set_url u current_meta])
      else parse_m3u_lines prio rest current_meta channels
  end.

Definition _parse_m3u (content : string) (prio : Z) : result (list channel) :=
  parse_m3u_lines prio (Py.splitlines content) empty_dict [].

(** The line loop of [_parse_txt]. *)
Fixpoint parse_txt_lines (prio : Z) (lines : list string) (channels : list channel)
  : result (list channel) :=
  match lines with
  | [] => Ok channels
  | raw :: rest =>
      let line := Py.strip raw in
      if (line =? "") || Py.startswith "#" line
      then parse_txt_lines prio rest channels
      else if Py.contains ",#" line then
        let parts := Py.split1 ",#" line in
        nm <- list_strip parts ;;
        u <- list_strip parts ;;
        u' <- _process_url u ;;
        parse_txt_lines prio rest
          (channels ++ [ {| name := Some nm; url := Some u';
                            group := Some "Default"; tvg_id := Some "";
                            logo := Some ""; priority := Some prio |} ])
      else parse_txt_lines prio rest channels
  end.

Definition _parse_txt (content : string) (prio : Z) : result (list channel) :=
  parse_txt_lines prio (Py.splitlines content) [].

(** [_process_single_source], with the outcome of [_fetch_source] given. *)
Definition _process_single_source (fetched : option string)
    (src_type : string) (prio : Z) : result (list channel) :=
  match fetched with
  | None => Ok []
  | Some content =>
      if content =? "" then Ok []
      else
        let src_type :=
          if src_type =? "auto"
          then (if Py.contains "#EXTM3U" (substring 0 20 content)
                then "m3u" else "txt")
          else src_type in
        if src_type =? "m3u" then _parse_m3u content prio
        else _parse_txt content prio
  end.
End WithConfig.

(** [_channel_key]: md5 of ["{group}|{name}|{tvg_id}"]. *)
Definition _channel_key (c : channel) : result string :=
  g <- item "group" (group c) ;;
  n <- item "name" (name c) ;;
  t <- item "tvg_id" (tvg_id c) ;;
  Ok (MD5.hexdigest (Py.encode_utf8 (g ++ "|" ++ n ++ "|" ++ t)%string)).

(** Body of [for chan in channels] in [process_sources]. *)
Definition process_chan (channels : PyDict.t channel) (chan : channel)
  : result (PyDict.t channel) :=
  chan_id <- _channel_key chan ;;
  let existing := PyDict.get chan_id channels in
  match existing with
  | None => Ok (PyDict.set chan_id chan channels)
  | Some e =>
      if negb (truthy e) then Ok (PyDict.set chan_id chan channels)
      else
        pe <- item "priority" (priority e) ;;
        pc <- item "priority" (priority chan) ;;
        if (pe <? pc)%Z then Ok (PyDict.set chan_id chan channels)
        else Ok channels
  end.

(** One completed future: an exception raised while its channels are
    processed is printed and ends that future's loop; the entries written
    before it stay. *)
Fixpoint process_channels (chans : list channel) (channels : PyDict.t channel)
  : PyDict.t channel :=
  match chans with
  | [] => channels
  | chan :: rest =>
      match process_chan channels chan with
      | Ok channels' => process_channels rest channels'
      | Raise _ => channels
      end
  end.

(** [process_sources]: [results] are the futures' outcomes in completion
    order; a future that raised is printed and skipped. *)
Definition process_sources (results : list (result (list channel)))
  : PyDict.t channel :=
  fold_left
    (fun channels r =>
       match r with
       | Ok chans => process_channels chans channels
       | Raise _ => channels
       end)
    results PyDict.empty.

End IPTVGenerator.

(* ================================================================== *)
(** ** [datetime] and [str.format], as far as the code depends on them *)

Module PyTime.

Local Open Scope Z_scope.

(** A naive [datetime]: the proleptic Gregorian ordinal of its date
    ([date.toordinal()]) and the time of day. *)
Record datetime : Type := {
  ordinal : Z;
  second : Z;
  microsecond : Z
}.

(** [date.min.toordinal()] and [date.max.toordinal()] *)
Definition MINORDINAL : Z := 1.
Definition MAXORDINAL : Z := 3652059.

(** [timedelta(days=d)]: the number of days, bounded in magnitude. *)
Definition timedelta (d : Z) : result Z :=
  if Z.abs d <=? 999999999 then Ok d
  else Raise (OverflowError "days; must have magnitude <= 999999999").

(** [dt - delta] for a whole number of days. *)
Definition sub (dt : datetime) (delta : Z) : result datetime :=
  let o := ordinal dt - delta in
  if (MINORDINAL <=? o) && (o <=? MAXORDINAL)
  then Ok {| ordinal := o; second := second dt; microsecond := microsecond dt |}
  else Raise (OverflowError "date value out of range").

(** Formatting and conversion to epoch seconds are left to the library. *)
Record timelib : Type := {
  strftime : datetime -> string -> string;
  timestamp : datetime -> result Z
}.

Definition str_of_int (z : Z) : string :=
  DecimalString.NilZero.string_of_int (Z.to_int z).

End PyTime.

Module PyFormat.

Local Open Scope result_scope.

Fixpoint lookup (k : string) (kw : list (string * string)) : result string :=
  match kw with
  | [] => Raise (KeyError k)
  | (k', v) :: r => if k' =? k then Ok v else lookup k r
  end.

(** [template.format] with keyword arguments [kw], for templates whose replacement fields are plain
    names, which is what the templates of the code are. [field] is [None]
    outside a replacement field and the name read so far inside one. *)
Fixpoint format_aux (t : string) (field : option string) (kw : list (string * string))
  : result string :=
  match t with
  | EmptyString =>
      match field with
      | None => Ok EmptyString
      | Some _ => Raise (ValueError "expected '}' before end of string")
      end
  | String c r =>
      match field with
      | Some f =>
          if Ascii.eqb c "}"%char
          then v <- lookup f kw ;; rest <- format_aux r None kw ;; Ok (v ++ rest)%string
          else format_aux r (Some (f ++ String c EmptyString)%string) kw
      | None =>
          if Ascii.eqb c "{"%char then format_aux r (Some EmptyString) kw
          else if Ascii.eqb c "}"%char
               then Raise (ValueError "Single '}' encountered in format string")
               else rest <- format_aux r None kw ;; Ok (String c rest)
      end
  end.

Definition format (t : string) (kw : list (string * string)) : result string :=
  format_aux t None kw.

End PyFormat.

(* ================================================================== *)
(** ** The network, the clock and the trace of requests *)

Module Net.

Inductive method : Type := HEAD | GET.

(** One call of [self.session.head] or [self.session.get]. *)
Record request : Type := {
  meth : method;
  target : string;
  timeout : Z;
  allow_redirects : bool;
  stream : bool
}.

(** What the code reads of a response: the status code, the Content-Type
    header ([None] when absent), the time the request took, and the first
    chunk of [iter_content(512)] ([None] when reading it raises, the empty
    string when the body is empty). *)
Record response : Type := {
  status_code : Z;
  content_type : option string;
  elapsed_ms : Z;
  sample : option string
}.

(** The environment of one detection. [answer n r] is the outcome of
    request [r] issued after [n] earlier requests, [None] when it raises
    (connection error, timeout); [utcnow n] is the clock at that moment. *)
Record world : Type := {
  answer : nat -> request -> option response;
  utcnow : nat -> PyTime.datetime
}.

(** Computations that issue requests: the trace of requests so far is
    threaded through, an uncaught exception ends the computation. *)
Definition M (A : Type) : Type := list request -> result A * list request.

Definition ret {A : Type} (a : A) : M A := fun tr => (Ok a, tr).

Definition bind {A B : Type} (m : M A) (k : A -> M B) : M B :=
  fun tr =>
    match m tr with
    | (Ok a, tr') => k a tr'
    | (Raise e, tr') => (Raise e, tr')
    end.

Definition lift {A : Type} (r : result A) : M A := fun tr => (r, tr).

Definition send (w : world) (r : request) : M (option response) :=
  fun tr => (Ok (answer w (List.length tr) r), tr ++ [r]).

Definition clock (w : world) : M PyTime.datetime :=
  fun tr => (Ok (utcnow w (List.length tr)), tr).

End Net.

Declare Scope net_scope.
Delimit Scope net_scope with net.
Notation "x <- m ;; k" := (Net.bind m (fun x => k))
  (at level 61, m at next level, right associativity) : net_scope.

(* ================================================================== *)
(** ** [src/detector.py]: class [StreamDetector] *)

Module StreamDetector.

Import Net.

(** Names bound in the module's global namespace: the imports of lines 2-7
    and the class itself. *)
Definition module_globals : list string :=
  [ "requests"; "datetime"; "timedelta"; "urlparse"; "urlencode"; "parse_qs";
    "re"; "time"; "Dict"; "Optional"; "Tuple"; "StreamDetector" ].

(** Looking up a global name that is not a builtin. *)
Definition load_global (n : string) : result unit :=
  if existsb (String.eqb n) module_globals then Ok tt else Raise (NameError n).

(** The dict returned by [detect_catchup_capability]. *)
Record report : Type := {
  supported : bool;
  max_days : Z;
  recommended_template : option string;
  latency_ms : Z;
  codec_info : string
}.

Definition initial_report : report :=
  {| supported := false; max_days := 0; recommended_template := None;
     latency_ms := 0; codec_info := "unknown" |}.

(** Descending insertion sort: [sorted(l, reverse=True)]. *)
Fixpoint insert_desc (x : Z) (l : list Z) : list Z :=
  match l with
  | [] => [x]
  | y :: r => if (y <? x)%Z then x :: l else y :: insert_desc x r
  end.

Definition sorted_reverse (l : list Z) : list Z :=
  fold_right insert_desc [] l.

Definition test_days : list Z := [1; 3; 7; 15; 30]%Z.

Definition catchup_templates : list (string * string) :=
  [ ("playseek={utc}-{utcend}", "utc");
    ("timeshift={sec}", "sec");
    ("dvr={days}", "days");
    ("utc={start}&end={end}", "range") ].

Definition best_templates : list string :=
  [ "playseek={utc}-{utcend}";
    "timeshift={sec}";
    "utc={start}&end={end}";
    "dvr={days}" ].

Section WithLibraries.
Variable lib : urllib.
Variable tlib : PyTime.timelib.
(** [self.timeout] *)
Variable self_timeout : Z.

Local Open Scope result_scope.

(** Lines 117-120 and 162-165: rebuild the url with the [catchup] key. *)
Definition rebuild (u param : string) : result string :=
  parsed <- urlparse lib u ;;
  let q := parse_qs lib (query parsed) in
  let q := PyDict.set "catchup" [param] q in
  _ <- load_global "urlunparse" ;;
  Ok (urlunparse lib (replace_query parsed (urlencode lib q))).

Definition stamp : string := "%Y%m%d%H%M%S".

(** The [try] block of [_apply_catchup_params] for one template. *)
Definition catchup_body (now start : PyTime.datetime) (u : string) (d : Z)
    (t : string * string) : result string :=
  let '(tpl, type) := t in
  param <-
    (if type =? "utc" then
       PyFormat.format tpl [ ("utc", PyTime.strftime tlib start stamp);
                             ("utcend", PyTime.strftime tlib now stamp) ]
     else if type =? "sec" then
       PyFormat.format tpl [ ("sec", PyTime.str_of_int (d * 86400)) ]
     else if type =? "days" then
       PyFormat.format tpl [ ("days", PyTime.str_of_int d) ]
     else if type =? "range" then
       s <- PyTime.timestamp tlib start ;;
       e <- PyTime.timestamp tlib now ;;
       PyFormat.format tpl [ ("start", PyTime.str_of_int s);
                             ("end", PyTime.str_of_int e) ]
     else Raise (NameError "param")) ;;
  rebuild u param.

(** The [for template, type in templates] loop: an exception in the
    [try] block goes on to the next template. *)
Fixpoint catchup_loop (now start : PyTime.datetime) (u : string) (d : Z)
    (ts : list (string * string)) : string :=
  match ts with
  | [] => u
  | t :: rest =>
      match catchup_body now start u d t with
      | Ok r => r
      | Raise _ => catchup_loop now start u d rest
      end
  end.

(** [_apply_catchup_params]; [now] is the value of [datetime.utcnow()]. *)
Definition _apply_catchup_params (now : PyTime.datetime) (u : string) (d : Z)
  : result string :=
  delta <- PyTime.timedelta d ;;
  start <- PyTime.sub now delta ;;
  Ok (catchup_loop now start u d catchup_templates).

(** The [try] block of [_apply_template]. *)
Definition template_body (now start : PyTime.datetime) (u tpl : string)
  : result string :=
  param <-
    (if Py.contains "utc" tpl then
       PyFormat.format tpl [ ("utc", PyTime.strftime tlib start stamp);
                             ("utcend", PyTime.strftime tlib now stamp) ]
     else if Py.contains "sec" tpl then
       PyFormat.format tpl [ ("sec", PyTime.str_of_int 86400) ]
     else if Py.contains "days" tpl then
       PyFormat.format tpl [ ("days", PyTime.str_of_int 1) ]
     else if Py.contains "start" tpl then
       s <- PyTime.timestamp tlib start ;;
       e <- PyTime.timestamp tlib now ;;
       PyFormat.format tpl [ ("start", PyTime.str_of_int s);
                             ("end", PyTime.str_of_int e) ]
     else Raise (NameError "param")) ;;
  rebuild u param.

(** [_apply_template]; [now] is the value of [datetime.utcnow()]. *)
Definition _apply_template (now : PyTime.datetime) (u tpl : string)
  : result string :=
  delta <- PyTime.timedelta 1 ;;
  start <- PyTime.sub now delta ;;
  Ok (match template_body now start u tpl with
      | Ok r => r
      | Raise _ => u
      end).

Local Close Scope result_scope.
Local Open Scope net_scope.

Variable w : world.

Definition head_request (u : string) (t : Z) (redirects : bool) : request :=
  {| meth := HEAD; target := u; timeout := t;
     allow_redirects := redirects; stream := false |}.

Definition get_request (u : string) (t : Z) : request :=
  {| meth := GET; target := u; timeout := t;
     allow_redirects := true; stream := true |}.

Definition header (h : option string) : string :=
  match h with Some v => v | None => "" end.

Definition _test_connection (u : string) : M bool :=
  resp <- send w (head_request u self_timeout true) ;;
  ret (match resp with
       | Some r => (status_code r =? 200)%Z
       | None => false
       end).

(** The outcome of one look-back probe. *)
Definition catchup_ok (resp : option response) : bool :=
  match resp with
  | Some r =>
      (status_code r =? 200)%Z
      && (Py.startswith "video/" (header (content_type r))
          || Py.startswith "application/vnd.apple.mpegurl"
               (header (content_type r)))
  | None => false
  end.

Definition _test_catchup_day (u : string) (d : Z) : M bool :=
  now <- clock w ;;
  test_url <- lift (_apply_catchup_params now u d) ;;
  resp <- send w (head_request test_url self_timeout true) ;;
  ret (catchup_ok resp).

(** The outcome of one template probe. *)
Definition template_ok (resp : option response) : bool :=
  match resp with
  | Some r => (status_code r =? 200)%Z
  | None => false
  end.

Definition _test_template (u : string) : M bool :=
  resp <- send w (head_request u 5 false) ;;
  ret (template_ok resp).

(** The [for template in templates] loop of [_find_best_template]. *)
Fixpoint find_loop (u : string) (ts : list string) : M (option string) :=
  match ts with
  | [] => ret None
  | tpl :: rest =>
      now <- clock w ;;
      test_url <- lift (_apply_template now u tpl) ;;
      ok <- _test_template test_url ;;
      if ok then ret (Some tpl) else find_loop u rest
  end.

Definition _find_best_template (u : string) : M (option string) :=
  find_loop u best_templates.

(** Codec from the Content-Type header. *)
Definition codec_of_header (ct : string) : string :=
  if Py.contains "mpegurl" ct then "HLS"
  else if Py.contains "mp2t" ct then "MPEG-TS"
  else if Py.contains "flv" ct then "FLV"
  else "unknown".

(** Codec from the first bytes of the body. *)
Definition codec_of_sample (s : string) : string :=
  if Py.contains "#EXTM3U" s then "HLS"
  else if Py.startswith (String "071"%char EmptyString) s
          || Py.startswith
               (String "000"%char (String "000"%char (String "001"%char
                  (String "186"%char EmptyString)))) s
       then "MPEG-TS"
       else "unknown".

(** [_get_stream_metadata]: the pair [(codec_info, latency_ms)]. An
    exception anywhere in the [try] block keeps what was set before it. *)
Definition _get_stream_metadata (u : string) : M (string * Z) :=
  resp <- send w (get_request u self_timeout) ;;
  ret (match resp with
       | None => ("unknown", 0%Z)
       | Some r =>
           let codec := codec_of_header (header (content_type r)) in
           if codec =? "unknown" then
             match sample r with
             | Some s => (codec_of_sample s, elapsed_ms r)
             | None => ("unknown", elapsed_ms r)
             end
           else (codec, elapsed_ms r)
       end).

(** The [for days in sorted(test_days, reverse=True)] loop. *)
Fixpoint lookback_loop (u : string) (ds : list Z) (res : report) : M report :=
  match ds with
  | [] => ret res
  | d :: rest =>
      ok <- _test_catchup_day u d ;;
      if ok
      then ret {| supported := true; max_days := d;
                  recommended_template := recommended_template res;
                  latency_ms := latency_ms res;
                  codec_info := codec_info res |}
      else lookback_loop u rest res
  end.

Definition detect_catchup_capability (stream_url : string) : M report :=
  let res := initial_report in
  connected <- _test_connection stream_url ;;
  if negb connected then ret res
  else
    res <- lookback_loop stream_url (sorted_reverse test_days) res ;;
    tpl <- _find_best_template stream_url ;;
    meta <- _get_stream_metadata stream_url ;;
    ret {| supported := supported res; max_days := max_days res;
           recommended_template := tpl;
           latency_ms := snd meta;
           codec_info := fst meta |}.

(** A detection run from an empty trace. *)
Definition detect (stream_url : string) : result report * list request :=
  detect_catchup_capability stream_url [].

End WithLibraries.

End StreamDetector.

(* ================================================================== *)
(** ** [src/generators/m3u_generator.py]: class [M3UGenerator], and [main.py] *)

Module M3UGenerator.

Import ChannelMerger.

(** [_generate_catchup] updates [channel['url']] in place and returns the
    same dict: the value returned here is the new state of that dict. *)
Definition _generate_catchup (cfg : config) (c : channel) : channel :=
  if negb (enable (catchup (tvbox cfg))) then c
  else
    let c1 := if Py.contains "?" (url c)
              then set_url (url c ++ "&") c
              else set_url (url c ++ "?") c in
    set_url (url c1 ++ template (catchup (tvbox cfg))) c1.

Definition extinf (c : channel) : string :=
  ("#EXTINF:-1 tvg-id=" ++ Py.DQ ++ tvg_id c ++ Py.DQ
   ++ " tvg-name=" ++ Py.DQ ++ name c ++ Py.DQ
   ++ " tvg-logo=" ++ Py.DQ ++ logo c ++ Py.DQ
   ++ " group-title=" ++ Py.DQ ++ group c ++ Py.DQ ++ "," ++ name c)%string.

(** The [for channel in channels] loop of [generate]. The dicts of
    [channels] are distinct objects, as the values of the merger's table
    are; the second component is their state after the loop. *)
Fixpoint generate_loop (cfg : config) (full_format : bool)
    (channels : list channel) (entries : list string)
  : list string * list channel :=
  match channels with
  | [] => (entries, [])
  | c :: rest =>
      let c' := if negb full_format then _generate_catchup cfg c else c in
      let '(entries', rest') :=
        generate_loop cfg full_format rest (entries ++ [extinf c'; url c']) in
      (entries', c' :: rest')
  end.

(** [generate]: the text returned and the state of the channel dicts
    afterwards. [generated_on] is the formatted [datetime.now()]. *)
Definition generate (cfg : config) (generated_on : string)
    (channels : list channel) (full_format : bool) : string * list channel :=
  let header :=
    if full_format
    then ("#EXTM3U" ++ " x-tvg-url=" ++ Py.DQ ++ epg (tvbox cfg) ++ Py.DQ ++ Py.LF
          ++ "# Generated on " ++ generated_on ++ Py.LF)%string
    else "#EXTM3U" in
  let '(entries, channels') := generate_loop cfg full_format channels [] in
  ((header ++ Py.LF ++ String.concat Py.LF entries)%string, channels').

(** Step 3 of [main]: the restricted file first, then the full one, both
    from the same list [merged_channels]. Returns the two texts and the
    final state of the list. *)
Definition main_outputs (cfg : config) (generated_on : string)
    (merged_channels : list channel) : string * string * list channel :=
  let '(tvbox_m3u, after_tvbox) := generate cfg generated_on merged_channels false in
  let '(full_m3u, after_full) := generate cfg generated_on after_tvbox true in
  (tvbox_m3u, full_m3u, after_full).

Definition main (cfg : config) (generated_on : string)
    (sources_data : list (string * string)) : string * string * list channel :=
  main_outputs cfg generated_on (merge cfg sources_data).

End M3UGenerator.

(* ================================================================== *)
(** ** Keeping the best record per key

    Both de-duplication loops have one shape: a record replaces the entry
    stored under its key when its rank is strictly greater. *)

Section KeepBest.
Context {A : Type}.
Variable key : A -> string.
Variable rank : A -> Z.

Definition keep_step (table : PyDict.t A) (x : A) : PyDict.t A :=
  match PyDict.get (key x) table with
  | None => PyDict.set (key x) x table
  | Some old =>
      if (rank old <? rank x)%Z then PyDict.set (key x) x table else table
  end.

Definition keep_best (l : list A) : PyDict.t A :=
  fold_left keep_step l PyDict.empty.

(** [w] is the first record of greatest rank among those of [l] with
    key [k]. *)
Definition first_best (k : string) (l : list A) (w : A) : Prop :=
  exists l1 l2,
    l = l1 ++ w :: l2 /\ key w = k
    /\ (forall r, In r l1 -> key r = k -> (rank r < rank w)%Z)
    /\ (forall r, In r l2 -> key r = k -> (rank r <= rank w)%Z).
End KeepBest.

(* ================================================================== *)
(** ** The claims of the specification, in its own words *)

Module Spec.

(** Conflict resolution of section 4.3: higher priority wins; on a priority
    tie the longer url wins; on a further tie the record met first stays. *)
Definition replaces {A : Type} (prio : A -> Z) (url : A -> string)
    (new old : A) : bool :=
  (prio old <? prio new)%Z
  || ((prio old =? prio new)%Z
      && (String.length (url old) <? String.length (url new))%nat).

Definition resolve_step {A : Type} (key : A -> string) (prio : A -> Z)
    (url : A -> string) (table : PyDict.t A) (x : A) : PyDict.t A :=
  match PyDict.get (key x) table with
  | None => PyDict.set (key x) x table
  | Some old =>
      if replaces prio url x old then PyDict.set (key x) x table else table
  end.

Definition resolve {A : Type} (key : A -> string) (prio : A -> Z)
    (url : A -> string) (l : list A) : PyDict.t A :=
  fold_left (resolve_step key prio url) l PyDict.empty.

(** Filtering of section 4.3: a record is dropped when (a) the minimum
    duration is positive and the record's duration lies strictly between 0
    and it, or (b) the lower-cased url ends with no allowed extension. *)
Definition dropped (f : filters_config) (c : ChannelMerger.channel) : bool :=
  ((0 <? min_duration f)%Z
   && ((0 <? ChannelMerger.duration c)%Z
       && (ChannelMerger.duration c <? min_duration f)%Z))
  || negb (existsb (fun ext => Py.endswith ext (Py.lower (ChannelMerger.url c)))
             (allowed_extensions f)).

(** Clause (a) alone. *)
Definition too_short (f : filters_config) (c : ChannelMerger.channel) : bool :=
  (0 <? min_duration f)%Z
  && ((0 <? ChannelMerger.duration c)%Z
      && (ChannelMerger.duration c <? min_duration f)%Z).

(** Sequential probing of a list of candidates from request number [n] on,
    stopping at the first success; [ok m] is the outcome of the probe
    issued as request number [m]. [first_success] is the candidate found,
    [probes_issued] the number of probes sent. *)
Fixpoint first_success {A : Type} (ok : nat -> bool) (xs : list A) (n : nat)
  : option A :=
  match xs with
  | [] => None
  | x :: rest => if ok n then Some x else first_success ok rest (S n)
  end.

Fixpoint probes_issued {A : Type} (ok : nat -> bool) (xs : list A) (n : nat)
  : nat :=
  match xs with
  | [] => 0
  | x :: rest => if ok n then 1 else S (probes_issued ok rest (S n))
  end.

End Spec.

(* ================================================================== *)
(** ** Views of the generator's channel dicts *)

Module GeneratorView.

Import IPTVGenerator.

(** A dict with the four keys the de-duplication loop reads. *)
Definition complete (c : channel) : bool :=
  match group c, name c, tvg_id c, priority c with
  | Some _, Some _, Some _, Some _ => true
  | _, _, _, _ => false
  end.

(** Every dict stored in the table is complete. *)
Definition table_complete (t : PyDict.t channel) : Prop :=
  forall k e, PyDict.get k t = Some e -> complete e = true.

Definition key_of (c : channel) : string :=
  match _channel_key c with
  | Ok k => k
  | Raise _ => EmptyString
  end.

Definition priority_of (c : channel) : Z :=
  match priority c with
  | Some p => p
  | None => 0%Z
  end.

Definition url_of (c : channel) : string :=
  match url c with
  | Some u => u
  | None => EmptyString
  end.

End GeneratorView.

(** Rank of a merger record: the length of its url. *)
Definition url_length (c : ChannelMerger.channel) : Z :=
  Z.of_nat (String.length (ChannelMerger.url c)).

(* ================================================================== *)
(** ** Views of a detection run *)

Module DetectorView.

Import Net.

(** The clock stays within [datetime]'s range, and at least 30 days after
    its first day, during the run. *)
Definition clock_ok (w : world) : Prop :=
  forall n, (31 <= PyTime.ordinal (utcnow w n) <= PyTime.MAXORDINAL)%Z.

(** The connectivity probe, request number 0, fails: it raises or its
    status is not 200. *)
Definition gate_fails (w : world) (g : request) : Prop :=
  answer w 0 g = None
  \/ exists r, answer w 0 g = Some r /\ status_code r <> 200%Z.

(** The connectivity probe returns 200. *)
Definition gate_passes (w : world) (g : request) : Prop :=
  exists r, answer w 0 g = Some r /\ status_code r = 200%Z.

(** The requests of a run: the look-back probe (which is also the
    connectivity probe) and the template probe, and their outcomes when
    issued as request number [n]. *)
Definition lookback_probe (u : string) (T : Z) : request :=
  StreamDetector.head_request u T true.

Definition template_probe (u : string) : request :=
  StreamDetector.head_request u 5 false.

Definition window_ok (w : world) (u : string) (T : Z) (n : nat) : bool :=
  StreamDetector.catchup_ok (answer w n (lookback_probe u T)).

Definition tpl_ok (w : world) (u : string) (n : nat) : bool :=
  StreamDetector.template_ok (answer w n (template_probe u)).

(** The report after the look-back loop, [r] being the window found. *)
Definition found (res : StreamDetector.report) (r : option Z)
  : StreamDetector.report :=
  match r with
  | Some d =>
      {| StreamDetector.supported := true;
         StreamDetector.max_days := d;
         StreamDetector.recommended_template :=
           StreamDetector.recommended_template res;
         StreamDetector.latency_ms := StreamDetector.latency_ms res;
         StreamDetector.codec_info := StreamDetector.codec_info res |}
  | None => res
  end.

End DetectorView.

(* ================================================================== *)
(** ** Concrete environments and records used in the examples *)

Module Examples.

(** A stand-in for [urllib.parse] that keeps the whole url in [path]. *)
Definition plain_urllib : urllib :=
  {| urlparse := fun u =>
       Ok {| scheme := ""; netloc := ""; path := u; params := "";
             query := ""; fragment := "" |};
     parse_qs := fun _ => [];
     urlencode := fun q =>
       String.concat "&"
         (map (fun kv => (fst kv ++ "=" ++ String.concat "," (snd kv))%string) q);
     urlunparse := fun p =>
       if query p =? "" then path p else (path p ++ "?" ++ query p)%string |}.

Definition plain_timelib : PyTime.timelib :=
  {| PyTime.strftime := fun _ _ => "20261103000000";
     PyTime.timestamp := fun d => Ok ((PyTime.ordinal d - 719163) * 86400)%Z |}.

(** 2026-11-03, midnight. *)
Definition today : PyTime.datetime :=
  {| PyTime.ordinal := 739923; PyTime.second := 0; PyTime.microsecond := 0 |}.

Definition reply (status : Z) (ctype : string) : Net.response :=
  {| Net.status_code := status; Net.content_type := Some ctype;
     Net.elapsed_ms := 12; Net.sample := Some "" |}.

(** A server that answers every request with 200 and an HLS playlist. *)
Definition world_up : Net.world :=
  {| Net.answer := fun _ _ => Some (reply 200 "application/vnd.apple.mpegurl");
     Net.utcnow := fun _ => today |}.

(** A server that answers every request with 404. *)
Definition world_down : Net.world :=
  {| Net.answer := fun _ _ => Some (reply 404 "text/html");
     Net.utcnow := fun _ => today |}.

(** A server whose catch-up starts working at the third look-back probe
    (request number 3): plain 200 text/html answers before it. *)
Definition world_week : Net.world :=
  {| Net.answer := fun n _ =>
       if (n <? 3)%nat then Some (reply 200 "text/html")
       else Some (reply 200 "video/mp2t");
     Net.utcnow := fun _ => today |}.

Definition stream : string := "http://x/cnn.m3u8".

(** The listing of the parser round-trip property. *)
Definition listing : string :=
  ("#EXTM3U" ++ Py.LF
   ++ "#EXTINF:-1 tvg-id=" ++ Py.DQ ++ "1" ++ Py.DQ
   ++ " group-title=" ++ Py.DQ ++ "News" ++ Py.DQ ++ ",CNN" ++ Py.LF
   ++ "http://x/cnn.m3u8" ++ Py.LF)%string.

Definition cnn : ChannelMerger.channel :=
  {| ChannelMerger.name := "CNN"; ChannelMerger.group := "News";
     ChannelMerger.tvg_id := "1"; ChannelMerger.logo := "";
     ChannelMerger.duration := (-1)%Z;
     ChannelMerger.url := "http://x/cnn.m3u8";
     ChannelMerger.source := Some "http://a/list.m3u" |}.

(** The same channel from another source, with a longer url. *)
Definition cnn_hd : ChannelMerger.channel :=
  {| ChannelMerger.name := "CNN"; ChannelMerger.group := "News";
     ChannelMerger.tvg_id := "7"; ChannelMerger.logo := "";
     ChannelMerger.duration := (-1)%Z;
     ChannelMerger.url := "http://y/live/cnn.m3u8?hd=1";
     ChannelMerger.source := Some "http://b/list.m3u" |}.

(** One fetched source holding the listing, and the record [merge] makes
    of it. *)
Definition sources_data : list (string * string) :=
  [("http://a/list.m3u", listing)].

Definition merged_cnn : ChannelMerger.channel :=
  ChannelMerger.set_name "" cnn.

(** A record whose url already carries a playseek parameter. *)
Definition cnn_seek : ChannelMerger.channel :=
  ChannelMerger.set_url "http://x/cnn.m3u8?playseek=old" cnn.

Definition gen_channel (u : string) (p : Z) : IPTVGenerator.channel :=
  {| IPTVGenerator.name := Some "CNN"; IPTVGenerator.group := Some "News";
     IPTVGenerator.tvg_id := Some "1"; IPTVGenerator.logo := Some "";
     IPTVGenerator.priority := Some p; IPTVGenerator.url := Some u |}.

(** Two records of one channel with the same priority; the second has the
    longer url. *)
Definition tie_short : IPTVGenerator.channel := gen_channel "http://x/cnn.m3u8" 50.
Definition tie_long : IPTVGenerator.channel :=
  gen_channel "http://y/live/cnn.m3u8?hd=1" 50.
Definition low : IPTVGenerator.channel := gen_channel "http://z/cnn.m3u8" 10.

Definition tvbox_on : config :=
  {| filters := {| min_duration := 10; allowed_extensions := [".ts"; ".m3u8"] |};
     tvbox := {| catchup := {| enable := true; days := 7;
                               template := "playseek={utc}-{utcend}" |};
                 epg := "http://epg/e.xml" |} |}.

Definition generator_on : IPTVGenerator.config :=
  {| IPTVGenerator.catchup :=
       Some {| IPTVGenerator.enable := Some true;
               IPTVGenerator.days := Some 3%Z;
               IPTVGenerator.format := None |} |}.

End Examples.

(* ================================================================== *)
(** ** [src/generators/txt_generator.py]: class [TXTGenerator] *)

Module TXTGenerator.

Local Open Scope result_scope.

(** A channel dict of this class: every key is optional. *)
Record channel : Type := {
  name : option string;
  group : option string;
  tvg_id : option string;
  logo : option string;
  url : option string
}.

Definition empty_dict : channel :=
  {| name := None; group := None; tvg_id := None; logo := None; url := None |}.

Definition truthy (c : channel) : bool :=
  match name c, group c, tvg_id c, logo c, url c with
  | None, None, None, None, None => false
  | _, _, _, _, _ => true
  end.

Definition set_name (v : string) (c : channel) : channel :=
  {| name := Some v; group := group c; tvg_id := tvg_id c; logo := logo c;
     url := url c |}.
Definition set_group (v : string) (c : channel) : channel :=
  {| name := name c; group := Some v; tvg_id := tvg_id c; logo := logo c;
     url := url c |}.
Definition set_tvg_id (v : string) (c : channel) : channel :=
  {| name := name c; group := group c; tvg_id := Some v; logo := logo c;
     url := url c |}.
Definition set_logo (v : string) (c : channel) : channel :=
  {| name := name c; group := group c; tvg_id := tvg_id c; logo := Some v;
     url := url c |}.
Definition set_url (v : string) (c : channel) : channel :=
  {| name := name c; group := group c; tvg_id := tvg_id c; logo := logo c;
     url := Some v |}.

(** [s.startswith((p1, p2, ...))] *)
Definition startswith_any (ps : list string) (s : string) : bool :=
  existsb (fun p => Py.startswith p s) ps.

(** [s.lstrip('/')] *)
Fixpoint lstrip_slash (s : string) : string :=
  match s with
  | EmptyString => EmptyString
  | String c r => if Ascii.eqb c "/"%char then lstrip_slash r else s
  end.

(** [process_url]: an absolute url stays; a relative one is put under the
    directory of an http(s) source. *)
Definition process_url (u source_url : string) : string :=
  if startswith_any ["http://"; "https://"; "rtmp://"; "rtsp://"] u then u
  else if startswith_any ["http://"; "https://"] source_url then
    let base_url := String.concat "/" (removelast (Py.split "/" source_url)) in
    (base_url ++ "/" ++ lstrip_slash u)%string
  else u.

(** The [for key, value in params] loop of [parse_extinf]. *)
Fixpoint apply_params (ps : list (string * string)) (c : channel) : channel :=
  match ps with
  | [] => c
  | (key, value) :: rest =>
      if key =? "tvg-id" then apply_params rest (set_tvg_id value c)
      else if key =? "tvg-logo" then apply_params rest (set_logo value c)
      else if key =? "group-title" then apply_params rest (set_group value c)
      else apply_params rest c
  end.

Definition parse_extinf (line : string) : result channel :=
  let c := {| name := Some ""; group := Some "Default"; tvg_id := Some "";
              logo := Some ""; url := None |} in
  let name_part := Py.split1 "," line in
  c <- (if (1 <? List.length name_part)%nat
        then v <- list_strip name_part ;; Ok (set_name v c)
        else Ok c) ;;
  ps <- IPTVGenerator.re_findall_list name_part ;;
  Ok (apply_params ps c).

(** The line loop of [parse_m3u]. *)
Fixpoint parse_m3u_lines (source_url : string) (lines : list string)
    (current_channel : channel) (channels : list channel)
  : result (list channel) :=
  match lines with
  | [] => Ok channels
  | raw :: rest =>
      let line := Py.strip raw in
      if line =? "" then parse_m3u_lines source_url rest current_channel channels
      else if Py.startswith "#EXTINF" line then
        c <- parse_extinf line ;;
        parse_m3u_lines source_url rest c channels
      else if negb (line =? "") && negb (Py.startswith "#" line) then
        if truthy current_channel
        then parse_m3u_lines source_url rest empty_dict
               (channels ++ [set_url (process_url line source_url) current_channel])
        else parse_m3u_lines source_url rest current_channel channels
      else parse_m3u_lines source_url rest current_channel channels
  end.

Definition parse_m3u (content source_url : string) : result (list channel) :=
  parse_m3u_lines source_url (Py.splitlines content) empty_dict [].

(** The line loop of [parse_txt]. *)
Fixpoint parse_txt_lines (source_url : string) (lines : list string)
    (channels : list channel) : result (list channel) :=
  match lines with
  | [] => Ok channels
  | raw :: rest =>
      let line := Py.strip raw in
      if (line =? "") || Py.startswith "#" line
      then parse_txt_lines source_url rest channels
      else if Py.contains ",#" line then
        let parts := Py.split1 ",#" line in
        if (List.length parts =? 2)%nat then
          nm <- list_strip parts ;;
          u <- list_strip parts ;;
          parse_txt_lines source_url rest
            (channels ++ [ {| name := Some nm;
                              url := Some (process_url u source_url);
                              group := Some "Default";
                              tvg_id := None; logo := None |} ])
        else parse_txt_lines source_url rest channels
      else parse_txt_lines source_url rest channels
  end.

Definition parse_txt (content source_url : string) : result (list channel) :=
  parse_txt_lines source_url (Py.splitlines content) [].

(** [process_single_source], with the outcome of [fetch_source] given. *)
Definition process_single_source (fetched : option string) (source_url : string)
  : result (list channel) :=
  match fetched with
  | None => Ok []
  | Some content =>
      if content =? "" then Ok []
      else if Py.contains "#EXTM3U" (substring 0 20 content)
           then parse_m3u content source_url
           else parse_txt content source_url
  end.

(** [self.channels[k].append(chan)] on a [defaultdict(list)]. *)
Definition append_to (k : string) (chan : channel)
    (d : PyDict.t (list channel)) : PyDict.t (list channel) :=
  match PyDict.get k d with
  | Some l => PyDict.set k (l ++ [chan]) d
  | None => PyDict.set k [chan] d
  end.

(** One completed future of [process_sources]: a dict without the key
    [group] raises and ends the loop. *)
Fixpoint group_channels (chans : list channel) (d : PyDict.t (list channel))
  : PyDict.t (list channel) :=
  match chans with
  | [] => d
  | chan :: rest =>
      match group chan with
      | Some g => group_channels rest (append_to g chan d)
      | None => d
      end
  end.

Definition process_sources (results : list (result (list channel)))
  : PyDict.t (list channel) :=
  fold_left
    (fun d r =>
       match r with
       | Ok chans => group_channels chans d
       | Raise _ => d
       end)
    results PyDict.empty.

(** The attributes of a [TXTGenerator] object: those set by [__init__]
    and the methods of the class. *)
Definition attributes : list string :=
  [ "sources_file"; "output_dir"; "timeout"; "max_threads"; "user_agent";
    "channels"; "load_sources"; "fetch_source"; "parse_m3u"; "parse_txt";
    "parse_extinf"; "process_url"; "generate_txt"; "process_sources";
    "process_single_source" ].

(** [txt_gen.<n>] *)
Definition getattr (n : string) : result unit :=
  if existsb (String.eqb n) attributes then Ok tt
  else Raise (AttributeError
                ("'TXTGenerator' object has no attribute '" ++ n ++ "'")%string).

End TXTGenerator.

(* ================================================================== *)
(** ** [src/generator.py]: [generate_simplified] *)

Module GeneratorOutput.

Import IPTVGenerator.

Local Open Scope result_scope.

(** The lines of [generate_simplified], one per stored channel. *)
Fixpoint simplified_lines (chans : list channel) : result (list string) :=
  match chans with
  | [] => Ok []
  | chan :: rest =>
      n <- item "name" (name chan) ;;
      u <- item "url" (url chan) ;;
      ls <- simplified_lines rest ;;
      Ok ((n ++ ",#" ++ u)%string :: ls)
  end.

Definition generate_simplified (channels : PyDict.t channel) : result string :=
  ls <- simplified_lines (PyDict.values channels) ;;
  Ok (String.concat Py.LF ls).

(** One configured source as [process_sources] submits it: what
    [_fetch_source] returned for it, its type and its priority. *)
Definition source : Type := (option string * string * Z)%type.

(** [process_sources] followed by [generate_simplified]; [completed] lists
    the sources in the order their futures complete. *)
Definition run (lib : urllib) (cfg : config) (completed : list source)
  : PyDict.t channel :=
  process_sources
    (map (fun s : source =>
            let '(fetched, src_type, prio) := s in
            _process_single_source lib cfg fetched src_type prio)
       completed).

End GeneratorOutput.

(* ================================================================== *)
(** ** [main.py]: the three output files *)

Module MainRun.

Local Open Scope result_scope.

(** Step 3 of [main]. Each [with open(path, 'w')] creates the file before
    its body runs; the result lists the files with their content and tells
    whether the step ended normally. [generate_method] stands for what
    [txt_gen.generate] would return if the attribute were found. *)
Definition write_outputs (generate_method : list ChannelMerger.channel -> string)
    (cfg : config) (generated_on : string)
    (merged_channels : list ChannelMerger.channel)
  : result unit * list (string * string) :=
  let '(tvbox_m3u, after_tvbox) :=
    M3UGenerator.generate cfg generated_on merged_channels false in
  let '(full_m3u, after_full) :=
    M3UGenerator.generate cfg generated_on after_tvbox true in
  let files := [("outputs/tvbox.m3u", tvbox_m3u); ("outputs/full.m3u", full_m3u)] in
  match TXTGenerator.getattr "generate" with
  | Raise e => (Raise e, files ++ [("outputs/simple.txt", EmptyString)])
  | Ok _ =>
      (Ok tt, files ++ [("outputs/simple.txt", generate_method after_full)])
  end.

(** [main] from step 2 on, given the fetched sources. *)
Definition main (generate_method : list ChannelMerger.channel -> string)
    (cfg : config) (generated_on : string)
    (sources_data : list (string * string))
  : result unit * list (string * string) :=
  write_outputs generate_method cfg generated_on
    (ChannelMerger.merge cfg sources_data).

End MainRun.

(* ================================================================== *)
(** ** Further views used in the properties *)

Module Views.

(** An ASCII capital letter. *)
Definition is_upper (c : ascii) : bool :=
  ((65 <=? Py.code c) && (Py.code c <=? 90))%N.

Fixpoint has_upper (s : string) : bool :=
  match s with
  | EmptyString => false
  | String c r => is_upper c || has_upper r
  end.

(** The stripped form of a line is an [#EXTINF] line. *)
Definition is_extinf (raw : string) : bool :=
  Py.startswith "#EXTINF" (Py.strip raw).

(** The stripped form of a line is a url line for [parse_m3u]: it is
    neither empty nor a comment. *)
Definition is_url_line (raw : string) : bool :=
  negb (Py.strip raw =? "") && negb (Py.startswith "#" (Py.strip raw)).

(** What holds of every record the merger's parser emits from the lines
    [all_lines] of the source [source_url]. *)
Definition emitted (source_url : string) (all_lines : list string)
    (c : ChannelMerger.channel) : Prop :=
  ChannelMerger.name c = EmptyString
  /\ ChannelMerger.source c = Some source_url
  /\ ChannelMerger.url c <> EmptyString
  /\ Py.startswith "#" (ChannelMerger.url c) = false
  /\ exists raw, In raw all_lines /\ ChannelMerger.url c = Py.strip raw.

(** The separator the static injection puts before the template. *)
Definition separator (u : string) : string :=
  if Py.contains "?" u then "&" else "?".

(** What [_get_stream_metadata] makes of the outcome of its GET. *)
Definition metadata_of (resp : option Net.response) : string * Z :=
  match resp with
  | None => ("unknown", 0%Z)
  | Some r =>
      let codec :=
        StreamDetector.codec_of_header
          (StreamDetector.header (Net.content_type r)) in
      if codec =? "unknown" then
        match Net.sample r with
        | Some s => (StreamDetector.codec_of_sample s, Net.elapsed_ms r)
        | None => ("unknown", Net.elapsed_ms r)
        end
      else (codec, Net.elapsed_ms r)
  end.

(** The keys of a list in the order in which each is first met. *)
Definition note_key (seen : list string) (k : string) : list string :=
  if existsb (String.eqb k) seen then seen else seen ++ [k].

Definition first_seen (ks : list string) : list string :=
  fold_left note_key ks [].

(** [c] was parsed from a line of one of the sources [sources_data]. *)
Definition from_sources (sources_data : list (string * string))
    (c : ChannelMerger.channel) : Prop :=
  exists u content,
    In (u, content) sources_data
    /\ emitted u (Py.split Py.LF content) c.

(** A server that answers a request the same way whenever it is sent. *)
Definition stationary (w : Net.world) : Prop :=
  forall n m r, Net.answer w n r = Net.answer w m r.

End Views.

(* ================================================================== *)
(** ** A reference model of [urllib.parse] *)

(** The four library functions the code calls, after CPython 3.11
    ([Lib/urllib/parse.py]), for [str] arguments with code points below 256
    and the arguments the code passes: no default scheme, fragments
    allowed, blank values dropped, the separator [&], [doseq=True]. Two
    things are left out. A netloc that holds both brackets is accepted
    without the library's check of the bracketed host; and a percent escape
    of a byte above 127 is decoded to the code point of that byte, where
    the library decodes the escaped bytes as UTF-8. The model is applied to
    urls with neither. *)
Module Urllib.

Local Open Scope result_scope.

Definition is_alpha (c : ascii) : bool :=
  let n := Py.code c in
  ((65 <=? n) && (n <=? 90))%N || ((97 <=? n) && (n <=? 122))%N.

(** [scheme_chars] *)
Definition scheme_char (c : ascii) : bool :=
  is_alpha c || Py.isdigit c
  || Ascii.eqb c "+"%char || Ascii.eqb c "-"%char || Ascii.eqb c "."%char.

Definition uses_params : list string :=
  [ ""; "ftp"; "hdl"; "prospero"; "http"; "imap"; "https"; "shttp"; "rtsp";
    "rtspu"; "sip"; "sips"; "mms"; "sftp"; "tel" ].

Definition uses_netloc : list string :=
  [ ""; "ftp"; "http"; "gopher"; "nntp"; "telnet"; "imap"; "wais"; "file";
    "mms"; "https"; "shttp"; "snews"; "prospero"; "rtsp"; "rtspu"; "rsync";
    "svn"; "svn+ssh"; "sftp"; "nfs"; "git"; "git+ssh"; "ws"; "wss" ].

Definition mem (s : string) (l : list string) : bool :=
  existsb (String.eqb s) l.

(** What stands before the first [c] of [s] and what stands after it;
    [None] when [c] is not in [s]. *)
Fixpoint cut (c : ascii) (s : string) : option (string * string) :=
  match s with
  | EmptyString => None
  | String x r =>
      if Ascii.eqb x c then Some (EmptyString, r)
      else match cut c r with
           | Some (a, b) => Some (String x a, b)
           | None => None
           end
  end.

(** The same at the last [c] of [s]. *)
Fixpoint rcut (c : ascii) (s : string) : option (string * string) :=
  match s with
  | EmptyString => None
  | String x r =>
      match rcut c r with
      | Some (a, b) => Some (String x a, b)
      | None => if Ascii.eqb x c then Some (EmptyString, r) else None
      end
  end.

Fixpoint all_chars (p : ascii -> bool) (s : string) : bool :=
  match s with
  | EmptyString => true
  | String x r => p x && all_chars p r
  end.

Fixpoint remove_chars (p : ascii -> bool) (s : string) : string :=
  match s with
  | EmptyString => EmptyString
  | String x r => if p x then remove_chars p r else String x (remove_chars p r)
  end.

Fixpoint map_chars (f : ascii -> ascii) (s : string) : string :=
  match s with
  | EmptyString => EmptyString
  | String x r => String (f x) (map_chars f r)
  end.

(** [url.lstrip(_WHATWG_C0_CONTROL_OR_SPACE)] *)
Fixpoint lstrip_c0 (s : string) : string :=
  match s with
  | EmptyString => EmptyString
  | String x r => if (Py.code x <=? 32)%N then lstrip_c0 r else s
  end.

(** [_UNSAFE_URL_BYTES_TO_REMOVE]: tab, carriage return, line feed. *)
Definition unsafe_byte (c : ascii) : bool :=
  let n := Py.code c in (n =? 9)%N || (n =? 13)%N || (n =? 10)%N.

(** [_splitnetloc(url, 2)], given what follows the two slashes: the
    netloc ends before the first of the characters slash, question mark
    and hash. *)
Fixpoint _splitnetloc (s : string) : string * string :=
  match s with
  | EmptyString => (EmptyString, EmptyString)
  | String x r =>
      if Ascii.eqb x "/"%char || Ascii.eqb x "?"%char || Ascii.eqb x "#"%char
      then (EmptyString, s)
      else let '(a, b) := _splitnetloc r in (String x a, b)
  end.

(** The tuple returned by [urlsplit]. *)
Record SplitResult : Type := {
  s_scheme : string;
  s_netloc : string;
  s_path : string;
  s_query : string;
  s_fragment : string
}.

Definition urlsplit (url : string) : result SplitResult :=
  let url := remove_chars unsafe_byte (lstrip_c0 url) in
  let '(scheme, url) :=
    match cut ":" url with
    | Some (String x p, rest) =>
        if is_alpha x && all_chars scheme_char (String x p)
        then (Py.lower (String x p), rest)
        else (EmptyString, url)
    | _ => (EmptyString, url)
    end in
  r <- match url with
       | String "/"%char (String "/"%char rest) =>
           let '(netloc, rest) := _splitnetloc rest in
           let opening := Py.contains "[" netloc in
           let closing := Py.contains "]" netloc in
           if (opening && negb closing) || (closing && negb opening)
           then Raise (ValueError "Invalid IPv6 URL")
           else Ok (netloc, rest)
       | _ => Ok (EmptyString, url)
       end ;;
  let '(netloc, url) := r in
  let '(url, fragment) :=
    match cut "#" url with
    | Some (a, b) => (a, b)
    | None => (url, EmptyString)
    end in
  let '(url, query) :=
    match cut "?" url with
    | Some (a, b) => (a, b)
    | None => (url, EmptyString)
    end in
  Ok {| s_scheme := scheme; s_netloc := netloc; s_path := url;
        s_query := query; s_fragment := fragment |}.

(** [_splitparams(url)]; it is called with a semicolon in [url]. *)
Definition _splitparams (url : string) : string * string :=
  match rcut "/" url with
  | Some (dir, last) =>
      match cut ";" last with
      | Some (a, b) => ((dir ++ "/" ++ a)%string, b)
      | None => (url, EmptyString)
      end
  | None =>
      match cut ";" url with
      | Some (a, b) => (a, b)
      | None => (url, EmptyString)
      end
  end.

Definition urlparse (url : string) : result ParseResult :=
  r <- urlsplit url ;;
  let '(url, params) :=
    if mem (s_scheme r) uses_params && Py.contains ";" (s_path r)
    then _splitparams (s_path r)
    else (s_path r, EmptyString) in
  Ok (Build_ParseResult (s_scheme r) (s_netloc r) url params
        (s_query r) (s_fragment r)).

Definition hex_value (c : ascii) : option N :=
  let n := Py.code c in
  if ((48 <=? n) && (n <=? 57))%N then Some (n - 48)%N
  else if ((65 <=? n) && (n <=? 70))%N then Some (n - 55)%N
  else if ((97 <=? n) && (n <=? 102))%N then Some (n - 87)%N
  else None.

(** [unquote]: a percent sign followed by two hexadecimal digits stands
    for the byte they denote, any other percent sign for itself. *)
Fixpoint unquote (s : string) : string :=
  match s with
  | EmptyString => EmptyString
  | String c r =>
      match r with
      | String a (String b r') =>
          match (if Ascii.eqb c "%"%char then hex_value a else None),
                hex_value b with
          | Some x, Some y => String (ascii_of_N (16 * x + y)) (unquote r')
          | _, _ => String c (unquote r)
          end
      | _ => String c (unquote r)
      end
  end.

(** [s.replace('+', ' ')] *)
Definition plus_to_space (s : string) : string :=
  map_chars (fun c => if Ascii.eqb c "+"%char then " "%char else c) s.

(** The loop of [parse_qsl] with [keep_blank_values] and [strict_parsing]
    off: [r] is the list built so far. *)
Fixpoint parse_qsl_loop (query_args : list string) (r : list (string * string))
  : list (string * string) :=
  match query_args with
  | [] => r
  | name_value :: rest =>
      if name_value =? "" then parse_qsl_loop rest r
      else
        match Py.split1 "=" name_value with
        | [name; value] =>
            if value =? "" then parse_qsl_loop rest r
            else parse_qsl_loop rest
                   (r ++ [(unquote (plus_to_space name),
                           unquote (plus_to_space value))])
        | _ => parse_qsl_loop rest r
        end
  end.

Definition parse_qsl (qs : string) : list (string * string) :=
  parse_qsl_loop (if qs =? "" then [] else Py.split "&" qs) [].

Definition parse_qs (qs : string) : PyDict.t (list string) :=
  fold_left
    (fun parsed_result '(name, value) =>
       match PyDict.get name parsed_result with
       | Some l => PyDict.set name (l ++ [value]) parsed_result
       | None => PyDict.set name [value] parsed_result
       end)
    (parse_qsl qs) PyDict.empty.

(** [_ALWAYS_SAFE]: letters, digits and the four marks [_.-~]. *)
Definition always_safe (c : ascii) : bool :=
  is_alpha c || Py.isdigit c
  || Ascii.eqb c "_"%char || Ascii.eqb c "."%char
  || Ascii.eqb c "-"%char || Ascii.eqb c "~"%char.

Definition hex_digit (n : Z) : ascii :=
  ascii_of_N (Z.to_N (if (n <? 10)%Z then 48 + n else 55 + n)%Z).

(** [quote(s, safe)]: the bytes of the UTF-8 form of [s], each kept when it
    is always safe or in [safe], else written as a percent escape with
    capital digits. *)
Fixpoint quote_from_bytes (bs : list Z) (safe : string) : string :=
  match bs with
  | [] => EmptyString
  | b :: r =>
      let c := ascii_of_N (Z.to_N b) in
      if always_safe c || Py.contains (String c EmptyString) safe
      then String c (quote_from_bytes r safe)
      else String "%"%char
             (String (hex_digit (b / 16))
                (String (hex_digit (b mod 16)) (quote_from_bytes r safe)))
  end.

Definition quote (s safe : string) : string :=
  quote_from_bytes (Py.encode_utf8 s) safe.

Definition quote_plus (s : string) : string :=
  if Py.contains " " s
  then map_chars (fun c => if Ascii.eqb c " "%char then "+"%char else c)
         (quote s " ")
  else quote s "".

Fixpoint join (sep : string) (l : list string) : string :=
  match l with
  | [] => EmptyString
  | [x] => x
  | x :: r => (x ++ sep ++ join sep r)%string
  end.

(** [urlencode(query, doseq=True)] for a dict from [str] to lists of
    [str]. *)
Definition urlencode (query : PyDict.t (list string)) : string :=
  join "&"
    (flat_map
       (fun '(k, v) =>
          map (fun elt => (quote_plus k ++ "=" ++ quote_plus elt)%string) v)
       query).

Definition urlunsplit (scheme netloc url query fragment : string) : string :=
  let url :=
    if negb (netloc =? "")
       || (negb (scheme =? "") && mem scheme uses_netloc
           && negb (Py.startswith "//" url))
    then ("//" ++ netloc
          ++ (if negb (url =? "") && negb (Py.startswith "/" url)
              then "/" ++ url else url))%string
    else url in
  let url := if scheme =? "" then url else (scheme ++ ":" ++ url)%string in
  let url := if query =? "" then url else (url ++ "?" ++ query)%string in
  if fragment =? "" then url else (url ++ "#" ++ fragment)%string.

Definition urlunparse (p : ParseResult) : string :=
  let url := if params p =? "" then path p
             else (path p ++ ";" ++ params p)%string in
  urlunsplit (scheme p) (netloc p) url (query p) (fragment p).

Definition reference : urllib :=
  Build_urllib urlparse parse_qs urlencode urlunparse.

End Urllib.

(* ================================================================== *)
(** ** Further concrete inputs used in the examples *)

Module MoreExamples.

(** A source whose metadata line has a space after the comma. *)
Definition spaced_listing : string :=
  ("#EXTINF:-1, CNN" ++ Py.LF ++ "http://x/cnn.m3u8" ++ Py.LF)%string.

(** Filters whose only extension is written in capitals. *)
Definition capital_filters : config :=
  {| filters := {| min_duration := 0; allowed_extensions := [".TS"] |};
     tvbox := tvbox Examples.tvbox_on |}.

(** A generator dict without the key [group]. *)
Definition url_only : IPTVGenerator.channel :=
  IPTVGenerator.set_url "http://x/cnn.m3u8" IPTVGenerator.empty_dict.

(** The metadata line of channel B. *)
Definition extinf_b : string :=
  ("#EXTINF:-1 group-title=" ++ Py.DQ ++ "News" ++ Py.DQ ++ ",B")%string.

(** A source with three metadata lines and one url line: the first
    metadata line is followed by a comment, a blank line and the second
    metadata line, the third by the end of the content. *)
Definition dangling_listing : string :=
  ("#EXTINF:-1,A" ++ Py.LF
   ++ "# note" ++ Py.LF
   ++ Py.LF
   ++ extinf_b ++ Py.LF
   ++ "http://x/b.m3u8" ++ Py.LF
   ++ "#EXTINF:-1,C")%string.

(** The one record the merger's parser makes of [dangling_listing]. *)
Definition news_b : ChannelMerger.channel :=
  {| ChannelMerger.name := "";
     ChannelMerger.group := "News";
     ChannelMerger.tvg_id := "";
     ChannelMerger.logo := "";
     ChannelMerger.duration := (-1)%Z;
     ChannelMerger.url := "http://x/b.m3u8";
     ChannelMerger.source := Some "http://a/list.m3u" |}.

(** The day before [Examples.today]. *)
Definition yesterday : PyTime.datetime :=
  {| PyTime.ordinal := 739922; PyTime.second := 0; PyTime.microsecond := 0 |}.

(** A server whose catch-up understands the dvr form only: it answers 404
    to a url that carries a playseek, timeshift or utc parameter and 200
    with an HLS playlist to any other url. *)
Definition world_dvr_only : Net.world :=
  {| Net.answer := fun _ r =>
       if Py.contains "playseek" (Net.target r)
          || Py.contains "timeshift" (Net.target r)
          || Py.contains "utc" (Net.target r)
       then Some (Examples.reply 404 "text/html")
       else Some (Examples.reply 200 "application/vnd.apple.mpegurl");
     Net.utcnow := fun _ => Examples.today |}.

(** A server that always answers 200 with a plain-text body. *)
Definition world_text : Net.world :=
  {| Net.answer := fun _ _ => Some (Examples.reply 200 "text/html");
     Net.utcnow := fun _ => Examples.today |}.

End MoreExamples.

(* ================================================================== *)
(** * Properties *)

(** ** MD5 test vectors (RFC 1321 and [hashlib]) *)

Example md5_empty : MD5.hexdigest [] = "d41d8cd98f00b204e9800998ecf8427e".
Proof. vm_compute. reflexivity. Qed.

Example md5_abc :
  MD5.hexdigest (Py.encode_utf8 "abc") = "900150983cd24fb0d6963f7d28e17f72".
Proof. vm_compute. reflexivity. Qed.

Example md5_two_blocks :
  MD5.hexdigest (repeat 97%Z 56) = "3b0c8ac703f828b04c6c197006d17218"
  /\ MD5.hexdigest (repeat 97%Z 64) = "014842d480b571495a4a0363793f7367".
Proof. vm_compute. split; reflexivity. Qed.

Example md5_cnn_news :
  MD5.hexdigest (Py.encode_utf8 "CNN|News") = "91886cddff99ce31b1285aaa64a37d99".
Proof. vm_compute. reflexivity. Qed.

(** ** Dictionaries *)

Section DictFacts.
Context {V : Type}.
Implicit Types (d : PyDict.t V) (k : string) (v : V).

Lemma get_set_same d k v : PyDict.get k (PyDict.set k v d) = Some v.
Proof.
  induction d as [| [k' v'] d IH]; simpl.
  - now rewrite String.eqb_refl.
  - destruct (k' =? k)%string eqn:E; simpl; rewrite E; auto.
Qed.

Lemma get_set_other d k k' v :
  k <> k' -> PyDict.get k' (PyDict.set k v d) = PyDict.get k' d.
Proof.
  intros Hne. induction d as [| [k0 v0] d IH]; simpl.
  - apply String.eqb_neq in Hne. now rewrite Hne.
  - destruct (k0 =? k)%string eqn:E; simpl.
    + apply String.eqb_eq in E. subst k0.
      apply String.eqb_neq in Hne. now rewrite Hne.
    + now rewrite IH.
Qed.

Lemma get_none_keys d k : PyDict.get k d = None <-> ~ In k (PyDict.keys d).
Proof.
  induction d as [| [k' v'] d IH]; simpl.
  - tauto.
  - destruct (k' =? k)%string eqn:E.
    + apply String.eqb_eq in E. split; [discriminate | intros H; exfalso; auto].
    + apply String.eqb_neq in E. rewrite IH. tauto.
Qed.

Lemma keys_set_present d k v v0 :
  PyDict.get k d = Some v0 -> PyDict.keys (PyDict.set k v d) = PyDict.keys d.
Proof.
  induction d as [| [k' v'] d IH]; simpl; [discriminate |].
  destruct (k' =? k)%string eqn:E; simpl; intros H.
  - reflexivity.
  - f_equal. now apply IH.
Qed.

Lemma keys_set_absent d k v :
  PyDict.get k d = None -> PyDict.keys (PyDict.set k v d) = PyDict.keys d ++ [k].
Proof.
  induction d as [| [k' v'] d IH]; simpl; [reflexivity |].
  destruct (k' =? k)%string eqn:E; simpl; intros H.
  - discriminate.
  - f_equal. now apply IH.
Qed.

Lemma nodup_keys_set d k v :
  NoDup (PyDict.keys d) -> NoDup (PyDict.keys (PyDict.set k v d)).
Proof.
  intros Hnd. destruct (PyDict.get k d) as [v0 |] eqn:E.
  - now rewrite (keys_set_present d k v v0 E).
  - rewrite (keys_set_absent d k v E).
    apply get_none_keys in E.
    apply NoDup_rev in Hnd. rewrite <- (rev_involutive (_ ++ _)).
    apply NoDup_rev. rewrite rev_app_distr. simpl.
    constructor; [rewrite <- in_rev; exact E | exact Hnd].
Qed.
End DictFacts.

(** ** The first record of greatest rank is what [keep_best] stores *)

Section KeepBestFacts.
Context {A : Type}.
Variable key : A -> string.
Variable rank : A -> Z.

Lemma keep_best_snoc l x :
  keep_best key rank (l ++ [x]) = keep_step key rank (keep_best key rank l) x.
Proof. unfold keep_best. now rewrite fold_left_app. Qed.

Lemma keep_step_nodup t x :
  NoDup (PyDict.keys t) -> NoDup (PyDict.keys (keep_step key rank t x)).
Proof.
  intros H. unfold keep_step.
  destruct (PyDict.get (key x) t) as [old |]; [destruct (rank old <? rank x)%Z |];
    auto using nodup_keys_set.
Qed.

Lemma fold_keep_nodup l t :
  NoDup (PyDict.keys t) -> NoDup (PyDict.keys (fold_left (keep_step key rank) l t)).
Proof.
  revert t. induction l as [| x l IH]; simpl; intros t H; auto using keep_step_nodup.
Qed.

Lemma keep_best_nodup l : NoDup (PyDict.keys (keep_best key rank l)).
Proof. apply fold_keep_nodup. constructor. Qed.

(** A later record of lower or equal rank does not unseat the winner. *)
Lemma first_best_keep k l w x :
  first_best key rank k l w ->
  (key x = k -> (rank x <= rank w)%Z) ->
  first_best key rank k (l ++ [x]) w.
Proof.
  intros (l1 & l2 & -> & Hk & Hlt & Hle) Hx.
  exists l1, (l2 ++ [x]). repeat split; auto.
  - now rewrite <- app_assoc.
  - intros r Hin Hr. apply in_app_or in Hin. destruct Hin as [Hin | [<- | []]]; auto.
Qed.

(** A later record of strictly greater rank becomes the winner. *)
Lemma first_best_replace l w x :
  first_best key rank (key x) l w ->
  (rank w < rank x)%Z ->
  first_best key rank (key x) (l ++ [x]) x.
Proof.
  intros (l1 & l2 & -> & Hk & Hlt & Hle) Hx.
  exists (l1 ++ w :: l2), []. repeat split; auto.
  - intros r Hin Hr. apply in_app_or in Hin. destruct Hin as [Hin | [<- | Hin]].
    + specialize (Hlt r Hin Hr). lia.
    + exact Hx.
    + specialize (Hle r Hin Hr). lia.
  - intros r [].
Qed.

(** What the table holds under each key after the loop. *)
Lemma keep_best_get l k :
  match PyDict.get k (keep_best key rank l) with
  | Some w => first_best key rank k l w
  | None => forall r, In r l -> key r <> k
  end.
Proof.
  induction l as [| x l IH] using rev_ind.
  - simpl. intros r [].
  - rewrite keep_best_snoc. set (t := keep_best key rank l) in *.
    unfold keep_step.
    destruct (String.eqb_spec (key x) k) as [Heq | Hne].
    + subst k. destruct (PyDict.get (key x) t) as [old |] eqn:Eold.
      * destruct (rank old <? rank x)%Z eqn:Elt.
        -- rewrite get_set_same. apply Z.ltb_lt in Elt.
           eapply first_best_replace; eauto.
        -- rewrite Eold. apply Z.ltb_ge in Elt.
           apply first_best_keep; auto.
      * rewrite get_set_same. exists l, []. repeat split; auto.
        -- intros r Hin Hr. exfalso. exact (IH r Hin Hr).
        -- intros r [].
    + assert (Hsame : forall v, PyDict.get k (PyDict.set (key x) v t) = PyDict.get k t)
        by (intros v; now apply get_set_other).
      assert (Hget : PyDict.get k
                match PyDict.get (key x) t with
                | Some old => if (rank old <? rank x)%Z
                              then PyDict.set (key x) x t else t
                | None => PyDict.set (key x) x t
                end = PyDict.get k t).
      { destruct (PyDict.get (key x) t) as [old |];
          [destruct (rank old <? rank x)%Z |]; auto. }
      rewrite Hget. destruct (PyDict.get k t) as [w |].
      * apply first_best_keep; auto. intros E. contradiction.
      * intros r Hin. apply in_app_or in Hin.
        destruct Hin as [Hin | [<- | []]]; auto.
Qed.
End KeepBestFacts.

(** ** Conflict resolution *)

Lemma fold_left_pointwise {A B : Type} (f g : A -> B -> A) (l : list B) (a : A) :
  (forall x y, f x y = g x y) -> fold_left f l a = fold_left g l a.
Proof.
  intros H. revert a. induction l as [| b l IH]; simpl; intros a; auto.
  now rewrite H, IH.
Qed.

Lemma nat_ltb_Z (a b : nat) : (a <? b)%nat = (Z.of_nat a <? Z.of_nat b)%Z.
Proof.
  destruct (Nat.ltb_spec a b), (Z.ltb_spec (Z.of_nat a) (Z.of_nat b)); auto; lia.
Qed.

(** The merger's loop keeps, per channel id, the first record of greatest
    url length. *)
Lemma dedup_keep_best (l : list ChannelMerger.channel) :
  ChannelMerger.dedup l
  = keep_best ChannelMerger._generate_channel_id url_length l.
Proof.
  unfold ChannelMerger.dedup, keep_best. apply fold_left_pointwise.
  intros t c. unfold ChannelMerger.dedup_step, keep_step, url_length.
  destruct (PyDict.get _ t) as [old |]; auto.
  now rewrite nat_ltb_Z.
Qed.

Section GeneratorFacts.
Import IPTVGenerator GeneratorView.

Lemma complete_key c : complete c = true -> _channel_key c = Ok (key_of c).
Proof.
  unfold complete, key_of, _channel_key.
  destruct (group c), (name c), (tvg_id c), (priority c); simpl;
    try discriminate; reflexivity.
Qed.

Lemma complete_truthy c : complete c = true -> truthy c = true.
Proof.
  unfold complete, truthy.
  destruct (group c), (name c), (tvg_id c), (priority c); simpl;
    try discriminate; reflexivity.
Qed.

Lemma complete_priority c :
  complete c = true -> priority c = Some (priority_of c).
Proof.
  unfold complete, priority_of.
  destruct (group c), (name c), (tvg_id c), (priority c); simpl;
    try discriminate; reflexivity.
Qed.

Lemma process_chan_complete t c :
  table_complete t -> complete c = true ->
  process_chan t c = Ok (keep_step key_of priority_of t c).
Proof.
  intros Ht Hc. unfold process_chan, keep_step.
  rewrite (complete_key c Hc). simpl.
  destruct (PyDict.get (key_of c) t) as [e |] eqn:E; auto.
  specialize (Ht _ _ E).
  rewrite (complete_truthy e Ht). simpl.
  rewrite (complete_priority e Ht), (complete_priority c Hc). simpl.
  destruct (priority_of e <? priority_of c)%Z; reflexivity.
Qed.

Lemma table_complete_set t k c :
  table_complete t -> complete c = true -> table_complete (PyDict.set k c t).
Proof.
  intros Ht Hc k' e. destruct (String.eqb_spec k k') as [-> | Hne].
  - rewrite get_set_same. now intros [= <-].
  - rewrite get_set_other by assumption. apply Ht.
Qed.

Lemma table_complete_step t c :
  table_complete t -> complete c = true ->
  table_complete (keep_step key_of priority_of t c).
Proof.
  intros Ht Hc. unfold keep_step.
  destruct (PyDict.get (key_of c) t) as [e |];
    [destruct (priority_of e <? priority_of c)%Z |];
    auto using table_complete_set.
Qed.

Lemma process_channels_complete chans t :
  table_complete t -> forallb complete chans = true ->
  process_channels chans t = fold_left (keep_step key_of priority_of) chans t
  /\ table_complete (process_channels chans t).
Proof.
  revert t. induction chans as [| c chans IH]; simpl; intros t Ht Hall.
  - auto.
  - apply andb_true_iff in Hall. destruct Hall as [Hc Hall].
    rewrite (process_chan_complete t c Ht Hc).
    apply IH; auto using table_complete_step.
Qed.

Lemma process_batches_complete batches t :
  table_complete t -> forallb (forallb complete) batches = true ->
  fold_left
    (fun channels r =>
       match r with
       | Ok chans => process_channels chans channels
       | Raise _ => channels
       end)
    (map Ok batches) t
  = fold_left (keep_step key_of priority_of) (concat batches) t.
Proof.
  revert t. induction batches as [| b batches IH]; simpl; intros t Ht Hall.
  - reflexivity.
  - apply andb_true_iff in Hall. destruct Hall as [Hb Hall].
    destruct (process_channels_complete b t Ht Hb) as [Heq Hinv].
    rewrite fold_left_app, <- Heq. apply IH; auto.
Qed.

(** On complete dicts [process_sources] keeps, per channel key, the
    first record of greatest priority, whatever the completion order. *)
Lemma process_sources_keep_best batches :
  forallb (forallb complete) batches = true ->
  process_sources (map Ok batches)
  = keep_best key_of priority_of (concat batches).
Proof.
  intros Hall. unfold process_sources, keep_best.
  apply process_batches_complete; auto.
  intros k e. discriminate.
Qed.
End GeneratorFacts.

(** C1 (as amended). Among records sharing a fingerprint each path keeps
    exactly one. In [IPTVGenerator.process_sources], for dicts that carry
    group, name, tvg_id and priority, it is the first record of greatest
    priority in processing order: a strictly higher priority wins whatever
    the order, and on a priority tie the record processed first stays (the
    url is not compared). In [ChannelMerger.merge], whose records carry no
    priority, it is the first record of greatest url length: a strictly
    longer url wins, and on equal length the record processed first stays. *)
Theorem conflict_resolution_per_path
    (batches : list (list IPTVGenerator.channel))
    (all_channels : list ChannelMerger.channel)
    (Hcomplete : forallb (forallb GeneratorView.complete) batches = true) :
  let gtable := IPTVGenerator.process_sources (map Ok batches) in
  let mtable := ChannelMerger.dedup all_channels in
  (NoDup (PyDict.keys gtable)
   /\ forall k,
        match PyDict.get k gtable with
        | Some w =>
            first_best GeneratorView.key_of GeneratorView.priority_of
              k (concat batches) w
        | None => forall r, In r (concat batches) -> GeneratorView.key_of r <> k
        end)
  /\ (NoDup (PyDict.keys mtable)
      /\ forall k,
           match PyDict.get k mtable with
           | Some w =>
               first_best ChannelMerger._generate_channel_id url_length
                 k all_channels w
           | None =>
               forall r, In r all_channels ->
                         ChannelMerger._generate_channel_id r <> k
           end).
Proof.
  intros gtable mtable. subst gtable mtable.
  rewrite (process_sources_keep_best batches Hcomplete), dedup_keep_best.
  split; split;
    [ apply keep_best_nodup | intros k; apply keep_best_get
    | apply keep_best_nodup | intros k; apply keep_best_get ].
Qed.

(** C1, witness: two completed futures holding three records of one channel,
    and two merger records of one channel. *)
Lemma conflict_resolution_per_path_witness :
  NoDup (PyDict.keys
           (IPTVGenerator.process_sources
              (map Ok [[Examples.low; Examples.tie_short]; [Examples.tie_long]])))
  /\ NoDup (PyDict.keys (ChannelMerger.dedup [Examples.cnn; Examples.cnn_hd])).
Proof.
  pose proof (conflict_resolution_per_path
                [[Examples.low; Examples.tie_short]; [Examples.tie_long]]
                [Examples.cnn; Examples.cnn_hd] eq_refl) as H.
  exact (conj (proj1 (proj1 H)) (proj1 (proj2 H))).
Defined.

(** C1, counterexample: two records of one channel with equal priority, the
    second with the longer url. The rule of the specification keeps the
    second; [process_sources] keeps the first. *)
Lemma conflict_resolution_counterexample :
  GeneratorView.key_of Examples.tie_short = GeneratorView.key_of Examples.tie_long
  /\ GeneratorView.priority_of Examples.tie_short
     = GeneratorView.priority_of Examples.tie_long
  /\ (String.length (GeneratorView.url_of Examples.tie_short)
      <? String.length (GeneratorView.url_of Examples.tie_long))%nat = true
  /\ PyDict.values
       (Spec.resolve GeneratorView.key_of GeneratorView.priority_of
          GeneratorView.url_of [Examples.tie_short; Examples.tie_long])
     = [Examples.tie_long]
  /\ PyDict.values
       (IPTVGenerator.process_sources [Ok [Examples.tie_short; Examples.tie_long]])
     = [Examples.tie_short].
Proof. vm_compute. repeat split; reflexivity. Qed.

(** ** Filters *)

Lemma apply_filters_loop_filter f channels filtered :
  ChannelMerger.apply_filters_loop f channels filtered
  = filtered ++ filter (fun c => negb (Spec.dropped f c)) channels.
Proof.
  revert filtered. induction channels as [| c rest IH]; simpl; intros filtered.
  - now rewrite app_nil_r.
  - unfold Spec.dropped at 1.
    destruct ((0 <? min_duration f)%Z
              && ((0 <? ChannelMerger.duration c)%Z
                  && (ChannelMerger.duration c <? min_duration f)%Z)); simpl.
    + apply IH.
    + destruct (existsb _ (allowed_extensions f)); simpl.
      * rewrite IH, <- app_assoc. reflexivity.
      * apply IH.
Qed.

(** C5. [_apply_filters] drops a record exactly when (a) the minimum
    duration is positive and the record's duration lies strictly between 0
    and it, or (b) the lower-cased url ends with none of the allowed
    extensions; the records kept stay in order; [merge] returns the table's
    records so filtered; and a record of duration -1 never meets clause (a). *)
Theorem filters_drop_exactly (cfg : config) :
  (forall channels,
      ChannelMerger._apply_filters cfg channels
      = filter (fun c => negb (Spec.dropped (filters cfg) c)) channels)
  /\ (forall channels c,
         In c (ChannelMerger._apply_filters cfg channels)
         <-> In c channels /\ Spec.dropped (filters cfg) c = false)
  /\ (forall sources_data,
         ChannelMerger.merge cfg sources_data
         = filter (fun c => negb (Spec.dropped (filters cfg) c))
             (PyDict.values
                (ChannelMerger.dedup (ChannelMerger.parse_all sources_data []))))
  /\ (forall c, ChannelMerger.duration c = (-1)%Z ->
                Spec.too_short (filters cfg) c = false
                /\ Spec.dropped (filters cfg) c
                   = negb (existsb
                             (fun ext => Py.endswith ext (Py.lower (ChannelMerger.url c)))
                             (allowed_extensions (filters cfg)))).
Proof.
  assert (H : forall channels,
             ChannelMerger._apply_filters cfg channels
             = filter (fun c => negb (Spec.dropped (filters cfg) c)) channels).
  { intros channels. unfold ChannelMerger._apply_filters.
    now rewrite apply_filters_loop_filter. }
  split; [exact H |]. split; [| split].
  - intros channels c. rewrite H, filter_In, negb_true_iff. tauto.
  - intros sources_data. unfold ChannelMerger.merge. apply H.
  - intros c Hlive. unfold Spec.too_short, Spec.dropped. rewrite Hlive.
    simpl. rewrite andb_false_r. auto.
Qed.

(** ** Fingerprints *)

(** C6. The fingerprint depends on the qualifying fields only: two merger
    records with the same name and group have the same channel id, and two
    generator dicts with the same group, name and tvg_id have the same
    channel key, whatever their source, priority, url or position. *)
Theorem fingerprint_deterministic
    (c1 c2 : ChannelMerger.channel) (g1 g2 : IPTVGenerator.channel)
    (Hname : ChannelMerger.name c1 = ChannelMerger.name c2)
    (Hgroup : ChannelMerger.group c1 = ChannelMerger.group c2)
    (Hg : IPTVGenerator.group g1 = IPTVGenerator.group g2)
    (Hn : IPTVGenerator.name g1 = IPTVGenerator.name g2)
    (Ht : IPTVGenerator.tvg_id g1 = IPTVGenerator.tvg_id g2) :
  ChannelMerger._generate_channel_id c1 = ChannelMerger._generate_channel_id c2
  /\ IPTVGenerator._channel_key g1 = IPTVGenerator._channel_key g2.
Proof.
  unfold ChannelMerger._generate_channel_id, IPTVGenerator._channel_key.
  now rewrite Hname, Hgroup, Hg, Hn, Ht.
Qed.

(** C6, witness: records that differ in url, source, tvg-id and priority. *)
Lemma fingerprint_deterministic_witness :
  ChannelMerger._generate_channel_id Examples.cnn
  = ChannelMerger._generate_channel_id Examples.cnn_hd
  /\ IPTVGenerator._channel_key Examples.low
     = IPTVGenerator._channel_key Examples.tie_long.
Proof.
  exact (fingerprint_deterministic Examples.cnn Examples.cnn_hd
           Examples.low Examples.tie_long
           eq_refl eq_refl eq_refl eq_refl eq_refl).
Defined.

(** ** Probe-url synthesis *)

Lemma rbind_raises {A B : Type} (m : result A) (k : A -> result B) :
  (forall a, exists e, k a = Raise e) -> exists e, rbind m k = Raise e.
Proof.
  intros Hk. destruct m as [a | e]; simpl; [apply Hk | now exists e].
Qed.

Lemma urlunparse_not_imported : ~ In "urlunparse" StreamDetector.module_globals.
Proof.
  unfold StreamDetector.module_globals. simpl.
  intros H. repeat (destruct H as [H | H]; [discriminate H |]). exact H.
Qed.

Lemma load_urlunparse_raises :
  StreamDetector.load_global "urlunparse" = Raise (NameError "urlunparse").
Proof. reflexivity. Qed.

Section SynthesisFacts.
Variable lib : urllib.
Variable tlib : PyTime.timelib.

Lemma rebuild_raises u param :
  exists e, StreamDetector.rebuild lib u param = Raise e.
Proof.
  unfold StreamDetector.rebuild. apply rbind_raises. intros parsed.
  rewrite load_urlunparse_raises. simpl. eauto.
Qed.

Lemma catchup_body_raises now start u d t :
  exists e, StreamDetector.catchup_body lib tlib now start u d t = Raise e.
Proof.
  unfold StreamDetector.catchup_body. destruct t as [tpl type].
  apply rbind_raises. intros param. apply rebuild_raises.
Qed.

Lemma catchup_loop_unchanged now start u d ts :
  StreamDetector.catchup_loop lib tlib now start u d ts = u.
Proof.
  induction ts as [| t ts IH]; simpl; [reflexivity |].
  destruct (catchup_body_raises now start u d t) as [e ->]. exact IH.
Qed.

Lemma template_body_raises now start u tpl :
  exists e, StreamDetector.template_body lib tlib now start u tpl = Raise e.
Proof.
  unfold StreamDetector.template_body.
  apply rbind_raises. intros param. apply rebuild_raises.
Qed.

(** When the start time is representable, the url comes back as it was. *)
Lemma apply_catchup_params_unchanged now u d :
  (Z.abs d <= 999999999)%Z ->
  (PyTime.MINORDINAL <= PyTime.ordinal now - d <= PyTime.MAXORDINAL)%Z ->
  StreamDetector._apply_catchup_params lib tlib now u d = Ok u.
Proof.
  intros Hd Hr. unfold StreamDetector._apply_catchup_params, PyTime.timedelta.
  destruct (Z.leb_spec (Z.abs d) 999999999) as [_ | H]; [| lia].
  cbn [rbind]. unfold PyTime.sub.
  destruct (Z.leb_spec PyTime.MINORDINAL (PyTime.ordinal now - d)) as [_ | H];
    [| lia].
  destruct (Z.leb_spec (PyTime.ordinal now - d) PyTime.MAXORDINAL) as [_ | H];
    [| lia].
  cbn [rbind andb]. now rewrite catchup_loop_unchanged.
Qed.

Lemma apply_template_unchanged now u tpl :
  (PyTime.MINORDINAL <= PyTime.ordinal now - 1 <= PyTime.MAXORDINAL)%Z ->
  StreamDetector._apply_template lib tlib now u tpl = Ok u.
Proof.
  intros Hr. unfold StreamDetector._apply_template, PyTime.timedelta.
  change (Z.abs 1 <=? 999999999)%Z with true. cbn [rbind].
  unfold PyTime.sub.
  destruct (Z.leb_spec PyTime.MINORDINAL (PyTime.ordinal now - 1)) as [_ | H];
    [| lia].
  destruct (Z.leb_spec (PyTime.ordinal now - 1) PyTime.MAXORDINAL) as [_ | H];
    [| lia].
  cbn [rbind andb]. destruct (template_body_raises now
    {| PyTime.ordinal := PyTime.ordinal now - 1;
       PyTime.second := PyTime.second now;
       PyTime.microsecond := PyTime.microsecond now |} u tpl) as [e ->].
  reflexivity.
Qed.
End SynthesisFacts.

(** ** Sequential probing *)

Section ProbingFacts.
Context {A : Type}.
Variable ok : nat -> bool.

Lemma first_success_at (xs : list A) n i x :
  nth_error xs i = Some x ->
  ok (n + i) = true ->
  (forall j, j < i -> ok (n + j) = false) ->
  Spec.first_success ok xs n = Some x /\ Spec.probes_issued ok xs n = S i.
Proof.
  revert n i. induction xs as [| y xs IH]; intros n i Hnth Hok Hbefore.
  - destruct i; discriminate.
  - destruct i as [| i]; simpl in *.
    + injection Hnth as ->. rewrite Nat.add_0_r in Hok. now rewrite Hok.
    + assert (H0 : ok n = false).
      { rewrite <- (Nat.add_0_r n). apply Hbefore. lia. }
      rewrite H0.
      destruct (IH (S n) i Hnth) as [Hf Hp].
      * now rewrite Nat.add_succ_comm.
      * intros j Hj. rewrite Nat.add_succ_comm. apply Hbefore. lia.
      * now rewrite Hf, Hp.
Qed.

Lemma first_success_none (xs : list A) n :
  (forall j, j < List.length xs -> ok (n + j) = false) ->
  Spec.first_success ok xs n = None
  /\ Spec.probes_issued ok xs n = List.length xs.
Proof.
  revert n. induction xs as [| y xs IH]; intros n Hall; simpl in *.
  - auto.
  - assert (H0 : ok n = false).
    { rewrite <- (Nat.add_0_r n). apply Hall. lia. }
    rewrite H0. destruct (IH (S n)) as [Hf Hp].
    + intros j Hj. rewrite Nat.add_succ_comm. apply Hall. lia.
    + now rewrite Hf, Hp.
Qed.

Lemma first_success_in (xs : list A) n x :
  Spec.first_success ok xs n = Some x -> In x xs.
Proof.
  revert n. induction xs as [| y xs IH]; intros n; simpl.
  - discriminate.
  - destruct (ok n); [intros [= ->]; auto | intros H; right; eauto].
Qed.
End ProbingFacts.

(** ** Detection runs *)

Section DetectorFacts.
Import Net StreamDetector DetectorView.

Variable lib : urllib.
Variable tlib : PyTime.timelib.
Variable T : Z.
Variable w : world.
Variable u : string.

Hypothesis Hclock : clock_ok w.

Lemma test_catchup_day_run d tr :
  (1 <= d <= 30)%Z ->
  _test_catchup_day lib tlib T w u d tr
  = (Ok (window_ok w u T (List.length tr)), tr ++ [lookback_probe u T]).
Proof.
  intros Hd. unfold _test_catchup_day, bind, clock, lift, send, ret.
  pose proof (Hclock (List.length tr)) as Hc. unfold PyTime.MAXORDINAL in Hc.
  rewrite apply_catchup_params_unchanged;
    [reflexivity | lia | unfold PyTime.MINORDINAL, PyTime.MAXORDINAL; lia].
Qed.

Lemma lookback_run ds res tr :
  Forall (fun d => (1 <= d <= 30)%Z) ds ->
  lookback_loop lib tlib T w u ds res tr
  = (Ok (found res (Spec.first_success (window_ok w u T) ds (List.length tr))),
     tr ++ repeat (lookback_probe u T)
             (Spec.probes_issued (window_ok w u T) ds (List.length tr))).
Proof.
  intros Hds. revert tr. induction Hds as [| d ds Hd Hds IH]; intros tr.
  - simpl. unfold ret. now rewrite app_nil_r.
  - cbn [lookback_loop Spec.first_success Spec.probes_issued].
    unfold bind at 1. rewrite (test_catchup_day_run d tr Hd).
    destruct (window_ok w u T (List.length tr)).
    + reflexivity.
    + rewrite IH. rewrite length_app, Nat.add_1_r. simpl.
      now rewrite <- app_assoc.
Qed.

Lemma find_run ts tr :
  find_loop lib tlib w u ts tr
  = (Ok (Spec.first_success (tpl_ok w u) ts (List.length tr)),
     tr ++ repeat (template_probe u)
             (Spec.probes_issued (tpl_ok w u) ts (List.length tr))).
Proof.
  revert tr. induction ts as [| tpl ts IH]; intros tr.
  - simpl. unfold ret. now rewrite app_nil_r.
  - cbn [find_loop Spec.first_success Spec.probes_issued].
    unfold bind at 1, clock. unfold bind at 1, lift.
    pose proof (Hclock (List.length tr)) as Hc. unfold PyTime.MAXORDINAL in Hc.
    rewrite apply_template_unchanged
      by (unfold PyTime.MINORDINAL, PyTime.MAXORDINAL; lia).
    unfold bind at 1, _test_template, bind at 1, send, ret.
    fold (template_probe u). fold (tpl_ok w u (List.length tr)).
    destruct (tpl_ok w u (List.length tr)).
    + reflexivity.
    + rewrite IH. rewrite length_app, Nat.add_1_r. simpl.
      now rewrite <- app_assoc.
Qed.

Lemma metadata_run tr :
  exists meta,
    _get_stream_metadata T w u tr = (Ok meta, tr ++ [get_request u T]).
Proof.
  unfold _get_stream_metadata, bind, send, ret. eexists. reflexivity.
Qed.

Lemma sorted_windows : sorted_reverse test_days = [30; 15; 7; 3; 1]%Z.
Proof. reflexivity. Qed.

Lemma windows_in_range :
  Forall (fun d => (1 <= d <= 30)%Z) [30; 15; 7; 3; 1]%Z.
Proof. repeat constructor; lia. Qed.

(** A run that passes the connectivity gate: the report and the trace. *)
Lemma detect_run :
  gate_passes w (lookback_probe u T) ->
  let windows := [30; 15; 7; 3; 1]%Z in
  let n1 := Spec.probes_issued (window_ok w u T) windows 1 in
  let n2 := Spec.probes_issued (tpl_ok w u) best_templates (S n1) in
  exists meta,
    detect lib tlib T w u
    = (Ok {| supported :=
               supported
                 (found initial_report
                    (Spec.first_success (window_ok w u T) windows 1));
             max_days :=
               max_days
                 (found initial_report
                    (Spec.first_success (window_ok w u T) windows 1));
             recommended_template :=
               Spec.first_success (tpl_ok w u) best_templates (S n1);
             latency_ms := snd meta;
             codec_info := fst meta |},
       lookback_probe u T
       :: repeat (lookback_probe u T) n1
       ++ repeat (template_probe u) n2 ++ [get_request u T]).
Proof.
  intros (r & Hr & H200) windows n1 n2.
  unfold detect, detect_catchup_capability.
  unfold bind at 1, _test_connection, bind at 1, send, ret.
  fold (lookback_probe u T). cbn [List.length app]. rewrite Hr, H200.
  cbn [Z.eqb Pos.eqb negb]. rewrite sorted_windows.
  unfold bind at 1. rewrite (lookback_run _ _ _ windows_in_range).
  cbn [List.length]. fold windows. fold n1.
  unfold bind at 1, _find_best_template. rewrite find_run.
  assert (Hlen : List.length ([lookback_probe u T]
                              ++ repeat (lookback_probe u T) n1) = S n1)
    by (simpl; now rewrite repeat_length).
  rewrite Hlen. fold n2.
  destruct (metadata_run (([lookback_probe u T]
                           ++ repeat (lookback_probe u T) n1)
                          ++ repeat (template_probe u) n2)) as [meta Hm].
  exists meta. unfold bind, ret. rewrite Hm.
  simpl. now rewrite <- !app_assoc.
Qed.

(** A run that fails the gate. *)
Lemma detect_gate_fails :
  gate_fails w (lookback_probe u T) ->
  detect lib tlib T w u = (Ok initial_report, [lookback_probe u T]).
Proof.
  intros Hg. unfold detect, detect_catchup_capability.
  unfold bind at 1, _test_connection, bind at 1, send, ret.
  fold (lookback_probe u T). cbn [List.length app].
  destruct Hg as [-> | (r & -> & Hne)]; [reflexivity |].
  apply Z.eqb_neq in Hne. rewrite Hne. reflexivity.
Qed.
End DetectorFacts.

(** ** The connectivity gate *)

(** C7. When the connectivity probe raises or returns a status other than
    200, detection returns the zero report (not supported, 0 days, no
    template, latency 0, codec unknown) and the only request it has issued
    is that probe. *)
Theorem gate_failure_zero_report
    (lib : urllib) (tlib : PyTime.timelib) (T : Z) (w : Net.world) (u : string)
    (Hfail : DetectorView.gate_fails w (StreamDetector.head_request u T true)) :
  StreamDetector.detect lib tlib T w u
  = (Ok {| StreamDetector.supported := false;
           StreamDetector.max_days := 0;
           StreamDetector.recommended_template := None;
           StreamDetector.latency_ms := 0;
           StreamDetector.codec_info := "unknown" |},
     [StreamDetector.head_request u T true]).
Proof. exact (detect_gate_fails lib tlib T w u Hfail). Qed.

(** C7, witness: a server that answers 404. *)
Lemma gate_failure_zero_report_witness :
  StreamDetector.detect Examples.plain_urllib Examples.plain_timelib 10
    Examples.world_down Examples.stream
  = (Ok StreamDetector.initial_report,
     [StreamDetector.head_request Examples.stream 10 true]).
Proof.
  apply (gate_failure_zero_report Examples.plain_urllib Examples.plain_timelib
           10 Examples.world_down Examples.stream).
  right. exists (Examples.reply 404 "text/html").
  split; [reflexivity | discriminate].
Defined.

(** ** The look-back search *)


Lemma not_in_later_requests (u : string) (T : Z) (n : nat) :
  ~ In (StreamDetector.head_request u T true)
      (repeat (StreamDetector.head_request u 5 false) n
       ++ [StreamDetector.get_request u T]).
Proof.
  intros H. apply in_app_or in H. destruct H as [H | [H | []]].
  - apply repeat_spec in H. discriminate H.
  - discriminate H.
Qed.



(** ** Template selection *)

Lemma template_ok_iff (resp : option Net.response) :
  StreamDetector.template_ok resp = true
  <-> exists r, resp = Some r /\ Net.status_code r = 200%Z.
Proof.
  unfold StreamDetector.template_ok. destruct resp as [r |].
  - rewrite Z.eqb_eq. split.
    + intros H. exists r. auto.
    + intros (r' & [= <-] & H). exact H.
  - split; [discriminate | intros (r & H & _); discriminate].
Qed.

(** X21. For a url that passes the connectivity gate, the templates are
    probed in the order playseek, timeshift, utc/end, dvr, after the
    look-back probes, each by a HEAD request for the stream url itself with
    a timeout of 5 and no redirects; a probe succeeds exactly when it
    returns 200; probing stops at the first success; the
    recommended template is the first one in that order whose probe
    succeeds (the playseek form as soon as its probe succeeds, whatever the
    dvr probe would return), and none when no probe succeeds. In the
    statement [first] is the request number of the first template probe,
    [ok i] the outcome of the probe of the template at position [i], and
    [issued] the number of template probes in the trace. *)
Theorem template_selection
    (lib : urllib) (tlib : PyTime.timelib) (T : Z) (w : Net.world) (u : string)
    (Hclock : DetectorView.clock_ok w)
    (Hgate : DetectorView.gate_passes w (StreamDetector.head_request u T true)) :
  let p := StreamDetector.head_request u T true in
  let t := StreamDetector.head_request u 5 false in
  let first :=
    S (Spec.probes_issued
         (fun n => StreamDetector.catchup_ok (Net.answer w n p))
         [30; 15; 7; 3; 1]%Z 1) in
  let ok i := StreamDetector.template_ok (Net.answer w (first + i) t) in
  StreamDetector.best_templates
  = [ "playseek={utc}-{utcend}"; "timeshift={sec}";
      "utc={start}&end={end}"; "dvr={days}" ]
  /\ (forall resp,
         StreamDetector.template_ok resp = true
         <-> exists r, resp = Some r /\ Net.status_code r = 200%Z)
  /\ exists rep issued,
       StreamDetector.detect lib tlib T w u
       = (Ok rep,
          repeat p first ++ repeat t issued ++ [StreamDetector.get_request u T])
       /\ (forall i tpl,
              nth_error StreamDetector.best_templates i = Some tpl ->
              ok i = true ->
              (forall j, j < i -> ok j = false) ->
              StreamDetector.recommended_template rep = Some tpl
              /\ issued = S i)
       /\ (ok 0 = true ->
           StreamDetector.recommended_template rep
           = Some "playseek={utc}-{utcend}")
       /\ ((forall i, i < 4 -> ok i = false) ->
           StreamDetector.recommended_template rep = None /\ issued = 4).
Proof.
  intros p t first ok.
  split; [reflexivity |]. split; [exact template_ok_iff |].
  destruct (detect_run lib tlib T w u Hclock Hgate) as [meta Hrun].
  cbv zeta in Hrun.
  change (S (Spec.probes_issued (DetectorView.window_ok w u T)
               [30; 15; 7; 3; 1]%Z 1)) with first in Hrun.
  set (tok := DetectorView.tpl_ok w u) in *.
  eexists. exists (Spec.probes_issued tok StreamDetector.best_templates first).
  split; [exact Hrun |].
  cbn [StreamDetector.recommended_template].
  assert (Hat : forall i tpl,
             nth_error StreamDetector.best_templates i = Some tpl ->
             ok i = true ->
             (forall j, j < i -> ok j = false) ->
             Spec.first_success tok StreamDetector.best_templates first = Some tpl
             /\ Spec.probes_issued tok StreamDetector.best_templates first = S i).
  { intros i tpl Hnth Hok Hbefore.
    exact (first_success_at tok StreamDetector.best_templates first i tpl
             Hnth Hok Hbefore). }
  split; [| split].
  - intros i tpl Hnth Hok Hbefore.
    destruct (Hat i tpl Hnth Hok Hbefore) as [-> ->]. auto.
  - intros Hok. destruct (Hat 0 "playseek={utc}-{utcend}" eq_refl Hok) as [-> _].
    + intros j Hj. lia.
    + reflexivity.
  - intros Hnone.
    destruct (first_success_none tok StreamDetector.best_templates first Hnone)
      as [-> ->].
    auto.
Qed.

(** X21, witness: a server that answers 200 to everything, so that both the
    playseek probe and the dvr probe would succeed. *)
Lemma template_selection_witness :
  exists rep tr,
    StreamDetector.detect Examples.plain_urllib Examples.plain_timelib 10
      Examples.world_up Examples.stream = (Ok rep, tr)
    /\ StreamDetector.recommended_template rep = Some "playseek={utc}-{utcend}".
Proof.
  assert (Hclock : DetectorView.clock_ok Examples.world_up).
  { intros n. vm_compute. split; discriminate. }
  assert (Hgate : DetectorView.gate_passes Examples.world_up
                    (StreamDetector.head_request Examples.stream 10 true)).
  { exists (Examples.reply 200 "application/vnd.apple.mpegurl").
    split; reflexivity. }
  destruct (template_selection Examples.plain_urllib Examples.plain_timelib 10
              Examples.world_up Examples.stream Hclock Hgate)
    as (_ & _ & rep & issued & Hrun & _ & Hplayseek & _).
  eexists. eexists. split; [exact Hrun |].
  apply Hplayseek. reflexivity.
Defined.

(** C3, evaluated at a failing input: the stream [Examples.stream] on a
    server that answers 404 to every url carrying a playseek, timeshift or
    utc parameter and 200 to any other, so that of the four templates,
    instantiated with a 1-day window, only the dvr form could succeed.
    With the library functions of [urllib.parse] as they are,
    [_apply_template] returns the stream url itself for each of the four
    templates: for the playseek, timeshift and dvr forms the [try] block
    has the parameter formatted and then raises NameError at the name
    urlunparse, and for the utc/end form the test for utc comes first and
    the format call raises KeyError for start. The detection run sends one
    template probe, for the stream url itself, which the server answers
    with 200, and reports the playseek form. *)
Theorem template_probes_not_instantiated :
  let u := Examples.stream in
  let lib := Urllib.reference in
  let tlib := Examples.plain_timelib in
  let body := StreamDetector.template_body lib tlib Examples.today
                MoreExamples.yesterday u in
  PyTime.sub Examples.today 1 = Ok MoreExamples.yesterday
  /\ Forall
       (fun tpl =>
          StreamDetector._apply_template lib tlib Examples.today u tpl = Ok u)
       StreamDetector.best_templates
  /\ body "playseek={utc}-{utcend}" = Raise (NameError "urlunparse")
  /\ body "timeshift={sec}" = Raise (NameError "urlunparse")
  /\ body "utc={start}&end={end}" = Raise (KeyError "start")
  /\ body "dvr={days}" = Raise (NameError "urlunparse")
  /\ (forall n r,
         Py.contains "playseek" (Net.target r) = true ->
         StreamDetector.template_ok (Net.answer MoreExamples.world_dvr_only n r)
         = false)
  /\ StreamDetector.detect lib tlib 10 MoreExamples.world_dvr_only u
     = (Ok {| StreamDetector.supported := true;
              StreamDetector.max_days := 30;
              StreamDetector.recommended_template :=
                Some "playseek={utc}-{utcend}";
              StreamDetector.latency_ms := 12;
              StreamDetector.codec_info := "HLS" |},
        [ StreamDetector.head_request u 10 true;
          StreamDetector.head_request u 10 true;
          StreamDetector.head_request u 5 false;
          StreamDetector.get_request u 10 ]).
Proof.
  cbv zeta.
  split; [reflexivity |].
  split; [repeat constructor |].
  split; [vm_compute; reflexivity |].
  split; [vm_compute; reflexivity |].
  split; [vm_compute; reflexivity |].
  split; [vm_compute; reflexivity |].
  split.
  - intros n r Hseek. unfold MoreExamples.world_dvr_only.
    cbn [Net.answer]. rewrite Hseek. reflexivity.
  - vm_compute. reflexivity.
Qed.

(** ** What the synthesis helpers return *)

Lemma targets_of_run (u : string) (T : Z) (n1 n2 : nat) :
  Forall (fun q => Net.target q = u)
    (StreamDetector.head_request u T true
     :: repeat (StreamDetector.head_request u T true) n1
     ++ repeat (StreamDetector.head_request u 5 false) n2
     ++ [StreamDetector.get_request u T]).
Proof.
  constructor; [reflexivity |].
  apply Forall_app; split; [| apply Forall_app; split].
  - apply Forall_forall. intros q Hq. apply repeat_spec in Hq. now subst q.
  - apply Forall_forall. intros q Hq. apply repeat_spec in Hq. now subst q.
  - constructor; [reflexivity | constructor].
Qed.

Lemma gate_decided (w : Net.world) (g : Net.request) :
  DetectorView.gate_passes w g \/ DetectorView.gate_fails w g.
Proof.
  unfold DetectorView.gate_passes, DetectorView.gate_fails.
  destruct (Net.answer w 0 g) as [r |] eqn:E; [| auto].
  destruct (Z.eq_dec (Net.status_code r) 200) as [H | H].
  - left. eauto.
  - right. right. eauto.
Qed.

(** C10 (as amended). The name [urlunparse] is not bound in [detector.py],
    so the [try] block of either helper always raises and the fallback
    returns the url as it was: [_apply_catchup_params] for every url and
    every day count whose start time is a representable [datetime] (a
    magnitude of at most 999999999 days, and a start date within years
    1-9999), [_apply_template] for every url and template when the day
    before [now] is representable. Hence, while the clock is in range,
    every request of a detection targets the unmodified stream url. *)
Theorem synthesis_returns_url_unchanged
    (lib : urllib) (tlib : PyTime.timelib) (now : PyTime.datetime)
    (u : string) (d : Z) (tpl : string) (T : Z) (w : Net.world)
    (Hdays : (Z.abs d <= 999999999)%Z)
    (Hstart : (PyTime.MINORDINAL <= PyTime.ordinal now - d <= PyTime.MAXORDINAL)%Z)
    (Hday : (PyTime.MINORDINAL <= PyTime.ordinal now - 1 <= PyTime.MAXORDINAL)%Z)
    (Hclock : DetectorView.clock_ok w) :
  ~ In "urlunparse" StreamDetector.module_globals
  /\ StreamDetector.load_global "urlunparse" = Raise (NameError "urlunparse")
  /\ StreamDetector._apply_catchup_params lib tlib now u d = Ok u
  /\ StreamDetector._apply_template lib tlib now u tpl = Ok u
  /\ Forall (fun q => Net.target q = u)
       (snd (StreamDetector.detect lib tlib T w u)).
Proof.
  split; [exact urlunparse_not_imported |].
  split; [reflexivity |].
  split; [now apply apply_catchup_params_unchanged |].
  split; [now apply apply_template_unchanged |].
  destruct (gate_decided w (StreamDetector.head_request u T true)) as [Hp | Hf].
  - destruct (detect_run lib tlib T w u Hclock Hp) as [meta Hrun].
    cbv zeta in Hrun. rewrite Hrun. cbn [snd]. apply targets_of_run.
  - rewrite (detect_gate_fails lib tlib T w u Hf). cbn [snd].
    constructor; [reflexivity | constructor].
Qed.

(** C10, witness: the 30-day window on 2026-11-03. *)
Lemma synthesis_returns_url_unchanged_witness :
  StreamDetector._apply_catchup_params Examples.plain_urllib
    Examples.plain_timelib Examples.today Examples.stream 30 = Ok Examples.stream
  /\ StreamDetector._apply_template Examples.plain_urllib
       Examples.plain_timelib Examples.today Examples.stream "dvr={days}"
     = Ok Examples.stream.
Proof.
  assert (Hclock : DetectorView.clock_ok Examples.world_up).
  { intros n. vm_compute. split; discriminate. }
  assert (Hdays : (Z.abs 30 <= 999999999)%Z) by (vm_compute; discriminate).
  assert (Hstart : (PyTime.MINORDINAL <= PyTime.ordinal Examples.today - 30
                    <= PyTime.MAXORDINAL)%Z)
    by (vm_compute; split; discriminate).
  assert (Hday : (PyTime.MINORDINAL <= PyTime.ordinal Examples.today - 1
                  <= PyTime.MAXORDINAL)%Z)
    by (vm_compute; split; discriminate).
  destruct (synthesis_returns_url_unchanged Examples.plain_urllib
              Examples.plain_timelib Examples.today Examples.stream 30
              "dvr={days}" 10 Examples.world_up Hdays Hstart Hday Hclock)
    as (_ & _ & H1 & H2 & _).
  exact (conj H1 H2).
Defined.

(** C10, counterexample: a day count beyond the range of [timedelta]. The
    subtraction of line 98 raises before the [try] block is entered. *)
Lemma synthesis_counterexample :
  StreamDetector._apply_catchup_params Examples.plain_urllib
    Examples.plain_timelib Examples.today Examples.stream 10000000000
  = Raise (OverflowError "days; must have magnitude <= 999999999")
  /\ StreamDetector._apply_catchup_params Examples.plain_urllib
       Examples.plain_timelib Examples.today Examples.stream 10000000000
     <> Ok Examples.stream.
Proof. split; [reflexivity | discriminate]. Qed.

(** ** The reference model of [urllib.parse] on sample values

    The right-hand sides are what the library returns for these
    arguments. *)

Example urlparse_sample :
  Urllib.urlparse "HTTP://X/a;p=1?a=1&a=2&b#frag"
  = Ok {| scheme := "http"; netloc := "X"; path := "/a"; params := "p=1";
          query := "a=1&a=2&b"; fragment := "frag" |}.
Proof. reflexivity. Qed.

Example urlparse_relative_sample :
  Urllib.urlparse "x/y?a=1"
  = Ok {| scheme := ""; netloc := ""; path := "x/y"; params := "";
          query := "a=1"; fragment := "" |}.
Proof. reflexivity. Qed.

Example urlparse_bracket_sample :
  Urllib.urlparse "http://[x/y" = Raise (ValueError "Invalid IPv6 URL").
Proof. reflexivity. Qed.

Example parse_qs_sample :
  Urllib.parse_qs "a=%41+b&c=d%3De&a=2&&=3&e&f=&z=%zz"
  = [("a", ["A b"; "2"]); ("c", ["d=e"]); ("", ["3"]); ("z", ["%zz"])].
Proof. reflexivity. Qed.

Example urlencode_sample :
  Urllib.urlencode [("a", ["A b"; "2"]); ("c", ["d=e"]); ("k", ["~_.-/{}"])]
  = "a=A+b&a=2&c=d%3De&k=~_.-%2F%7B%7D".
Proof. reflexivity. Qed.

Example urlunparse_sample :
  Urllib.urlunparse
    {| scheme := "http"; netloc := "x"; path := "/a"; params := "p=1";
       query := "a=1"; fragment := "frag" |}
  = "http://x/a;p=1?a=1#frag".
Proof. reflexivity. Qed.

(** ** Catch-up injection *)

Lemma string_append_assoc (a b c : string) :
  ((a ++ b) ++ c)%string = (a ++ b ++ c)%string.
Proof. induction a as [| x a IH]; simpl; [reflexivity | now rewrite IH]. Qed.

(** C4 (as amended). In the static injection of [M3UGenerator], when
    injection is enabled the record's url is kept verbatim, query
    parameters included, and the configured template is appended after a
    question mark, or after an ampersand when the url already contains a
    question mark; nothing already in the url is overwritten and the other
    fields stay; when injection is disabled the record is unchanged. In
    [IPTVGenerator._process_url], when catch-up is enabled with a positive
    day count, every query parameter reported by [parse_qs] is passed on
    with its values and the playseek key is set to the configured format,
    replacing any values it had. What [parse_qs] does not report, a
    parameter with a blank value, is not passed on. *)
Theorem catchup_injection
    (cfg : config) (c : ChannelMerger.channel)
    (lib : urllib) (gcfg : IPTVGenerator.config)
    (gc : IPTVGenerator.catchup_config) (parsed : ParseResult) (u : string)
    (Hcatchup : IPTVGenerator.catchup gcfg = Some gc)
    (Henable : IPTVGenerator.enable gc = Some true)
    (Hdays : (0 <? match IPTVGenerator.days gc with
                   | Some d => d
                   | None => 3
                   end)%Z = true)
    (Hparse : urlparse lib u = Ok parsed) :
  (enable (catchup (tvbox cfg)) = true ->
   M3UGenerator._generate_catchup cfg c
   = ChannelMerger.set_url
       (ChannelMerger.url c
        ++ (if Py.contains "?" (ChannelMerger.url c) then "&" else "?")
        ++ template (catchup (tvbox cfg)))%string c)
  /\ (enable (catchup (tvbox cfg)) = false ->
      M3UGenerator._generate_catchup cfg c = c)
  /\ exists q,
       IPTVGenerator._process_url lib gcfg u
       = Ok (urlunparse lib (replace_query parsed (urlencode lib q)))
       /\ PyDict.get "playseek" q
          = Some [match IPTVGenerator.format gc with
                  | Some f => f
                  | None => "playseek={utc}-{utcend}"
                  end]
       /\ forall k, k <> "playseek" ->
                    PyDict.get k q = PyDict.get k (parse_qs lib (query parsed)).
Proof.
  split; [| split].
  - intros Hon. unfold M3UGenerator._generate_catchup. rewrite Hon. simpl.
    destruct (Py.contains "?" (ChannelMerger.url c)); destruct c; simpl;
      unfold ChannelMerger.set_url; simpl; f_equal;
      now rewrite string_append_assoc.
  - intros Hoff. unfold M3UGenerator._generate_catchup. now rewrite Hoff.
  - eexists. split; [| split].
    + unfold IPTVGenerator._process_url, IPTVGenerator.catchup_enabled.
      rewrite Hcatchup, Henable. cbn [negb IPTVGenerator.item rbind].
      apply Z.ltb_lt in Hdays.
      destruct (Z.leb_spec (match IPTVGenerator.days gc with
                            | Some d => d
                            | None => 3%Z
                            end) 0) as [H | _]; [lia |].
      rewrite Hparse. cbn [rbind]. reflexivity.
    + apply get_set_same.
    + intros k Hk. apply get_set_other. congruence.
Qed.

(** C4, witness: a tvbox configuration with injection on, and the generator
    configuration with catch-up enabled for 3 days, on a url that already
    carries the parameter a and a playseek parameter, with the library
    functions of [urllib.parse] as they are. The parameter a is passed on
    with its value and the old value of playseek is replaced. *)
Lemma catchup_injection_witness :
  M3UGenerator._generate_catchup Examples.tvbox_on Examples.cnn
  = ChannelMerger.set_url "http://x/cnn.m3u8?playseek={utc}-{utcend}" Examples.cnn
  /\ (exists q,
         IPTVGenerator._process_url Urllib.reference Examples.generator_on
           "http://x/cnn.m3u8?a=1&playseek=old"
         = Ok (urlunparse Urllib.reference
                 (replace_query
                    {| scheme := "http"; netloc := "x"; path := "/cnn.m3u8";
                       params := ""; query := "a=1&playseek=old";
                       fragment := "" |}
                    (urlencode Urllib.reference q)))
         /\ PyDict.get "playseek" q = Some ["playseek={utc}-{utcend}"]
         /\ PyDict.get "a" q = Some ["1"])
  /\ IPTVGenerator._process_url Urllib.reference Examples.generator_on
       "http://x/cnn.m3u8?a=1&playseek=old"
     = Ok "http://x/cnn.m3u8?a=1&playseek=playseek%3D%7Butc%7D-%7Butcend%7D".
Proof.
  destruct (catchup_injection Examples.tvbox_on Examples.cnn
              Urllib.reference Examples.generator_on
              {| IPTVGenerator.enable := Some true;
                 IPTVGenerator.days := Some 3%Z;
                 IPTVGenerator.format := None |}
              {| scheme := "http"; netloc := "x"; path := "/cnn.m3u8";
                 params := ""; query := "a=1&playseek=old"; fragment := "" |}
              "http://x/cnn.m3u8?a=1&playseek=old"
              eq_refl eq_refl eq_refl eq_refl)
    as (Hon & _ & q & Hq & Hget & Hother).
  split; [exact (Hon eq_refl) |]. split.
  - exists q. split; [exact Hq |]. split; [exact Hget |].
    rewrite (Hother "a"); [reflexivity | discriminate].
  - vm_compute. reflexivity.
Defined.

(** C4, counterexample: the static injection does not overwrite a playseek
    key that the url already carries, the old value stays in front of the
    appended one; the resolver's synthesis adds no catchup key at all; and
    [_process_url], with the library functions of [urllib.parse] as they
    are, loses a parameter of the url whose value is blank, which
    [parse_qs] does not report. *)
Lemma catchup_injection_counterexample :
  ChannelMerger.url (M3UGenerator._generate_catchup Examples.tvbox_on Examples.cnn_seek)
  = "http://x/cnn.m3u8?playseek=old&playseek={utc}-{utcend}"
  /\ Py.contains "playseek=old"
       (ChannelMerger.url
          (M3UGenerator._generate_catchup Examples.tvbox_on Examples.cnn_seek))
     = true
  /\ StreamDetector._apply_catchup_params Examples.plain_urllib
       Examples.plain_timelib Examples.today "http://x/cnn.m3u8?a=1" 7
     = Ok "http://x/cnn.m3u8?a=1"
  /\ Py.contains "catchup" "http://x/cnn.m3u8?a=1" = false
  /\ StreamDetector._apply_catchup_params Urllib.reference
       Examples.plain_timelib Examples.today "http://x/cnn.m3u8?a=1" 7
     = Ok "http://x/cnn.m3u8?a=1"
  /\ Urllib.parse_qs "b=&c=1" = [("c", ["1"])]
  /\ IPTVGenerator._process_url Urllib.reference Examples.generator_on
       "http://x/cnn.m3u8?b=&c=1"
     = Ok "http://x/cnn.m3u8?c=1&playseek=playseek%3D%7Butc%7D-%7Butcend%7D"
  /\ Py.contains "b="
       "http://x/cnn.m3u8?c=1&playseek=playseek%3D%7Butc%7D-%7Butcend%7D"
     = false.
Proof. vm_compute. repeat split; reflexivity. Qed.

(** ** Output generation *)

(** C8, evaluated at the failing input: injection enabled, one source with
    one channel. The restricted variant rewrites the record's url in the
    catalog, and the full variant that [main] generates next emits the
    rewritten url; generated alone from the untouched catalog, the full
    variant emits the url as merged. *)
Theorem full_variant_after_restricted :
  ChannelMerger.merge Examples.tvbox_on Examples.sources_data
  = [Examples.merged_cnn]
  /\ ChannelMerger.url Examples.merged_cnn = "http://x/cnn.m3u8"
  /\ snd (M3UGenerator.generate Examples.tvbox_on "2026-11-03 00:00:00"
            (ChannelMerger.merge Examples.tvbox_on Examples.sources_data) false)
     = [ChannelMerger.set_url "http://x/cnn.m3u8?playseek={utc}-{utcend}"
          Examples.merged_cnn]
  /\ (let '(_, full_m3u, _) :=
        M3UGenerator.main Examples.tvbox_on "2026-11-03 00:00:00"
          Examples.sources_data in
      full_m3u
      = ("#EXTM3U x-tvg-url=" ++ Py.DQ ++ "http://epg/e.xml" ++ Py.DQ ++ Py.LF
         ++ "# Generated on 2026-11-03 00:00:00" ++ Py.LF ++ Py.LF
         ++ "#EXTINF:-1 tvg-id=" ++ Py.DQ ++ "1" ++ Py.DQ
         ++ " tvg-name=" ++ Py.DQ ++ Py.DQ
         ++ " tvg-logo=" ++ Py.DQ ++ Py.DQ
         ++ " group-title=" ++ Py.DQ ++ "News" ++ Py.DQ ++ "," ++ Py.LF
         ++ "http://x/cnn.m3u8?playseek={utc}-{utcend}")%string)
  /\ fst (M3UGenerator.generate Examples.tvbox_on "2026-11-03 00:00:00"
            (ChannelMerger.merge Examples.tvbox_on Examples.sources_data) true)
     = ("#EXTM3U x-tvg-url=" ++ Py.DQ ++ "http://epg/e.xml" ++ Py.DQ ++ Py.LF
        ++ "# Generated on 2026-11-03 00:00:00" ++ Py.LF ++ Py.LF
        ++ "#EXTINF:-1 tvg-id=" ++ Py.DQ ++ "1" ++ Py.DQ
        ++ " tvg-name=" ++ Py.DQ ++ Py.DQ
        ++ " tvg-logo=" ++ Py.DQ ++ Py.DQ
        ++ " group-title=" ++ Py.DQ ++ "News" ++ Py.DQ ++ "," ++ Py.LF
        ++ "http://x/cnn.m3u8")%string.
Proof. vm_compute. repeat split; reflexivity. Qed.

(** ** Parsing *)

(** C9, evaluated at the listing of the property. [ChannelMerger.parse_m3u]
    returns one record with the group, tvg-id and url of the listing but an
    empty name; [IPTVGenerator._parse_m3u] raises AttributeError at the
    metadata line, for every configuration and priority. *)
Theorem parser_round_trip_listing :
  (forall source_url,
      ChannelMerger.parse_m3u Examples.listing source_url
      = Ok [ {| ChannelMerger.name := "";
                ChannelMerger.group := "News";
                ChannelMerger.tvg_id := "1";
                ChannelMerger.logo := "";
                ChannelMerger.duration := (-1)%Z;
                ChannelMerger.url := "http://x/cnn.m3u8";
                ChannelMerger.source := Some source_url |} ])
  /\ (forall lib cfg prio,
         IPTVGenerator._parse_m3u lib cfg Examples.listing prio
         = Raise (AttributeError "'list' object has no attribute 'strip'")).
Proof. split; intros; vm_compute; reflexivity. Qed.

(* ================================================================== *)
(** * Further properties of the code *)

(** ** The merger's parser *)

Section MergerParserFacts.
Import ChannelMerger.

Lemma apply_attrs_keeps attrs c c' :
  apply_attrs attrs c = Ok c' ->
  name c' = name c /\ url c' = url c /\ source c' = source c.
Proof.
  revert c. induction attrs as [| [attr value] attrs IH]; intros c; simpl.
  - intros [= <-]. auto.
  - destruct (attr =? "group-title")%string; [intros H; apply IH in H; exact H |].
    destruct (attr =? "tvg-id")%string; [intros H; apply IH in H; exact H |].
    destruct (attr =? "tvg-logo")%string; [intros H; apply IH in H; exact H |].
    destruct (attr =? "duration")%string; [| apply IH].
    destruct (Py.int value) as [d | e]; simpl; [| discriminate].
    intros H. apply IH in H. exact H.
Qed.

Lemma parse_extinf_ok line c :
  _parse_extinf line = Ok c ->
  Py.contains ", " line = false
  /\ name c = EmptyString /\ url c = EmptyString /\ source c = None.
Proof.
  unfold _parse_extinf. destruct (Py.contains ", " line); simpl.
  - discriminate.
  - intros H. apply apply_attrs_keeps in H. simpl in H. tauto.
Qed.

Lemma parse_extinf_comma_space line :
  Py.contains ", " line = true ->
  _parse_extinf line
  = Raise (AttributeError "'list' object has no attribute 'strip'").
Proof. intros H. unfold _parse_extinf. now rewrite H. Qed.

Variable source_url : string.
Variable all_lines : list string.

Lemma parse_lines_emitted lines current channels out :
  parse_lines source_url lines current channels = Ok out ->
  (forall raw, In raw lines -> In raw all_lines) ->
  (forall c, current = Some c -> name c = EmptyString) ->
  Forall (Views.emitted source_url all_lines) channels ->
  Forall (Views.emitted source_url all_lines) out.
Proof.
  revert current channels.
  induction lines as [| raw rest IH]; intros current channels;
    cbn [parse_lines].
  - intros [= <-] _ _ H. exact H.
  - intros Hrun Hsub Hcur Hacc.
    assert (Hrest : forall r, In r rest -> In r all_lines)
      by (intros r Hr; apply Hsub; now right).
    destruct (Py.strip raw =? "")%string eqn:Eempty; [eauto |].
    destruct (Py.startswith "#EXTINF" (Py.strip raw)) eqn:Eext.
    + destruct (_parse_extinf (Py.strip raw)) as [c | e] eqn:Ec;
        cbn [rbind] in Hrun; [| discriminate Hrun].
      apply (IH _ _ Hrun); auto.
      intros c' [= <-]. apply parse_extinf_ok in Ec. tauto.
    + destruct current as [c |]; [| eauto].
      destruct (Py.startswith "#" (Py.strip raw)) eqn:Ehash;
        cbn [negb] in Hrun; [eauto |].
      apply (IH _ _ Hrun); auto; [discriminate |].
      apply Forall_app. split; [exact Hacc |].
      constructor; [| constructor].
      unfold Views.emitted. cbn [set_source set_url name source url].
      repeat split.
      * now apply Hcur.
      * apply String.eqb_neq. exact Eempty.
      * exact Ehash.
      * exists raw. split; [apply Hsub; now left | reflexivity].
Qed.

Lemma parse_lines_count lines current channels out :
  parse_lines source_url lines current channels = Ok out ->
  List.length out
  <= List.length channels
     + (match current with Some _ => 1 | None => 0 end)
     + List.length (filter Views.is_extinf lines).
Proof.
  revert current channels.
  induction lines as [| raw rest IH]; intros current channels;
    cbn [parse_lines filter].
  - intros [= <-]. simpl. lia.
  - unfold Views.is_extinf at 1.
    destruct (Py.strip raw =? "")%string eqn:Eempty.
    + apply String.eqb_eq in Eempty. rewrite Eempty.
      change (Py.startswith "#EXTINF" "") with false. cbn iota. apply IH.
    + destruct (Py.startswith "#EXTINF" (Py.strip raw)) eqn:Eext.
      * destruct (_parse_extinf (Py.strip raw)) as [c | e]; cbn [rbind];
          [| discriminate].
        intros Hrun. apply IH in Hrun. cbn [List.length].
        destruct current; lia.
      * destruct current as [c |]; [| apply IH].
        destruct (Py.startswith "#" (Py.strip raw)); cbn [negb];
          [apply IH |].
        intros Hrun. apply IH in Hrun. rewrite length_app in Hrun.
        cbn [List.length] in Hrun. lia.
Qed.

Lemma parse_lines_count_urls lines current channels out :
  parse_lines source_url lines current channels = Ok out ->
  List.length out
  <= List.length channels + List.length (filter Views.is_url_line lines).
Proof.
  revert current channels.
  induction lines as [| raw rest IH]; intros current channels;
    cbn [parse_lines filter].
  - intros [= <-]. simpl. lia.
  - unfold Views.is_url_line at 1.
    destruct (Py.strip raw =? "")%string eqn:Eempty; cbn [negb andb];
      [apply IH |].
    destruct (Py.startswith "#EXTINF" (Py.strip raw)) eqn:Eext.
    + destruct (_parse_extinf (Py.strip raw)) as [c | e]; cbn [rbind];
        [| discriminate].
      intros Hrun. apply IH in Hrun.
      destruct (negb (Py.startswith "#" (Py.strip raw)));
        cbn [List.length]; lia.
    + destruct (Py.startswith "#" (Py.strip raw)); cbn [negb].
      * destruct current; apply IH.
      * destruct current as [c |]; intros Hrun; apply IH in Hrun;
          [rewrite length_app in Hrun |]; cbn [List.length] in *; lia.
Qed.

Lemma extinf_is_comment line :
  Py.startswith "#EXTINF" line = true -> Py.startswith "#" line = true.
Proof.
  destruct line as [| y r]; cbn [Py.startswith]; [discriminate |].
  intros H. apply andb_true_iff in H. destruct H as [H _].
  rewrite H. reflexivity.
Qed.




Lemma parse_lines_comma_space lines current channels bad :
  In bad lines ->
  Views.is_extinf bad = true ->
  Py.contains ", " (Py.strip bad) = true ->
  exists e, parse_lines source_url lines current channels = Raise e.
Proof.
  intros Hin Hext Hcomma. revert current channels.
  induction lines as [| raw rest IH]; intros current channels;
    [destruct Hin |].
  cbn [parse_lines]. destruct Hin as [-> | Hin].
  - unfold Views.is_extinf in Hext.
    destruct (Py.strip bad =? "")%string eqn:Eempty.
    + apply String.eqb_eq in Eempty. rewrite Eempty in Hext. discriminate.
    + rewrite Hext, (parse_extinf_comma_space _ Hcomma). cbn [rbind]. eauto.
  - specialize (IH Hin).
    destruct (Py.strip raw =? "")%string; [apply IH |].
    destruct (Py.startswith "#EXTINF" (Py.strip raw)).
    + destruct (_parse_extinf (Py.strip raw)) as [c | e]; cbn [rbind];
        [apply IH | eauto].
    + destruct current as [c |]; [| apply IH].
      destruct (Py.startswith "#" (Py.strip raw)); cbn [negb]; apply IH.
Qed.
End MergerParserFacts.

Lemma parse_all_app (a b : list (string * string)) acc :
  ChannelMerger.parse_all (a ++ b) acc
  = ChannelMerger.parse_all b (ChannelMerger.parse_all a acc).
Proof.
  revert acc. induction a as [| [u content] a IH]; intros acc; simpl.
  - reflexivity.
  - destruct (ChannelMerger.parse_m3u content u); apply IH.
Qed.

(** X1. Every record returned by [ChannelMerger.parse_m3u] has an empty
    name, carries the source it was parsed from, and has as url the
    stripped form of one line of the content, which is neither empty nor a
    comment line. *)
Theorem parse_m3u_records (content source_url : string)
    (out : list ChannelMerger.channel)
    (Hrun : ChannelMerger.parse_m3u content source_url = Ok out) :
  Forall
    (fun c =>
       ChannelMerger.name c = EmptyString
       /\ ChannelMerger.source c = Some source_url
       /\ ChannelMerger.url c <> EmptyString
       /\ Py.startswith "#" (ChannelMerger.url c) = false
       /\ exists raw,
            In raw (Py.split Py.LF content)
            /\ ChannelMerger.url c = Py.strip raw)
    out.
Proof.
  unfold ChannelMerger.parse_m3u in Hrun.
  apply (parse_lines_emitted source_url (Py.split Py.LF content) _ _ _ _ Hrun);
    auto; discriminate.
Qed.

(** X1, witness: the listing of the round-trip property. *)
Lemma parse_m3u_records_witness :
  Forall
    (fun c =>
       ChannelMerger.name c = EmptyString
       /\ ChannelMerger.source c = Some "http://a/list.m3u"
       /\ ChannelMerger.url c <> EmptyString
       /\ Py.startswith "#" (ChannelMerger.url c) = false
       /\ exists raw,
            In raw (Py.split Py.LF Examples.listing)
            /\ ChannelMerger.url c = Py.strip raw)
    [Examples.merged_cnn].
Proof.
  apply (parse_m3u_records Examples.listing "http://a/list.m3u").
  vm_compute. reflexivity.
Defined.



(** X22. [ChannelMerger.parse_m3u] returns at most as many records as the
    content has metadata lines, and at most as many as it has url lines,
    that is non-blank lines that are not comments. *)
Theorem parse_m3u_bounds (content source_url : string)
    (out : list ChannelMerger.channel)
    (Hrun : ChannelMerger.parse_m3u content source_url = Ok out) :
  List.length out
  <= List.length (filter Views.is_extinf (Py.split Py.LF content))
  /\ List.length out
     <= List.length (filter Views.is_url_line (Py.split Py.LF content)).
Proof.
  unfold ChannelMerger.parse_m3u in Hrun. split.
  - apply parse_lines_count in Hrun. simpl in Hrun. exact Hrun.
  - apply parse_lines_count_urls in Hrun. simpl in Hrun. exact Hrun.
Qed.

(** X22, witness: the listing with three metadata lines and one url line
    gives one record. *)
Lemma parse_m3u_bounds_witness :
  List.length [MoreExamples.news_b]
  <= List.length (filter Views.is_extinf
                    (Py.split Py.LF MoreExamples.dangling_listing))
  /\ List.length [MoreExamples.news_b]
     <= List.length (filter Views.is_url_line
                       (Py.split Py.LF MoreExamples.dangling_listing)).
Proof.
  apply (parse_m3u_bounds MoreExamples.dangling_listing "http://a/list.m3u").
  vm_compute. reflexivity.
Defined.

(** X3. A source with one metadata line that contains a comma followed by
    a space is lost whole: [parse_m3u] raises on it, and [merge] returns
    what it returns without that source. *)
Theorem comma_space_loses_source
    (cfg : config) (before after : list (string * string))
    (content source_url bad : string)
    (Hin : In bad (Py.split Py.LF content))
    (Hext : Views.is_extinf bad = true)
    (Hcomma : Py.contains ", " (Py.strip bad) = true) :
  (exists e, ChannelMerger.parse_m3u content source_url = Raise e)
  /\ ChannelMerger.merge cfg (before ++ (source_url, content) :: after)
     = ChannelMerger.merge cfg (before ++ after).
Proof.
  destruct (parse_lines_comma_space source_url (Py.split Py.LF content)
              None [] bad Hin Hext Hcomma) as [e He].
  split; [exists e; exact He |].
  unfold ChannelMerger.merge. rewrite !parse_all_app. simpl.
  unfold ChannelMerger.parse_m3u. now rewrite He.
Qed.

(** X3, witness: a metadata line with a space after the comma. *)
Lemma comma_space_loses_source_witness :
  ChannelMerger.merge Examples.tvbox_on
    (Examples.sources_data ++ [("http://b/list.m3u", MoreExamples.spaced_listing)])
  = ChannelMerger.merge Examples.tvbox_on (Examples.sources_data ++ []).
Proof.
  apply (comma_space_loses_source Examples.tvbox_on Examples.sources_data []
           MoreExamples.spaced_listing "http://b/list.m3u" "#EXTINF:-1, CNN").
  - vm_compute. auto.
  - reflexivity.
  - reflexivity.
Defined.

(** ** The merged catalog *)

Section TableFacts.
Context {A : Type}.
Variable key : A -> string.
Variable rank : A -> Z.

Lemma in_get (t : PyDict.t A) k v :
  NoDup (PyDict.keys t) -> In (k, v) t -> PyDict.get k t = Some v.
Proof.
  induction t as [| [k' v'] t IH]; simpl; intros Hnd Hin; [destruct Hin |].
  inversion Hnd as [| ? ? Hnotin Hnd']; subst.
  destruct Hin as [[= -> ->] | Hin].
  - now rewrite String.eqb_refl.
  - destruct (String.eqb_spec k' k) as [-> | _].
    + exfalso. apply Hnotin. unfold PyDict.keys.
      change k with (fst (k, v)). now apply in_map.
    + now apply IH.
Qed.

Lemma set_absent (t : PyDict.t A) k v :
  PyDict.get k t = None -> PyDict.set k v t = t ++ [(k, v)].
Proof.
  induction t as [| [k' v'] t IH]; simpl; [reflexivity |].
  destruct (k' =? k)%string; [discriminate |].
  intros H. now rewrite IH.
Qed.

(** Every entry of the table is a record of the input under its own key. *)
Lemma keep_best_entries l k v :
  In (k, v) (keep_best key rank l) -> key v = k /\ In v l.
Proof.
  intros Hin.
  pose proof (in_get _ k v (keep_best_nodup key rank l) Hin) as Hget.
  pose proof (keep_best_get key rank l k) as Hbest. rewrite Hget in Hbest.
  destruct Hbest as (l1 & l2 & -> & Hk & _). split; [exact Hk |].
  apply in_elt.
Qed.

Lemma keys_of_values (t : PyDict.t A) :
  (forall k v, In (k, v) t -> key v = k) ->
  map key (PyDict.values t) = PyDict.keys t.
Proof.
  induction t as [| [k v] t IH]; simpl; intros H; [reflexivity |].
  rewrite (H k v) by now left. f_equal. apply IH.
  intros k' v' Hin. apply H. now right.
Qed.

(** Feeding a table's records back into the loop rebuilds the table. *)
Lemma fold_keep_values (t2 t1 : PyDict.t A) :
  NoDup (PyDict.keys (t1 ++ t2)) ->
  (forall k v, In (k, v) t2 -> key v = k) ->
  fold_left (keep_step key rank) (PyDict.values t2) t1 = t1 ++ t2.
Proof.
  revert t1. induction t2 as [| [k v] t2 IH]; intros t1 Hnd Hkey; simpl.
  - now rewrite app_nil_r.
  - assert (Hk : key v = k) by (apply Hkey; now left).
    assert (Hnone : PyDict.get k t1 = None).
    { apply get_none_keys. intros Hin.
      unfold PyDict.keys in Hnd. rewrite map_app in Hnd. simpl in Hnd.
      apply NoDup_remove_2 in Hnd. apply Hnd. apply in_or_app. now left. }
    unfold keep_step at 2. rewrite Hk, Hnone, (set_absent _ _ _ Hnone).
    rewrite IH.
    + now rewrite <- app_assoc.
    + now rewrite <- app_assoc.
    + intros k' v' Hin. apply Hkey. now right.
Qed.

Lemma keep_best_idempotent l :
  keep_best key rank (PyDict.values (keep_best key rank l))
  = keep_best key rank l.
Proof.
  unfold keep_best at 1.
  apply (fold_keep_values (keep_best key rank l) []).
  - apply keep_best_nodup.
  - intros k v Hin. now apply (keep_best_entries l).
Qed.
End TableFacts.

(** Dropping records keeps the groups of the remaining ones distinct. *)
Lemma distinct_groups_survive (keep : ChannelMerger.channel -> bool) :
  forall records : list ChannelMerger.channel,
    NoDup (map ChannelMerger.group records) ->
    NoDup (map ChannelMerger.group (filter keep records)).
Proof.
  intros records. induction records as [| c records IH]; intros Hdistinct.
  - constructor.
  - apply NoDup_cons_iff in Hdistinct. destruct Hdistinct as [Hfresh Hrest].
    cbn [filter]. destruct (keep c); [| now apply IH].
    cbn [map]. apply NoDup_cons_iff. split; [| now apply IH].
    intros Hold. apply Hfresh. apply in_map_iff in Hold.
    destruct Hold as (c' & Hsame & Hkept). apply filter_In in Hkept.
    apply in_map_iff. exists c'. tauto.
Qed.

Lemma filter_idempotent {A : Type} (p : A -> bool) (l : list A) :
  filter p (filter p l) = filter p l.
Proof.
  induction l as [| x l IH]; simpl; [reflexivity |].
  destruct (p x) eqn:E; simpl; [rewrite E; f_equal |]; exact IH.
Qed.

Lemma parse_all_names sources acc :
  Forall (fun c => ChannelMerger.name c = EmptyString) acc ->
  Forall (fun c => ChannelMerger.name c = EmptyString)
    (ChannelMerger.parse_all sources acc).
Proof.
  revert acc. induction sources as [| [u content] sources IH]; intros acc Hacc;
    simpl; [exact Hacc |].
  destruct (ChannelMerger.parse_m3u content u) as [channels | e] eqn:E;
    [| auto].
  apply IH. apply Forall_app. split; [exact Hacc |].
  unfold ChannelMerger.parse_m3u in E.
  apply (parse_lines_emitted u (Py.split Py.LF content)) in E;
    auto; try discriminate.
  eapply Forall_impl; [| exact E]. intros c Hc. apply Hc.
Qed.

(** X4. [ChannelMerger.merge] returns records with an empty name and with
    pairwise different groups: since the parser never fills the name, the
    fingerprint of a record is decided by its group alone, and of all the
    channels of one group a single one is kept. *)
Theorem merge_one_record_per_group (cfg : config)
    (sources_data : list (string * string)) :
  Forall (fun c => ChannelMerger.name c = EmptyString)
    (ChannelMerger.merge cfg sources_data)
  /\ NoDup (map ChannelMerger.group (ChannelMerger.merge cfg sources_data)).
Proof.
  unfold ChannelMerger.merge, ChannelMerger._apply_filters.
  rewrite apply_filters_loop_filter. cbn [app].
  set (all := ChannelMerger.parse_all sources_data []).
  assert (Hall : Forall (fun c => ChannelMerger.name c = EmptyString) all)
    by (apply parse_all_names; constructor).
  rewrite dedup_keep_best.
  set (t := keep_best ChannelMerger._generate_channel_id url_length all).
  assert (Hentries : forall k v, In (k, v) t ->
                                 ChannelMerger._generate_channel_id v = k /\ In v all)
    by (intros k v; apply keep_best_entries).
  assert (Hnames : Forall (fun c => ChannelMerger.name c = EmptyString)
                     (PyDict.values t)).
  { apply Forall_forall. intros c Hc. unfold PyDict.values in Hc.
    apply in_map_iff in Hc. destruct Hc as ([k v] & <- & Hin).
    rewrite Forall_forall in Hall. apply Hall.
    now apply (Hentries k v). }
  split.
  - apply Forall_forall. intros c Hc. apply filter_In in Hc.
    rewrite Forall_forall in Hnames. now apply Hnames.
  - apply distinct_groups_survive.
    assert (Hids : NoDup (map ChannelMerger._generate_channel_id (PyDict.values t))).
    { rewrite (keys_of_values ChannelMerger._generate_channel_id t).
      - apply keep_best_nodup.
      - intros k v Hin. now apply (Hentries k v). }
    assert (Hmap : map ChannelMerger._generate_channel_id (PyDict.values t)
                   = map (fun g => MD5.hexdigest (Py.encode_utf8 ("|" ++ g)%string))
                       (map ChannelMerger.group (PyDict.values t))).
    { rewrite map_map. apply map_ext_in. intros c Hc.
      rewrite Forall_forall in Hnames.
      unfold ChannelMerger._generate_channel_id. now rewrite (Hnames c Hc). }
    rewrite Hmap in Hids. exact (NoDup_map_inv _ _ Hids).
Qed.

(** X5. Merging is idempotent: de-duplicating the records of a
    de-duplicated table gives the same table, entry by entry and in the
    same order, and filtering a filtered list changes nothing. *)
Theorem merge_idempotent (cfg : config) (all_channels : list ChannelMerger.channel) :
  ChannelMerger.dedup (PyDict.values (ChannelMerger.dedup all_channels))
  = ChannelMerger.dedup all_channels
  /\ ChannelMerger._apply_filters cfg
       (ChannelMerger._apply_filters cfg all_channels)
     = ChannelMerger._apply_filters cfg all_channels.
Proof.
  split.
  - rewrite !dedup_keep_best. apply keep_best_idempotent.
  - unfold ChannelMerger._apply_filters. rewrite !apply_filters_loop_filter.
    cbn [app]. apply filter_idempotent.
Qed.

(** ** Extensions written in capitals *)

Lemma lower_char_not_upper (c : ascii) : Views.is_upper (Py.lower_char c) = false.
Proof. destruct c as [[] [] [] [] [] [] [] []]; reflexivity. Qed.

Lemma lower_has_no_upper (s : string) : Views.has_upper (Py.lower s) = false.
Proof.
  induction s as [| c s IH]; simpl; [reflexivity |].
  now rewrite lower_char_not_upper, IH.
Qed.

Lemma has_upper_app (a b : string) :
  Views.has_upper (a ++ b) = Views.has_upper a || Views.has_upper b.
Proof.
  induction a as [| c a IH]; simpl; [reflexivity |].
  now rewrite IH, orb_assoc.
Qed.

Lemma endswith_suffix (suf s : string) :
  Py.endswith suf s = true -> exists pre, s = (pre ++ suf)%string.
Proof.
  induction s as [| c s IH]; cbn [Py.endswith].
  - rewrite orb_false_r. intros H. apply String.eqb_eq in H. subst suf.
    now exists EmptyString.
  - intros H. apply orb_true_iff in H. destruct H as [H | H].
    + apply String.eqb_eq in H. subst suf. now exists EmptyString.
    + destruct (IH H) as [pre ->]. now exists (String c pre).
Qed.

Lemma capital_extension_never_matches (ext u : string) :
  Views.has_upper ext = true -> Py.endswith ext (Py.lower u) = false.
Proof.
  intros Hup. destruct (Py.endswith ext (Py.lower u)) eqn:E; [| reflexivity].
  apply endswith_suffix in E. destruct E as [pre E].
  pose proof (lower_has_no_upper u) as Hno.
  rewrite E, has_upper_app, Hup, orb_true_r in Hno. discriminate.
Qed.

(** X6. The url is lower-cased before the comparison and the extensions
    are not: an allowed extension that contains an ASCII capital letter
    matches no url. When every allowed extension contains one, and in
    particular when the list is empty, [_apply_filters] and [merge] return
    no record at all. *)
Theorem capital_extensions_drop_all
    (cfg : config) (channels : list ChannelMerger.channel)
    (sources_data : list (string * string))
    (Hcaps : forallb Views.has_upper (allowed_extensions (filters cfg)) = true) :
  (forall ext u, Views.has_upper ext = true ->
                 Py.endswith ext (Py.lower u) = false)
  /\ ChannelMerger._apply_filters cfg channels = []
  /\ ChannelMerger.merge cfg sources_data = [].
Proof.
  assert (Hdrop : forall c, Spec.dropped (filters cfg) c = true).
  { intros c. unfold Spec.dropped. apply orb_true_iff. right.
    apply negb_true_iff.
    destruct (existsb _ (allowed_extensions (filters cfg))) eqn:E;
      [| reflexivity].
    apply existsb_exists in E. destruct E as (ext & Hin & Hends).
    rewrite forallb_forall in Hcaps.
    rewrite (capital_extension_never_matches ext _ (Hcaps ext Hin)) in Hends.
    discriminate. }
  assert (Hnil : forall l,
             ChannelMerger._apply_filters cfg l = []).
  { intros l. unfold ChannelMerger._apply_filters.
    rewrite apply_filters_loop_filter. cbn [app].
    induction l as [| c l IH]; simpl; [reflexivity |].
    now rewrite Hdrop. }
  split; [exact capital_extension_never_matches |].
  split; [apply Hnil |]. unfold ChannelMerger.merge. apply Hnil.
Qed.

(** X6, witness: the only allowed extension is written .TS. *)
Lemma capital_extensions_drop_all_witness :
  ChannelMerger._apply_filters MoreExamples.capital_filters [Examples.cnn] = []
  /\ ChannelMerger.merge MoreExamples.capital_filters Examples.sources_data = [].
Proof.
  destruct (capital_extensions_drop_all MoreExamples.capital_filters
              [Examples.cnn] Examples.sources_data eq_refl) as (_ & H1 & H2).
  exact (conj H1 H2).
Defined.

(** ** The generator's parsers *)

Lemma split1_length (a : ascii) (b s cur : string) :
  List.length (Py.split1_aux (String a b) s cur)
  = if Py.contains (String a b) s then 2 else 1.
Proof.
  revert cur. induction s as [| c s IH]; intros cur;
    cbn [Py.split1_aux Py.contains].
  - reflexivity.
  - destruct (Py.startswith (String a b) (String c s)); [reflexivity |].
    cbn [orb]. apply IH.
Qed.

Lemma generator_parse_extinf_raises (line : string) :
  IPTVGenerator._parse_extinf line
  = Raise (if Py.contains "," line
           then AttributeError "'list' object has no attribute 'strip'"
           else TypeError "expected string or bytes-like object, got 'list'").
Proof.
  unfold IPTVGenerator._parse_extinf, Py.split1.
  rewrite split1_length. destruct (Py.contains "," line); reflexivity.
Qed.

(** X7. [IPTVGenerator._parse_extinf] returns for no line: it raises
    AttributeError when the line contains a comma (the name is taken with
    [.strip()] from the list that [split] returns) and TypeError otherwise
    (the same list is handed to [re.findall]). *)
Theorem generator_parse_extinf_always_raises (line : string) :
  IPTVGenerator._parse_extinf line
  = Raise (if Py.contains "," line
           then AttributeError "'list' object has no attribute 'strip'"
           else TypeError "expected string or bytes-like object, got 'list'")
  /\ forall meta, IPTVGenerator._parse_extinf line <> Ok meta.
Proof.
  split; [apply generator_parse_extinf_raises |].
  intros meta. rewrite generator_parse_extinf_raises. discriminate.
Qed.

Section GeneratorPipelineFacts.
Import IPTVGenerator.

Variable lib : urllib.
Variable cfg : config.

Lemma parse_m3u_lines_url_only prio lines channels out :
  parse_m3u_lines lib cfg prio lines empty_dict channels = Ok out ->
  Forall (fun c => group c = None) channels ->
  Forall (fun c => group c = None) out.
Proof.
  revert channels. induction lines as [| raw rest IH]; intros channels;
    cbn [parse_m3u_lines].
  - intros [= <-] H. exact H.
  - destruct (Py.strip raw =? "")%string; [apply IH |].
    destruct (Py.startswith "#EXTINF" (Py.strip raw)).
    + rewrite generator_parse_extinf_raises. cbn [rbind]. discriminate.
    + cbn [negb andb]. destruct (Py.startswith "#" (Py.strip raw)); cbn [negb];
        [apply IH |].
      destruct (_process_url lib cfg (Py.strip raw)) as [u | e]; cbn [rbind];
        [| discriminate].
      intros Hrun Hacc. apply (IH _ Hrun).
      apply Forall_app. split; [exact Hacc |]. constructor; [reflexivity | constructor].
Qed.

Lemma parse_txt_lines_nothing prio lines channels out :
  parse_txt_lines lib cfg prio lines channels = Ok out -> out = channels.
Proof.
  revert channels. induction lines as [| raw rest IH]; intros channels;
    cbn [parse_txt_lines].
  - now intros [= <-].
  - destruct ((Py.strip raw =? "")%string || Py.startswith "#" (Py.strip raw));
      [apply IH |].
    destruct (Py.contains ",#" (Py.strip raw)); [| apply IH].
    unfold list_strip. cbn [rbind]. discriminate.
Qed.

Lemma single_source_url_only fetched src_type prio out :
  _process_single_source lib cfg fetched src_type prio = Ok out ->
  Forall (fun c => group c = None) out.
Proof.
  unfold _process_single_source. destruct fetched as [content |];
    [| intros [= <-]; constructor].
  destruct (content =? "")%string; [intros [= <-]; constructor |].
  match goal with
  | |- context [if ?b then _parse_m3u _ _ _ _ else _] => destruct b
  end.
  - unfold _parse_m3u. intros H.
    apply parse_m3u_lines_url_only in H; [exact H | constructor].
  - unfold _parse_txt. intros H. apply parse_txt_lines_nothing in H.
    subst out. constructor.
Qed.

Lemma process_channels_url_only chans t :
  Forall (fun c => group c = None) chans -> process_channels chans t = t.
Proof.
  intros H. destruct H as [| c chans Hc _]; [reflexivity |].
  cbn [process_channels]. unfold process_chan, _channel_key.
  rewrite Hc. reflexivity.
Qed.

Lemma run_stores_nothing (completed : list GeneratorOutput.source) t :
  fold_left
    (fun channels r =>
       match r with
       | Ok chans => process_channels chans channels
       | Raise _ => channels
       end)
    (map (fun s : GeneratorOutput.source =>
            let '(fetched, src_type, prio) := s in
            _process_single_source lib cfg fetched src_type prio)
       completed) t
  = t.
Proof.
  induction completed as [| [[fetched src_type] prio] completed IH];
    cbn [map fold_left]; [reflexivity |].
  destruct (_process_single_source lib cfg fetched src_type prio)
    as [chans | e] eqn:E; [| exact IH].
  rewrite (process_channels_url_only chans t (single_source_url_only _ _ _ _ E)).
  exact IH.
Qed.
End GeneratorPipelineFacts.

(** X8. Whatever the sources hold, [IPTVGenerator] stores no channel:
    [_parse_txt] returns the empty list or raises, [_parse_m3u] returns
    only dicts without the key group or raises, such a dict raises
    KeyError in [_channel_key], and every exception is caught per source;
    so after [process_sources] the table is empty and
    [generate_simplified] returns the empty text. *)
Theorem generator_stores_nothing
    (lib : urllib) (cfg : IPTVGenerator.config)
    (completed : list GeneratorOutput.source) :
  (forall content prio out,
      IPTVGenerator._parse_txt lib cfg content prio = Ok out -> out = [])
  /\ (forall content prio out,
         IPTVGenerator._parse_m3u lib cfg content prio = Ok out ->
         Forall (fun c => IPTVGenerator.group c = None
                          /\ exists e, IPTVGenerator._channel_key c = Raise e)
           out)
  /\ GeneratorOutput.run lib cfg completed = PyDict.empty
  /\ GeneratorOutput.generate_simplified (GeneratorOutput.run lib cfg completed)
     = Ok EmptyString.
Proof.
  assert (Hrun : GeneratorOutput.run lib cfg completed = PyDict.empty).
  { unfold GeneratorOutput.run, IPTVGenerator.process_sources.
    apply run_stores_nothing. }
  split; [| split; [| split]].
  - intros content prio out H. unfold IPTVGenerator._parse_txt in H.
    now apply parse_txt_lines_nothing in H.
  - intros content prio out H. unfold IPTVGenerator._parse_m3u in H.
    apply parse_m3u_lines_url_only in H; [| constructor].
    eapply Forall_impl; [| exact H]. intros c Hc. split; [exact Hc |].
    unfold IPTVGenerator._channel_key. rewrite Hc. simpl. eauto.
  - exact Hrun.
  - rewrite Hrun. reflexivity.
Qed.

Lemma process_channels_stops pre bad post t e :
  IPTVGenerator._channel_key bad = Raise e ->
  IPTVGenerator.process_channels (pre ++ bad :: post) t
  = IPTVGenerator.process_channels pre t.
Proof.
  intros Hbad. revert t. induction pre as [| c pre IH]; intros t;
    cbn [app IPTVGenerator.process_channels].
  - unfold IPTVGenerator.process_chan. now rewrite Hbad.
  - destruct (IPTVGenerator.process_chan t c); [apply IH | reflexivity].
Qed.

(** X9. In [process_sources] a dict that lacks group, name or tvg_id ends
    the loop over its source: the records that follow it in the same
    source are not stored, those before it are. *)
Theorem incomplete_record_ends_batch
    (pre post : list IPTVGenerator.channel) (bad : IPTVGenerator.channel)
    (table : PyDict.t IPTVGenerator.channel)
    (Hbad : IPTVGenerator.group bad = None
            \/ IPTVGenerator.name bad = None
            \/ IPTVGenerator.tvg_id bad = None) :
  (exists k, IPTVGenerator._channel_key bad = Raise (KeyError k))
  /\ IPTVGenerator.process_channels (pre ++ bad :: post) table
     = IPTVGenerator.process_channels pre table.
Proof.
  assert (Hkey : exists k, IPTVGenerator._channel_key bad = Raise (KeyError k)).
  { unfold IPTVGenerator._channel_key.
    destruct (IPTVGenerator.group bad), (IPTVGenerator.name bad),
      (IPTVGenerator.tvg_id bad); simpl; eauto;
      destruct Hbad as [H | [H | H]]; discriminate H. }
  split; [exact Hkey |].
  destruct Hkey as [k Hk]. exact (process_channels_stops pre bad post table _ Hk).
Qed.

(** X9, witness: a dict with a url only, between two complete records. *)
Lemma incomplete_record_ends_batch_witness :
  IPTVGenerator.process_channels
    ([Examples.low] ++ MoreExamples.url_only :: [Examples.tie_long]) PyDict.empty
  = IPTVGenerator.process_channels [Examples.low] PyDict.empty.
Proof.
  apply (incomplete_record_ends_batch [Examples.low] [Examples.tie_long]
           MoreExamples.url_only PyDict.empty).
  left. reflexivity.
Defined.

(** ** Detection: requests issued and the report *)

Lemma probes_issued_bounds {A : Type} (ok : nat -> bool) (xs : list A) n :
  xs <> [] ->
  1 <= Spec.probes_issued ok xs n <= List.length xs.
Proof.
  revert n. induction xs as [| x xs IH]; intros n Hne; [contradiction |].
  simpl. destruct (ok n); [lia |].
  destruct xs as [| y xs]; [simpl; lia |].
  specialize (IH (S n) ltac:(discriminate)). simpl in IH |- *. lia.
Qed.

Lemma metadata_codec (resp : option Net.response) :
  In (fst (Views.metadata_of resp)) ["unknown"; "HLS"; "MPEG-TS"; "FLV"].
Proof.
  unfold Views.metadata_of. destruct resp as [r |]; [| simpl; auto].
  unfold StreamDetector.codec_of_header.
  destruct (Py.contains "mpegurl" _); [simpl; auto |].
  destruct (Py.contains "mp2t" _); [simpl; auto |].
  destruct (Py.contains "flv" _); [simpl; auto |].
  change ("unknown" =? "unknown")%string with true. cbn iota.
  destruct (Net.sample r) as [s |]; [| simpl; auto].
  unfold StreamDetector.codec_of_sample.
  destruct (Py.contains "#EXTM3U" s); [simpl; auto |].
  match goal with
  | |- context [if ?b then "MPEG-TS" else _] => destruct b
  end; simpl; auto.
Qed.

Section DetectorReportFacts.
Import Net StreamDetector DetectorView.

Variable lib : urllib.
Variable tlib : PyTime.timelib.
Variable T : Z.
Variable w : world.
Variable u : string.

Hypothesis Hclock : clock_ok w.

Lemma metadata_run_explicit tr :
  _get_stream_metadata T w u tr
  = (Ok (Views.metadata_of (answer w (List.length tr) (get_request u T))),
     tr ++ [get_request u T]).
Proof. reflexivity. Qed.

(** A run that passes the gate, with the metadata spelled out. *)
Lemma detect_run_explicit :
  gate_passes w (lookback_probe u T) ->
  let windows := [30; 15; 7; 3; 1]%Z in
  let n1 := Spec.probes_issued (window_ok w u T) windows 1 in
  let n2 := Spec.probes_issued (tpl_ok w u) best_templates (S n1) in
  let meta := Views.metadata_of (answer w (S n1 + n2) (get_request u T)) in
  detect lib tlib T w u
  = (Ok {| supported :=
             supported
               (found initial_report
                  (Spec.first_success (window_ok w u T) windows 1));
           max_days :=
             max_days
               (found initial_report
                  (Spec.first_success (window_ok w u T) windows 1));
           recommended_template :=
             Spec.first_success (tpl_ok w u) best_templates (S n1);
           latency_ms := snd meta;
           codec_info := fst meta |},
     (lookback_probe u T
      :: repeat (lookback_probe u T) n1 ++ repeat (template_probe u) n2)
     ++ [get_request u T]).
Proof.
  intros (r & Hr & H200) windows n1 n2 meta.
  unfold detect, detect_catchup_capability.
  unfold bind at 1, _test_connection, bind at 1, send, ret.
  fold (lookback_probe u T). cbn [List.length app]. rewrite Hr, H200.
  cbn [Z.eqb Pos.eqb negb]. rewrite (sorted_windows).
  unfold bind at 1.
  rewrite (lookback_run lib tlib T w u Hclock _ _ _ windows_in_range).
  cbn [List.length]. fold windows. fold n1.
  unfold bind at 1, _find_best_template.
  rewrite (find_run lib tlib w u Hclock).
  assert (Hlen : List.length ([lookback_probe u T]
                              ++ repeat (lookback_probe u T) n1) = S n1)
    by (simpl; now rewrite repeat_length).
  rewrite Hlen. fold n2.
  unfold bind, ret. rewrite metadata_run_explicit.
  rewrite length_app, Hlen, repeat_length. fold meta.
  reflexivity.
Qed.
End DetectorReportFacts.

(** X10. While the clock is in range a detection never raises and issues
    between 1 and 11 requests: the connectivity probe alone when it fails;
    otherwise that probe, one to five look-back probes, one to four
    template probes and, last, the single GET of the metadata sniff. *)
Theorem detection_requests
    (lib : urllib) (tlib : PyTime.timelib) (T : Z) (w : Net.world) (u : string)
    (Hclock : DetectorView.clock_ok w) :
  exists rep tr,
    StreamDetector.detect lib tlib T w u = (Ok rep, tr)
    /\ 1 <= List.length tr <= 11
    /\ ((DetectorView.gate_fails w (DetectorView.lookback_probe u T)
         /\ tr = [DetectorView.lookback_probe u T])
        \/ (DetectorView.gate_passes w (DetectorView.lookback_probe u T)
            /\ exists n1 n2,
                 1 <= n1 <= 5 /\ 1 <= n2 <= 4
                 /\ tr = (DetectorView.lookback_probe u T
                          :: repeat (DetectorView.lookback_probe u T) n1
                          ++ repeat (DetectorView.template_probe u) n2)
                         ++ [StreamDetector.get_request u T])).
Proof.
  destruct (gate_decided w (DetectorView.lookback_probe u T)) as [Hp | Hf].
  - pose proof (detect_run_explicit lib tlib T w u Hclock Hp) as Hrun.
    cbv zeta in Hrun.
    set (n1 := Spec.probes_issued (DetectorView.window_ok w u T)
                 [30; 15; 7; 3; 1]%Z 1) in *.
    set (n2 := Spec.probes_issued (DetectorView.tpl_ok w u)
                 StreamDetector.best_templates (S n1)) in *.
    assert (H1 : 1 <= n1 <= 5)
      by (apply (probes_issued_bounds _ [30; 15; 7; 3; 1]%Z); discriminate).
    assert (H2 : 1 <= n2 <= 4)
      by (apply (probes_issued_bounds _ StreamDetector.best_templates);
          discriminate).
    eexists. eexists. split; [exact Hrun |]. split.
    + rewrite length_app. cbn [List.length].
      rewrite length_app, !repeat_length. lia.
    + right. split; [exact Hp |]. exists n1, n2. auto.
  - exists StreamDetector.initial_report, [DetectorView.lookback_probe u T].
    split; [exact (detect_gate_fails lib tlib T w u Hf) |].
    split; [simpl; lia |]. left. auto.
Qed.

(** X10, witness: the server whose catch-up starts at the third probe. *)
Lemma detection_requests_witness :
  exists rep tr,
    StreamDetector.detect Examples.plain_urllib Examples.plain_timelib 10
      Examples.world_week Examples.stream = (Ok rep, tr)
    /\ 1 <= List.length tr <= 11.
Proof.
  assert (Hclock : DetectorView.clock_ok Examples.world_week).
  { intros n. vm_compute. split; discriminate. }
  destruct (detection_requests Examples.plain_urllib Examples.plain_timelib 10
              Examples.world_week Examples.stream Hclock)
    as (rep & tr & Hrun & Hlen & _).
  exists rep, tr. auto.
Defined.

(** X11. The report of a detection is consistent: supported is true
    exactly when max_days is not 0, max_days is never negative, a
    recommended template is one of the four of the list, and the codec is
    unknown, HLS, MPEG-TS or FLV. *)
Theorem detection_report_consistent
    (lib : urllib) (tlib : PyTime.timelib) (T : Z) (w : Net.world) (u : string)
    (Hclock : DetectorView.clock_ok w) :
  exists rep tr,
    StreamDetector.detect lib tlib T w u = (Ok rep, tr)
    /\ (StreamDetector.supported rep = true
        <-> StreamDetector.max_days rep <> 0%Z)
    /\ (0 <= StreamDetector.max_days rep)%Z
    /\ (forall tpl, StreamDetector.recommended_template rep = Some tpl ->
                    In tpl StreamDetector.best_templates)
    /\ In (StreamDetector.codec_info rep) ["unknown"; "HLS"; "MPEG-TS"; "FLV"].
Proof.
  destruct (gate_decided w (DetectorView.lookback_probe u T)) as [Hp | Hf].
  - pose proof (detect_run_explicit lib tlib T w u Hclock Hp) as Hrun.
    cbv zeta in Hrun.
    eexists. eexists. split; [exact Hrun |].
    cbn [StreamDetector.supported StreamDetector.max_days
         StreamDetector.recommended_template StreamDetector.codec_info].
    destruct (Spec.first_success (DetectorView.window_ok w u T)
                [30; 15; 7; 3; 1]%Z 1) as [d |] eqn:E.
    + apply first_success_in in E. simpl in E.
      cbn [DetectorView.found StreamDetector.supported StreamDetector.max_days].
      split; [| split; [| split]].
      * split; [intros _ | reflexivity]. intuition lia.
      * intuition lia.
      * intros tpl Htpl. exact (first_success_in _ _ _ _ Htpl).
      * apply metadata_codec.
    + cbn [DetectorView.found StreamDetector.initial_report
           StreamDetector.supported StreamDetector.max_days].
      split; [| split; [| split]].
      * split; [discriminate | intros H; now contradiction H].
      * lia.
      * intros tpl Htpl. exact (first_success_in _ _ _ _ Htpl).
      * apply metadata_codec.
  - exists StreamDetector.initial_report, [DetectorView.lookback_probe u T].
    split; [exact (detect_gate_fails lib tlib T w u Hf) |].
    simpl. split; [| split; [| split]].
    + split; [discriminate | intros H; now contradiction H].
    + lia.
    + discriminate.
    + auto.
Qed.

(** X11, witness: the server that answers 200 to everything. *)
Lemma detection_report_consistent_witness :
  exists rep tr,
    StreamDetector.detect Examples.plain_urllib Examples.plain_timelib 10
      Examples.world_up Examples.stream = (Ok rep, tr)
    /\ (StreamDetector.supported rep = true
        <-> StreamDetector.max_days rep <> 0%Z).
Proof.
  assert (Hclock : DetectorView.clock_ok Examples.world_up).
  { intros n. vm_compute. split; discriminate. }
  destruct (detection_report_consistent Examples.plain_urllib
              Examples.plain_timelib 10 Examples.world_up Examples.stream Hclock)
    as (rep & tr & Hrun & Hiff & _).
  exists rep, tr. auto.
Defined.

(** X12. Against a server that answers a request the same way whenever it
    is sent, the look-back search cannot tell the windows apart, because
    every look-back probe is the connectivity probe sent again: when the
    gate passes, the report says 30 days after a single look-back probe if
    the Content-Type of the plain stream starts with video/ or
    application/vnd.apple.mpegurl, and unsupported after five probes
    otherwise; max_days is never 1, 3, 7 or 15. *)
Theorem stationary_server_all_or_nothing
    (lib : urllib) (tlib : PyTime.timelib) (T : Z) (w : Net.world) (u : string)
    (Hclock : DetectorView.clock_ok w)
    (Hstat : Views.stationary w)
    (Hgate : DetectorView.gate_passes w (DetectorView.lookback_probe u T)) :
  let p := DetectorView.lookback_probe u T in
  let typed := StreamDetector.catchup_ok (Net.answer w 0 p) in
  exists rep issued rest,
    StreamDetector.detect lib tlib T w u = (Ok rep, p :: repeat p issued ++ rest)
    /\ ~ In p rest
    /\ StreamDetector.supported rep = typed
    /\ StreamDetector.max_days rep = (if typed then 30 else 0)%Z
    /\ issued = (if typed then 1 else 5).
Proof.
  intros p typed.
  pose proof (detect_run_explicit lib tlib T w u Hclock Hgate) as Hrun.
  cbv zeta in Hrun. fold p in Hrun.
  assert (Hok : forall n, DetectorView.window_ok w u T n = typed).
  { intros n. unfold DetectorView.window_ok, typed. fold p.
    now rewrite (Hstat n 0 p). }
  set (wok := DetectorView.window_ok w u T) in *.
  cbn [app] in Hrun. rewrite <- app_assoc in Hrun.
  eexists. eexists. eexists. split; [exact Hrun |].
  split; [apply not_in_later_requests |].
  cbn [StreamDetector.supported StreamDetector.max_days].
  destruct typed eqn:Etyped.
  - destruct (first_success_at wok [30; 15; 7; 3; 1]%Z 1 0 30%Z eq_refl)
      as [-> ->]; auto.
    intros j Hj. lia.
  - destruct (first_success_none wok [30; 15; 7; 3; 1]%Z 1) as [-> ->]; auto.
Qed.

(** X12, witness: a server that always answers 200 text/html. *)
Lemma stationary_server_all_or_nothing_witness :
  exists rep tr,
    StreamDetector.detect Examples.plain_urllib Examples.plain_timelib 10
      MoreExamples.world_text Examples.stream = (Ok rep, tr)
    /\ StreamDetector.supported rep = false
    /\ StreamDetector.max_days rep = 0%Z.
Proof.
  assert (Hclock : DetectorView.clock_ok MoreExamples.world_text).
  { intros n. vm_compute. split; discriminate. }
  assert (Hstat : Views.stationary MoreExamples.world_text).
  { intros n m r. reflexivity. }
  assert (Hgate : DetectorView.gate_passes MoreExamples.world_text
                    (DetectorView.lookback_probe Examples.stream 10)).
  { exists (Examples.reply 200 "text/html"). split; reflexivity. }
  destruct (stationary_server_all_or_nothing Examples.plain_urllib
              Examples.plain_timelib 10 MoreExamples.world_text
              Examples.stream Hclock Hstat Hgate)
    as (rep & issued & rest & Hrun & _ & Hs & Hm & _).
  eexists. eexists. split; [exact Hrun |]. split; [exact Hs | exact Hm].
Defined.

(** ** The M3U generator *)

Lemma generate_loop_map cfg full_format channels entries :
  M3UGenerator.generate_loop cfg full_format channels entries
  = (entries
     ++ flat_map (fun c => [M3UGenerator.extinf c; ChannelMerger.url c])
          (map (fun c => if negb full_format
                         then M3UGenerator._generate_catchup cfg c else c)
             channels),
     map (fun c => if negb full_format
                   then M3UGenerator._generate_catchup cfg c else c)
       channels).
Proof.
  revert entries. induction channels as [| c rest IH]; intros entries;
    cbn [M3UGenerator.generate_loop map flat_map].
  - now rewrite app_nil_r.
  - rewrite IH. now rewrite <- app_assoc.
Qed.

Lemma generate_state cfg generated_on channels full_format :
  snd (M3UGenerator.generate cfg generated_on channels full_format)
  = map (fun c => if negb full_format
                  then M3UGenerator._generate_catchup cfg c else c)
      channels.
Proof.
  unfold M3UGenerator.generate. rewrite generate_loop_map. reflexivity.
Qed.

Lemma generate_catchup_fields cfg c :
  let c' := M3UGenerator._generate_catchup cfg c in
  ChannelMerger.name c' = ChannelMerger.name c
  /\ ChannelMerger.group c' = ChannelMerger.group c
  /\ ChannelMerger.tvg_id c' = ChannelMerger.tvg_id c
  /\ ChannelMerger.logo c' = ChannelMerger.logo c
  /\ ChannelMerger.duration c' = ChannelMerger.duration c
  /\ ChannelMerger.source c' = ChannelMerger.source c.
Proof.
  unfold M3UGenerator._generate_catchup.
  destruct (enable (catchup (tvbox cfg))); simpl; [| tauto].
  destruct (Py.contains "?" (ChannelMerger.url c)); simpl; tauto.
Qed.

(** X13. [M3UGenerator.generate] keeps the number and order of the
    records and never touches a field other than the url. With
    [full_format=True] it leaves every record as it is; with
    [full_format=False] it leaves the records as they are exactly when
    injection is disabled, and otherwise replaces each record by its
    injected form. *)
Theorem generate_frame (cfg : config) (generated_on : string)
    (channels : list ChannelMerger.channel) (full_format : bool) :
  let after := snd (M3UGenerator.generate cfg generated_on channels full_format) in
  snd (M3UGenerator.generate cfg generated_on channels true) = channels
  /\ snd (M3UGenerator.generate cfg generated_on channels false)
     = (if enable (catchup (tvbox cfg))
        then map (M3UGenerator._generate_catchup cfg) channels
        else channels)
  /\ List.length after = List.length channels
  /\ map ChannelMerger.name after = map ChannelMerger.name channels
  /\ map ChannelMerger.group after = map ChannelMerger.group channels
  /\ map ChannelMerger.tvg_id after = map ChannelMerger.tvg_id channels
  /\ map ChannelMerger.logo after = map ChannelMerger.logo channels
  /\ map ChannelMerger.duration after = map ChannelMerger.duration channels
  /\ map ChannelMerger.source after = map ChannelMerger.source channels.
Proof.
  intros after. subst after. rewrite !generate_state. cbn [negb].
  split; [apply map_id |]. split.
  - destruct (enable (catchup (tvbox cfg))) eqn:E; [reflexivity |].
    rewrite <- (map_id channels) at 2. apply map_ext. intros c.
    unfold M3UGenerator._generate_catchup. now rewrite E.
  - split; [apply length_map |].
    rewrite !map_map.
    repeat split; apply map_ext; intros c;
      pose proof (generate_catchup_fields cfg c) as H; cbv zeta in H;
      destruct full_format; cbn [negb]; tauto.
Qed.

Lemma startswith_app (p a b : string) :
  Py.startswith p a = true -> Py.startswith p (a ++ b) = true.
Proof.
  revert a. induction p as [| x p IH]; intros a; [reflexivity |].
  destruct a as [| y a]; cbn [Py.startswith append]; [discriminate |].
  intros H. apply andb_true_iff in H. destruct H as [H1 H2].
  now rewrite H1, (IH a H2).
Qed.

Lemma contains_app_l (sub a b : string) :
  Py.contains sub a = true -> Py.contains sub (a ++ b) = true.
Proof.
  induction a as [| c a IH]; cbn [Py.contains append].
  - rewrite orb_false_r. intros H.
    destruct sub; [destruct b; reflexivity | discriminate].
  - intros H. apply orb_true_iff in H. destruct H as [H | H].
    + change (String c (a ++ b)) with (String c a ++ b)%string.
      now rewrite (startswith_app _ _ b H).
    + rewrite (IH H). apply orb_true_r.
Qed.

Lemma contains_app_r (sub a b : string) :
  Py.startswith sub b = true -> Py.contains sub (a ++ b) = true.
Proof.
  intros H. induction a as [| c a IH]; cbn [append].
  - destruct b; cbn [Py.contains]; now rewrite H.
  - cbn [Py.contains]. rewrite IH. apply orb_true_r.
Qed.

Lemma injected_url_has_question_mark (u x : string) :
  Py.contains "?" (u ++ Views.separator u ++ x) = true.
Proof.
  unfold Views.separator. destruct (Py.contains "?" u) eqn:E.
  - now apply contains_app_l.
  - apply contains_app_r. reflexivity.
Qed.

Lemma separator_after_injection (u x : string) :
  Views.separator (u ++ Views.separator u ++ x) = "&".
Proof.
  pose proof (injected_url_has_question_mark u x) as H.
  set (v := (u ++ Views.separator u ++ x)%string) in *.
  unfold Views.separator. now rewrite H.
Qed.

Lemma generate_catchup_url cfg c :
  enable (catchup (tvbox cfg)) = true ->
  ChannelMerger.url (M3UGenerator._generate_catchup cfg c)
  = (ChannelMerger.url c ++ Views.separator (ChannelMerger.url c)
     ++ template (catchup (tvbox cfg)))%string.
Proof.
  intros Hon. unfold M3UGenerator._generate_catchup, Views.separator.
  rewrite Hon. cbn [negb].
  destruct (Py.contains "?" (ChannelMerger.url c)); simpl;
    now rewrite string_append_assoc.
Qed.

(** X14. The static injection is not idempotent: each restricted
    generation from the same list appends the template once more. After
    two of them every url is the original url, the separator (a question
    mark, or an ampersand if the url had one), the template, an ampersand,
    and the template again. *)
Theorem injection_accumulates (cfg : config) (generated_on : string)
    (channels : list ChannelMerger.channel)
    (Hon : enable (catchup (tvbox cfg)) = true) :
  let once := snd (M3UGenerator.generate cfg generated_on channels false) in
  let twice := snd (M3UGenerator.generate cfg generated_on once false) in
  map ChannelMerger.url once
  = map (fun c => (ChannelMerger.url c ++ Views.separator (ChannelMerger.url c)
                   ++ template (catchup (tvbox cfg)))%string)
      channels
  /\ map ChannelMerger.url twice
     = map (fun c => (ChannelMerger.url c ++ Views.separator (ChannelMerger.url c)
                      ++ template (catchup (tvbox cfg))
                      ++ "&" ++ template (catchup (tvbox cfg)))%string)
         channels.
Proof.
  intros once twice. subst once twice. rewrite !generate_state. cbn [negb].
  rewrite !map_map. split; apply map_ext; intros c.
  - now apply generate_catchup_url.
  - rewrite (generate_catchup_url cfg _ Hon), (generate_catchup_url cfg c Hon).
    rewrite separator_after_injection.
    now rewrite !string_append_assoc.
Qed.

(** X14, witness: the tvbox configuration with injection on. *)
Lemma injection_accumulates_witness :
  map ChannelMerger.url
    (snd (M3UGenerator.generate Examples.tvbox_on "2026-11-03 00:00:00"
            (snd (M3UGenerator.generate Examples.tvbox_on "2026-11-03 00:00:00"
                    [Examples.cnn] false))
            false))
  = ["http://x/cnn.m3u8?playseek={utc}-{utcend}&playseek={utc}-{utcend}"].
Proof.
  exact (proj2 (injection_accumulates Examples.tvbox_on "2026-11-03 00:00:00"
                  [Examples.cnn] eq_refl)).
Defined.

(** X15. The text returned by [generate] is the header, a line feed, and
    then for each record, in the order of the list, its EXTINF line and
    its url as it stands after this call, all joined by line feeds; the
    header is the bare marker for the restricted variant and the marker
    with the EPG url followed by the generation comment for the full one.
    In both variants the text starts with the marker. *)
Theorem generate_layout (cfg : config) (generated_on : string)
    (channels : list ChannelMerger.channel) (full_format : bool) :
  let text := fst (M3UGenerator.generate cfg generated_on channels full_format) in
  let after := snd (M3UGenerator.generate cfg generated_on channels full_format) in
  let header :=
    if full_format
    then ("#EXTM3U x-tvg-url=" ++ Py.DQ ++ epg (tvbox cfg) ++ Py.DQ ++ Py.LF
          ++ "# Generated on " ++ generated_on ++ Py.LF)%string
    else "#EXTM3U" in
  text
  = (header ++ Py.LF
     ++ String.concat Py.LF
          (flat_map (fun c => [M3UGenerator.extinf c; ChannelMerger.url c]) after))%string
  /\ Py.startswith "#EXTM3U" text = true
  /\ List.length
       (flat_map (fun c => [M3UGenerator.extinf c; ChannelMerger.url c]) after)
     = 2 * List.length channels.
Proof.
  intros text after header. subst text after.
  unfold M3UGenerator.generate. rewrite generate_loop_map. cbn [fst snd app].
  split; [| split].
  - subst header. destruct full_format; reflexivity.
  - destruct full_format; reflexivity.
  - induction channels as [| c rest IH]; [reflexivity |].
    cbn [map flat_map app List.length]. rewrite IH. lia.
Qed.

(** ** The text generator *)

Lemma startswith_prefix (p s : string) :
  Py.startswith p s = true -> exists r, s = (p ++ r)%string.
Proof.
  revert s. induction p as [| x p IH]; intros s; [now exists s |].
  destruct s as [| y s]; cbn [Py.startswith]; [discriminate |].
  intros H. apply andb_true_iff in H. destruct H as [H1 H2].
  apply Ascii.eqb_eq in H1. subst y. destruct (IH s H2) as [r ->].
  now exists r.
Qed.

Lemma split_aux_nonempty (sep s : string) (skip : nat) (cur : string) :
  Py.split_aux sep s skip cur <> [].
Proof.
  revert skip cur. induction s as [| c s IH]; intros skip cur;
    cbn [Py.split_aux]; [discriminate |].
  destruct skip; [| apply IH].
  destruct (Py.startswith sep (String c s)); [discriminate | apply IH].
Qed.

Lemma base_of_http (r x : string) :
  Py.startswith "http://"
    (String.concat "/" (removelast (Py.split "/" ("http://" ++ r)))
     ++ "/" ++ x) = true.
Proof.
  unfold Py.split. simpl Py.split_aux.
  destruct (Py.split_aux "/" r 0 "") as [| a l] eqn:E;
    [exfalso; exact (split_aux_nonempty _ _ _ _ E) |].
  destruct l as [| b l]; [reflexivity |].
  cbn [removelast]. destruct (removelast (b :: l)); reflexivity.
Qed.

Lemma base_of_https (r x : string) :
  Py.startswith "https://"
    (String.concat "/" (removelast (Py.split "/" ("https://" ++ r)))
     ++ "/" ++ x) = true.
Proof.
  unfold Py.split. simpl Py.split_aux.
  destruct (Py.split_aux "/" r 0 "") as [| a l] eqn:E;
    [exfalso; exact (split_aux_nonempty _ _ _ _ E) |].
  destruct l as [| b l]; [reflexivity |].
  cbn [removelast]. destruct (removelast (b :: l)); reflexivity.
Qed.

Lemma process_url_absolute (u source_url : string) :
  TXTGenerator.startswith_any ["http://"; "https://"] source_url = true ->
  TXTGenerator.startswith_any ["http://"; "https://"; "rtmp://"; "rtsp://"]
    (TXTGenerator.process_url u source_url) = true.
Proof.
  intros Hsrc. unfold TXTGenerator.process_url.
  destruct (TXTGenerator.startswith_any
              ["http://"; "https://"; "rtmp://"; "rtsp://"] u) eqn:Eu;
    [exact Eu |].
  rewrite Hsrc. unfold TXTGenerator.startswith_any in Hsrc |- *.
  cbn [existsb] in Hsrc |- *. rewrite orb_false_r in Hsrc.
  apply orb_true_iff in Hsrc. destruct Hsrc as [H | H].
  - apply startswith_prefix in H. destruct H as [r ->].
    now rewrite base_of_http.
  - apply startswith_prefix in H. destruct H as [r ->].
    rewrite base_of_https. now rewrite orb_true_r.
Qed.

(** X16. [TXTGenerator.process_url] returns a url that starts with
    http://, https://, rtmp:// or rtsp:// unchanged; returns every url
    unchanged when the source is not an http(s) url; returns a url with
    one of the four schemes whenever the source is an http(s) url; and
    applying it twice with the same source is the same as applying it
    once. *)
Theorem process_url_resolves (u source_url : string) :
  let absolute := TXTGenerator.startswith_any
                    ["http://"; "https://"; "rtmp://"; "rtsp://"] in
  let web := TXTGenerator.startswith_any ["http://"; "https://"] in
  (absolute u = true -> TXTGenerator.process_url u source_url = u)
  /\ (web source_url = false -> TXTGenerator.process_url u source_url = u)
  /\ (web source_url = true ->
      absolute (TXTGenerator.process_url u source_url) = true)
  /\ TXTGenerator.process_url (TXTGenerator.process_url u source_url) source_url
     = TXTGenerator.process_url u source_url.
Proof.
  intros absolute web.
  assert (H1 : absolute u = true -> TXTGenerator.process_url u source_url = u).
  { intros H. unfold TXTGenerator.process_url. fold absolute. now rewrite H. }
  assert (H2 : web source_url = false -> TXTGenerator.process_url u source_url = u).
  { intros H. unfold TXTGenerator.process_url. fold absolute web.
    rewrite H. now destruct (absolute u). }
  assert (H3 : web source_url = true ->
               absolute (TXTGenerator.process_url u source_url) = true)
    by apply process_url_absolute.
  repeat split; auto.
  destruct (web source_url) eqn:E.
  - specialize (H3 eq_refl). unfold TXTGenerator.process_url at 1.
    fold absolute. now rewrite H3.
  - rewrite (H2 eq_refl). unfold TXTGenerator.process_url. fold absolute web.
    rewrite E. now destruct (absolute u).
Qed.

Lemma txt_parse_extinf_raises (line : string) :
  exists e, TXTGenerator.parse_extinf line = Raise e.
Proof.
  unfold TXTGenerator.parse_extinf, Py.split1. rewrite split1_length.
  destruct (Py.contains "," line); simpl; eauto.
Qed.

Lemma txt_parse_m3u_lines_nothing source_url lines channels out :
  TXTGenerator.parse_m3u_lines source_url lines TXTGenerator.empty_dict channels
  = Ok out ->
  out = channels.
Proof.
  revert channels. induction lines as [| raw rest IH]; intros channels;
    cbn [TXTGenerator.parse_m3u_lines].
  - now intros [= <-].
  - destruct (Py.strip raw =? "")%string; [apply IH |].
    destruct (Py.startswith "#EXTINF" (Py.strip raw)).
    + destruct (txt_parse_extinf_raises (Py.strip raw)) as [e ->].
      cbn [rbind]. discriminate.
    + cbn [negb andb]. destruct (Py.startswith "#" (Py.strip raw)); cbn [negb];
        [apply IH |].
      change (TXTGenerator.truthy TXTGenerator.empty_dict) with false.
      cbn iota. apply IH.
Qed.

Lemma txt_parse_txt_lines_nothing source_url lines channels out :
  TXTGenerator.parse_txt_lines source_url lines channels = Ok out ->
  out = channels.
Proof.
  revert channels. induction lines as [| raw rest IH]; intros channels;
    cbn [TXTGenerator.parse_txt_lines].
  - now intros [= <-].
  - destruct ((Py.strip raw =? "")%string || Py.startswith "#" (Py.strip raw));
      [apply IH |].
    destruct (Py.contains ",#" (Py.strip raw)); [| apply IH].
    destruct (List.length (Py.split1 ",#" (Py.strip raw)) =? 2)%nat;
      [| apply IH].
    unfold list_strip. cbn [rbind]. discriminate.
Qed.

Lemma txt_single_source_nothing fetched source_url out :
  TXTGenerator.process_single_source fetched source_url = Ok out -> out = [].
Proof.
  unfold TXTGenerator.process_single_source.
  destruct fetched as [content |]; [| now intros [= <-]].
  destruct (content =? "")%string; [now intros [= <-] |].
  destruct (Py.contains "#EXTM3U" (substring 0 20 content)).
  - apply txt_parse_m3u_lines_nothing.
  - apply txt_parse_txt_lines_nothing.
Qed.

(** X17. [TXTGenerator] collects no channel from any source: [parse_m3u]
    and [parse_txt] return the empty list or raise, so whatever was
    fetched, [process_sources] leaves the table of groups empty. *)
Theorem txt_generator_collects_nothing
    (completed : list (option string * string)) :
  (forall content source_url out,
      TXTGenerator.parse_m3u content source_url = Ok out -> out = [])
  /\ (forall content source_url out,
         TXTGenerator.parse_txt content source_url = Ok out -> out = [])
  /\ TXTGenerator.process_sources
       (map (fun s => TXTGenerator.process_single_source (fst s) (snd s))
          completed)
     = PyDict.empty.
Proof.
  split; [| split].
  - intros content source_url out. apply txt_parse_m3u_lines_nothing.
  - intros content source_url out. apply txt_parse_txt_lines_nothing.
  - unfold TXTGenerator.process_sources. generalize (@PyDict.empty (list TXTGenerator.channel)).
    induction completed as [| [fetched source_url] completed IH]; intros d;
      cbn [map fold_left fst snd]; [reflexivity |].
    destruct (TXTGenerator.process_single_source fetched source_url)
      as [chans | e] eqn:E; [| apply IH].
    apply txt_single_source_nothing in E. subst chans. apply IH.
Qed.

(** ** The whole of [main] *)

(** X18. Step 3 of [main] never ends normally: after the two M3U files are
    written, [txt_gen.generate] raises AttributeError, because
    [TXTGenerator] has no attribute of that name, and [outputs/simple.txt],
    already opened for writing, is left empty. The two M3U texts are those
    of the restricted and of the full generation, in that order. *)
Theorem main_fails_at_text_output
    (generate_method : list ChannelMerger.channel -> string)
    (cfg : config) (generated_on : string)
    (sources_data : list (string * string)) :
  ~ In "generate" TXTGenerator.attributes
  /\ fst (MainRun.main generate_method cfg generated_on sources_data)
     = Raise (AttributeError "'TXTGenerator' object has no attribute 'generate'")
  /\ snd (MainRun.main generate_method cfg generated_on sources_data)
     = (let '(tvbox_m3u, full_m3u, _) :=
          M3UGenerator.main cfg generated_on sources_data in
        [ ("outputs/tvbox.m3u", tvbox_m3u);
          ("outputs/full.m3u", full_m3u);
          ("outputs/simple.txt", EmptyString) ]).
Proof.
  split.
  - unfold TXTGenerator.attributes. simpl.
    intros H. repeat (destruct H as [H | H]; [discriminate H |]). exact H.
  - unfold MainRun.main, MainRun.write_outputs, M3UGenerator.main,
      M3UGenerator.main_outputs.
    destruct (M3UGenerator.generate cfg generated_on
                (ChannelMerger.merge cfg sources_data) false) as [tv after1].
    destruct (M3UGenerator.generate cfg generated_on after1 true)
      as [full after2].
    split; reflexivity.
Qed.

(** ** Order and provenance of the catalog *)

Section OrderFacts.
Context {A : Type}.
Variable key : A -> string.
Variable rank : A -> Z.

Lemma existsb_keys (t : PyDict.t A) k :
  existsb (String.eqb k) (PyDict.keys t)
  = match PyDict.get k t with Some _ => true | None => false end.
Proof.
  induction t as [| [k' v] t IH]; simpl; [reflexivity |].
  rewrite (String.eqb_sym k k'). destruct (k' =? k)%string; [reflexivity | exact IH].
Qed.

Lemma keys_keep_step (t : PyDict.t A) x :
  PyDict.keys (keep_step key rank t x) = Views.note_key (PyDict.keys t) (key x).
Proof.
  unfold keep_step, Views.note_key. rewrite existsb_keys.
  destruct (PyDict.get (key x) t) as [old |] eqn:E.
  - destruct (rank old <? rank x)%Z; [| reflexivity].
    exact (keys_set_present t (key x) x old E).
  - exact (keys_set_absent t (key x) x E).
Qed.

Lemma keys_fold_keep l (t : PyDict.t A) :
  PyDict.keys (fold_left (keep_step key rank) l t)
  = fold_left Views.note_key (map key l) (PyDict.keys t).
Proof.
  revert t. induction l as [| x l IH]; intros t; simpl; [reflexivity |].
  now rewrite IH, keys_keep_step.
Qed.

Lemma keys_keep_best l :
  PyDict.keys (keep_best key rank l) = Views.first_seen (map key l).
Proof. unfold keep_best, Views.first_seen. apply keys_fold_keep. Qed.
End OrderFacts.

(** X19. The table built by the de-duplication loop of [merge] lists the
    fingerprints in the order in which each first appeared in the input,
    also when a later record replaced the one stored first; the records
    come out of the table in that order, each under its own fingerprint. *)
Theorem dedup_order (all_channels : list ChannelMerger.channel) :
  PyDict.keys (ChannelMerger.dedup all_channels)
  = Views.first_seen (map ChannelMerger._generate_channel_id all_channels)
  /\ map ChannelMerger._generate_channel_id
       (PyDict.values (ChannelMerger.dedup all_channels))
     = Views.first_seen (map ChannelMerger._generate_channel_id all_channels).
Proof.
  rewrite dedup_keep_best. split.
  - apply keys_keep_best.
  - rewrite (keys_of_values ChannelMerger._generate_channel_id).
    + apply keys_keep_best.
    + intros k v Hin. now apply (keep_best_entries _ url_length all_channels).
Qed.

Lemma parse_all_from_sources all_sources sources acc :
  (forall s, In s sources -> In s all_sources) ->
  Forall (Views.from_sources all_sources) acc ->
  Forall (Views.from_sources all_sources)
    (ChannelMerger.parse_all sources acc).
Proof.
  revert acc. induction sources as [| [u content] sources IH];
    intros acc Hsub Hacc; simpl; [exact Hacc |].
  assert (Hrest : forall s, In s sources -> In s all_sources)
    by (intros s Hs; apply Hsub; now right).
  destruct (ChannelMerger.parse_m3u content u) as [channels | e] eqn:E;
    [| auto].
  apply IH; [exact Hrest |]. apply Forall_app. split; [exact Hacc |].
  unfold ChannelMerger.parse_m3u in E.
  apply (parse_lines_emitted u (Py.split Py.LF content)) in E;
    auto; try discriminate.
  eapply Forall_impl; [| exact E]. intros c Hc.
  exists u, content. split; [apply Hsub; now left | exact Hc].
Qed.

(** X20. Every record that [merge] returns was parsed from a line of one
    of the given sources: it carries that source, its url is the stripped
    form of a line of that source's content, not empty and not a comment,
    and it passes both filters. No record with an empty url reaches the
    catalog. *)
Theorem merge_provenance (cfg : config) (sources_data : list (string * string)) :
  Forall
    (fun c =>
       ChannelMerger.url c <> EmptyString
       /\ Py.startswith "#" (ChannelMerger.url c) = false
       /\ Spec.dropped (filters cfg) c = false
       /\ exists u content,
            In (u, content) sources_data
            /\ ChannelMerger.source c = Some u
            /\ exists raw,
                 In raw (Py.split Py.LF content)
                 /\ ChannelMerger.url c = Py.strip raw)
    (ChannelMerger.merge cfg sources_data).
Proof.
  unfold ChannelMerger.merge, ChannelMerger._apply_filters.
  rewrite apply_filters_loop_filter. cbn [app].
  set (all := ChannelMerger.parse_all sources_data []).
  assert (Hall : Forall (Views.from_sources sources_data) all)
    by (apply parse_all_from_sources; auto).
  rewrite dedup_keep_best.
  apply Forall_forall. intros c Hc. apply filter_In in Hc.
  destruct Hc as [Hc Hkeep]. apply negb_true_iff in Hkeep.
  unfold PyDict.values in Hc. apply in_map_iff in Hc.
  destruct Hc as ([k v] & Hv & Hin). simpl in Hv. subst v.
  apply keep_best_entries in Hin. destruct Hin as [_ Hin].
  rewrite Forall_forall in Hall.
  destruct (Hall c Hin) as (u & content & Hsrc & _ & Hs & Hne & Hhash & Hraw).
  split; [exact Hne |]. split; [exact Hhash |]. split; [exact Hkeep |].
  exists u, content. auto.
Qed.
